(** * goodreads-summariser: the notebook pipeline of [Demo.ipynb]

    The notebook defines four functions, run once in sequence:
    [find_review] (fetch a Goodreads page and scrape its review cards),
    [review_cleaning] (build a Polars frame and derive numeric columns),
    [extract_content] (join the review bodies with newlines) and
    [llm_summarise] (one chat-model call).

    The embedding follows the code.  The libraries the notebook calls are
    modelled by what they compute on the values the notebook gives them:
    - text is [String.string]; a character is a code point below 256;
    - BeautifulSoup: a tree of elements and text nodes with [find],
      [find_all], [get] and [get_text];
    - the Rust [regex] crate used by Polars: a backtracking matcher with
      leftmost-first (greedy, Perl-like) choice and one capture group;
    - Polars: a column is a list of nullable values, every expression maps a
      column to a column, and a strict [cast] that fails on one value fails
      the whole frame; [str.replace] replaces the first match only and
      takes a replacement value that is not a text by its text; what it does
      with a null replacement value depends on the release of Polars, and
      the notebook pins none, so both behaviours are modelled
      ([Polars.null_value]);
    - [Float64]: IEEE 754 binary64 through [SpecFloat];
    - the network and the chat model: parameters of the run. *)

From Stdlib Require Import String Ascii List ZArith Lia Bool Arith FinFun.
From Stdlib Require Import SpecFloat.
Import ListNotations.

Local Open Scope string_scope.
Local Open Scope Z_scope.

(** ** Outcomes: a value or a raised exception *)

Inductive result (E A : Type) : Type :=
| Ok (a : A)
| Raise (e : E).
Arguments Ok {E A} a.
Arguments Raise {E A} e.

Definition bind {E A B} (m : result E A) (f : A -> result E B) : result E B :=
  match m with
  | Ok a => f a
  | Raise e => Raise e
  end.

Notation "x <- m ;; k" := (bind m (fun x => k))
  (at level 61, m at next level, right associativity).

Fixpoint mapM {E A B} (f : A -> result E B) (l : list A) : result E (list B) :=
  match l with
  | [] => Ok []
  | a :: l' => b <- f a ;; bs <- mapM f l' ;; Ok (b :: bs)
  end.

(** Method chaining, [x.f().g()], reads left to right. *)
Notation "x |> f" := (f x) (at level 45, left associativity, only parsing).

(** ** Text *)

Module Text.

Definition code (c : ascii) : N := N_of_ascii c.

Definition in_range (lo hi : N) (c : ascii) : bool :=
  (N.leb lo (code c) && N.leb (code c) hi)%bool.

(** ASCII decimal digit. *)
Definition is_digit (c : ascii) : bool := in_range 48 57 c.

(** Python's [str.isspace] on one character (used by [str.strip]). *)
Definition py_isspace (c : ascii) : bool :=
  (in_range 9 13 c || in_range 28 32 c
   || N.eqb (code c) 133 || N.eqb (code c) 160)%bool.

Fixpoint lstrip (s : string) : string :=
  match s with
  | String c s' => if py_isspace c then lstrip s' else s
  | EmptyString => EmptyString
  end.

(** [rstrip]: a trailing run of whitespace is dropped. *)
Fixpoint rstrip (s : string) : string :=
  match s with
  | String c s' =>
      match rstrip s' with
      | EmptyString => if py_isspace c then EmptyString else String c EmptyString
      | t => String c t
      end
  | EmptyString => EmptyString
  end.

(** Python [s.strip()]. *)
Definition strip (s : string) : string := rstrip (lstrip s).

Fixpoint starts_with (p s : string) : bool :=
  match p, s with
  | EmptyString, _ => true
  | String a p', String b s' => (Ascii.eqb a b && starts_with p' s')%bool
  | String _ _, EmptyString => false
  end.

(** Python [sub in s]. *)
Fixpoint contains (sub s : string) : bool :=
  (starts_with sub s ||
   match s with
   | String _ s' => contains sub s'
   | EmptyString => false
   end)%bool.

Fixpoint take (n : nat) (s : string) : string :=
  match n, s with
  | S n', String c s' => String c (take n' s')
  | _, _ => EmptyString
  end.

(** Python [sep.join(l)]. *)
Fixpoint join (sep : string) (l : list string) : string :=
  match l with
  | [] => EmptyString
  | [x] => x
  | x :: l' => x ++ sep ++ join sep l'
  end.

(** Python [s.split(c)] for a one-character separator. *)
Fixpoint split (c : ascii) (s : string) : list string :=
  match s with
  | EmptyString => [EmptyString]
  | String a s' =>
      if Ascii.eqb a c then EmptyString :: split c s'
      else match split c s' with
           | x :: l => String a x :: l
           | [] => [String a EmptyString]
           end
  end.

Definition digit_val (c : ascii) : Z := Z.of_N (code c) - 48.

(** Value of a run of decimal digits, most significant first. *)
Fixpoint digits_val_acc (acc : Z) (s : string) : Z :=
  match s with
  | EmptyString => acc
  | String c s' => digits_val_acc (10 * acc + digit_val c) s'
  end.
Definition digits_val (s : string) : Z := digits_val_acc 0 s.

(** Every character of [s] is in the class [p]. *)
Fixpoint all_of (p : ascii -> bool) (s : string) : bool :=
  match s with
  | EmptyString => true
  | String c s' => (p c && all_of p s')%bool
  end.

Definition all_digits (s : string) : bool := all_of is_digit s.

(** The character [c] does not occur in [s]. *)
Definition lacks (c : ascii) (s : string) : bool :=
  all_of (fun a => negb (Ascii.eqb c a)) s.

Definition digit_char (d : Z) : ascii := ascii_of_N (Z.to_N (48 + d)).

(** Decimal digits of a non-negative number, by repeated division. *)
Fixpoint render_nat_acc (fuel : nat) (n : Z) (acc : string) : string :=
  match fuel with
  | O => acc
  | S fuel' =>
      let acc' := String (digit_char (n mod 10)) acc in
      if n <? 10 then acc' else render_nat_acc fuel' (n / 10) acc'
  end.

(** Decimal text of an integer, as [str(n)] and Rust's [Display]. *)
Definition render_int (n : Z) : string :=
  if n <? 0 then String "-" (render_nat_acc (S (Z.to_nat (Z.log2 (- n)))) (- n) EmptyString)
  else render_nat_acc (S (Z.to_nat (Z.log2 n))) n EmptyString.

End Text.

(** ** Regular expressions, as the Rust [regex] crate matches them

    Polars compiles every pattern of [str.replace] and [str.extract] with this
    crate.  Its search returns the leftmost match, and among the matches that
    start there the one a backtracking matcher finds first: alternatives in
    order, repetitions greedy. *)

Module Regex.

Inductive regex : Type :=
| Eps                              (* the empty pattern *)
| Chr (p : ascii -> bool)          (* one character of a class *)
| Seq (a b : regex)                (* ab *)
| Alt (a b : regex)                (* a|b, a preferred *)
| Star (a : regex)                 (* a*, greedy *)
| Group (a : regex).               (* (a), the capture group *)

Definition Plus (a : regex) : regex := Seq a (Star a).       (* a+ *)
Definition Opt (a : regex) : regex := Alt a Eps.             (* a? *)
Definition Char (c : ascii) : regex := Chr (Ascii.eqb c).    (* a literal character *)

(** A pattern without metacharacters matches itself. *)
Fixpoint Lit (s : string) : regex :=
  match s with
  | EmptyString => Eps
  | String c s' => Seq (Char c) (Lit s')
  end.

(** [\d]: a decimal digit (the only ones below code point 256 are 0-9). *)
Definition digit : regex := Chr Text.is_digit.

(** [\s]: Unicode White_Space, below code point 256. *)
Definition is_space (c : ascii) : bool :=
  (Text.in_range 9 13 c || N.eqb (Text.code c) 32
   || N.eqb (Text.code c) 133 || N.eqb (Text.code c) 160)%bool.
Definition space : regex := Chr is_space.

(** [[kK]] *)
Definition kK : regex := Chr (fun c => (Ascii.eqb c "k" || Ascii.eqb c "K")%bool).

Section Matcher.
Context {R : Type}.

(** The continuation receives the rest of the input and the text of the
    capture group, if the group took part so far. *)
Definition cont : Type := string -> option string -> option R.

(** Greedy iteration: one more round of [m] when it consumes input,
    otherwise (or when every continuation of that round fails) stop here. *)
Fixpoint star_loop (m : string -> option string -> cont -> option R)
         (fuel : nat) (s : string) (cap : option string) (k : cont) : option R :=
  match fuel with
  | O => k s cap
  | S fuel' =>
      match m s cap (fun s1 c1 =>
                       if (String.length s1 <? String.length s)%nat
                       then star_loop m fuel' s1 c1 k else None) with
      | Some x => Some x
      | None => k s cap
      end
  end.

Fixpoint rmatch (r : regex) (s : string) (cap : option string) (k : cont) : option R :=
  match r with
  | Eps => k s cap
  | Chr p =>
      match s with
      | String c s' => if p c then k s' cap else None
      | EmptyString => None
      end
  | Seq a b => rmatch a s cap (fun s1 c1 => rmatch b s1 c1 k)
  | Alt a b =>
      match rmatch a s cap k with
      | Some x => Some x
      | None => rmatch b s cap k
      end
  | Star a => star_loop (rmatch a) (S (String.length s)) s cap k
  | Group a =>
      rmatch a s cap
             (fun s1 _ => k s1 (Some (Text.take (String.length s - String.length s1) s)))
  end.
End Matcher.

(** A match found by a search: the text before it, the capture group, and
    the text after it. *)
Record found : Type := { before : string; group1 : option string; after : string }.

(** Match anchored at the start of [s]. *)
Definition match_here (r : regex) (s : string) : option found :=
  rmatch r s None (fun s1 c => Some {| before := EmptyString; group1 := c; after := s1 |}).

(** Leftmost match: the first start position, from the left, at which the
    pattern matches. *)
Fixpoint search (r : regex) (s : string) : option found :=
  match match_here r s with
  | Some f => Some f
  | None =>
      match s with
      | EmptyString => None
      | String c s' =>
          match search r s' with
          | Some f => Some {| before := String c (before f); group1 := group1 f; after := after f |}
          | None => None
          end
      end
  end.

(** [Regex::replace]: the leftmost match replaced by [val] (a replacement
    without [$] is inserted as it is); no match, no change. *)
Definition replace (r : regex) (val : string) (s : string) : string :=
  match search r s with
  | Some f => before f ++ val ++ after f
  | None => s
  end.

(** Capture group 1 of the leftmost match. *)
Definition extract (r : regex) (s : string) : option string :=
  match search r s with
  | Some f => group1 f
  | None => None
  end.

End Regex.

(** ** Float64: IEEE 754 binary64, round to nearest even *)

Module Float64.

Definition prec : Z := 53.
Definition emax : Z := 1024.
Definition t : Type := spec_float.

Definition mul (x y : t) : t := SFmul prec emax x y.
Definition div (x y : t) : t := SFdiv prec emax x y.

(** The float nearest to an integer. *)
Definition of_Z (n : Z) : t := binary_normalize prec emax n 0 false.

(** The float nearest to the decimal [ip.fp]: the integer written by all
    the digits, divided by the power of ten of the fraction's length, rounded
    once. *)
Definition of_decimal (ip fp : string) : t :=
  match Text.digits_val (ip ++ fp) with
  | Zpos n => div (S754_finite false n 0)
                  (S754_finite false (Z.to_pos (10 ^ Z.of_nat (String.length fp))) 0)
  | _ => S754_zero false
  end.

(** The integer part of a float (rounding toward zero); none for an
    infinity or a NaN. *)
Definition trunc (x : t) : option Z :=
  match x with
  | S754_zero _ => Some 0
  | S754_finite s m e =>
      Some (cond_Zopp s (if 0 <=? e then Zpos m * 2 ^ e else Zpos m / 2 ^ (- e)))
  | S754_infinity _ | S754_nan => None
  end.

End Float64.

(** ** Polars expressions *)

Module Polars.

Inductive error : Type :=
| ColumnNotFoundError      (* a named column is not in the frame *)
| ComputeError             (* an expression cannot be evaluated *)
| InvalidOperationError.   (* a strict cast met a value it cannot convert *)

(** A column: one nullable value for each row. *)
Definition series (A : Type) : Type := list (option A).

(** Element-wise map; a null stays null. *)
Definition map_values {A B} (f : A -> B) (col : series A) : series B :=
  map (option_map f) col.

(** [.str.replace(pattern, value)] with a literal [value]: the first match
    in each row is replaced ([n = 1] is the default). *)
Definition str_replace (pattern : Regex.regex) (value : string)
           (col : series string) : series string :=
  map_values (Regex.replace pattern value) col.

(** What [str.replace] does with a null replacement value.  Polars changed
    it with its release 1.35, and the notebook pins no release:
    - [NullRow], before 1.35: the row becomes null, and a value column of a
      single row, taken as one scalar, must not be null;
    - [TextKept], from 1.35 on: the text of the row is left as it is. *)
Inductive null_value : Type :=
| NullRow
| TextKept.

(** [.str.replace(pattern, value)] with an expression for [value]: each row
    is replaced by its own value; a value column of a single row is taken
    as one scalar. *)
Definition str_replace_expr (nv : null_value) (pattern : Regex.regex)
           (value : series string) (col : series string) : result error (series string) :=
  match value with
  | [Some v] => Ok (str_replace pattern v col)
  | [None] =>
      match nv with
      | NullRow => Raise ComputeError
      | TextKept => Ok col
      end
  | _ =>
      Ok (map (fun sv : option string * option string =>
                 match sv with
                 | (Some s, Some v) => Some (Regex.replace pattern v s)
                 | (Some s, None) =>
                     match nv with
                     | NullRow => None
                     | TextKept => Some s
                     end
                 | (None, _) => None
                 end) (combine col value))
  end.

Definition is_null {A} (o : option A) : bool :=
  match o with
  | None => true
  | Some _ => false
  end.

(** [pl.col(name).str] on a column of the frame that [pl.DataFrame] built
    from Python values that are texts or [None]: the dtype of the column is
    inferred from its values, a column of only [None] has the dtype Null,
    and the [.str] namespace raises on a column that is not String. *)
Definition str_namespace (col : series string) : result error (series string) :=
  if forallb is_null col then Raise InvalidOperationError else Ok col.

(** [.str.extract(pattern, group_index=1)]: null where there is no match. *)
Definition str_extract (pattern : Regex.regex) (col : series string) : series string :=
  map (fun o => match o with
                | Some s => Regex.extract pattern s
                | None => None
                end) col.

(** [.cast(dtype)] is strict: a null stays null, and one value that cannot
    be converted raises for the whole column. *)
Definition cast_value {A B} (conv : A -> option B) (o : option A) : result error (option B) :=
  match o with
  | None => Ok None
  | Some a =>
      match conv a with
      | Some b => Ok (Some b)
      | None => Raise InvalidOperationError
      end
  end.

Definition cast {A B} (conv : A -> option B) (col : series A) : result error (series B) :=
  mapM (cast_value conv) col.

Definition int32_min : Z := - 2 ^ 31.
Definition int32_max : Z := 2 ^ 31 - 1.
Definition in_int32 (n : Z) : bool := ((int32_min <=? n) && (n <=? int32_max))%bool.

(** String to Int32: an optional sign and at least one decimal digit,
    nothing else, within range. *)
Definition String_to_Int32 (s : string) : option Z :=
  let '(neg, ds) :=
    match s with
    | String "-" s' => (true, s')
    | String "+" s' => (false, s')
    | _ => (false, s)
    end in
  match ds with
  | EmptyString => None
  | _ =>
      if Text.all_digits ds then
        let n := if neg then - Text.digits_val ds else Text.digits_val ds in
        if in_int32 n then Some n else None
      else None
  end.

(** Splits a text at its first full stop. *)
Fixpoint split_point (s : string) : string * option string :=
  match s with
  | EmptyString => (EmptyString, None)
  | String c s' =>
      if Ascii.eqb c "." then (EmptyString, Some s')
      else let '(ip, fp) := split_point s' in (String c ip, fp)
  end.

(** String to Float64, on the texts the notebook casts: digits, or digits,
    a full stop and digits (what its [str.extract] returns). *)
Definition String_to_Float64 (s : string) : option Float64.t :=
  match split_point s with
  | (EmptyString, _) => None
  | (ip, None) =>
      if Text.all_digits ip then Some (Float64.of_decimal ip EmptyString) else None
  | (_, Some EmptyString) => None
  | (ip, Some fp) =>
      if (Text.all_digits ip && Text.all_digits fp)%bool
      then Some (Float64.of_decimal ip fp) else None
  end.

(** Float64 to Int32: the fraction is dropped; out of range fails. *)
Definition Float64_to_Int32 (x : Float64.t) : option Z :=
  match Float64.trunc x with
  | Some n => if in_int32 n then Some n else None
  | None => None
  end.

(** Int32 to String: decimal text. *)
Definition Int32_to_String (n : Z) : option string := Some (Text.render_int n).

(** [expr * 1000] on a Float64 column. *)
Definition mul_lit (k : Z) (col : series Float64.t) : series Float64.t :=
  map_values (fun x => Float64.mul x (Float64.of_Z k)) col.

(** [.str.join(delimiter)]: the non-null values joined into one text; an
    empty column gives the empty text. *)
Definition str_join (delimiter : string) (col : series string) : string :=
  Text.join delimiter
            (flat_map (fun o => match o with Some s => [s] | None => [] end) col).

End Polars.

(** ** BeautifulSoup: the parsed page *)

Module Soup.

(** A text node, or an element with its tag name, the values of its
    [class] attribute, its other attributes and its children. *)
#[warnings="-register-all"] Inductive node : Type :=
| TextNode (s : string)
| Elem (name : string) (classes : list string)
       (attrs : list (string * string)) (children : list node).

(** All nodes below [n], in document order. *)
Fixpoint descendants (n : node) : list node :=
  match n with
  | TextNode _ => []
  | Elem _ _ _ cs =>
      (fix go (l : list node) : list node :=
         match l with
         | [] => []
         | c :: l' => (c :: descendants c ++ go l')%list
         end) cs
  end.

(** [class_=c]: one of the element's classes is [c], or the whole
    attribute, its values joined by a space, is [c]. *)
Definition has_class (c : string) (classes : list string) : bool :=
  (existsb (String.eqb c) classes || String.eqb (Text.join " " classes) c)%bool.

Definition is_tag (name : string) (class_ : option string) (n : node) : bool :=
  match n with
  | TextNode _ => false
  | Elem nm cls _ _ =>
      (String.eqb nm name &&
       match class_ with
       | Some c => has_class c cls
       | None => true
       end)%bool
  end.

(** [tag.find_all(name, class_=...)] *)
Definition find_all (name : string) (class_ : option string) (n : node) : list node :=
  filter (is_tag name class_) (descendants n).

(** [tag.find(name, class_=...)]: the first one, or [None]. *)
Definition find (name : string) (class_ : option string) (n : node) : option node :=
  hd_error (find_all name class_ n).

(** [tag.get(key)]: the attribute's value, or [None]. *)
Definition get (key : string) (n : node) : option string :=
  match n with
  | TextNode _ => None
  | Elem _ _ attrs _ =>
      option_map snd (List.find (fun kv => String.eqb (fst kv) key) attrs)
  end.

(** The texts below [n], in document order. *)
Fixpoint strings (n : node) : list string :=
  match n with
  | TextNode s => [s]
  | Elem _ _ _ cs =>
      (fix go (l : list node) : list string :=
         match l with
         | [] => []
         | c :: l' => (strings c ++ go l')%list
         end) cs
  end.

(** [tag.get_text()] *)
Definition get_text (n : node) : string := Text.join "" (strings n).

(** [tag.get_text(strip=True)]: every text stripped, the empty ones
    dropped. *)
Definition get_text_strip (n : node) : string :=
  Text.join ""
            (filter (fun s => negb (String.eqb s ""))
                    (map Text.strip (strings n))).

(** [bs(content, 'html.parser')]: the document, a root above the page's
    top-level nodes. *)
Definition bs (content : list node) : node := Elem "[document]" [] [] content.

End Soup.

(** ** The notebook *)

(** What a cell can raise. *)
Inductive exn : Type :=
| RequestException                    (* [requests.get] could not complete *)
| AttributeError                      (* a method called on [None] *)
| IndexError                          (* a list index out of range *)
| PolarsError (e : Polars.error)
| OllamaError.                        (* the chat model call failed *)

(** [requests.get]: it raises, or it returns a response whatever its status. *)
Inductive response : Type :=
| Response (status_code : Z) (content : list Soup.node).

(** The dictionary [profile]. *)
Record Profile : Type := {
  Name : string;
  Link_Profile : option string;
  An_Author : bool;
  Books : option string;
  Reviews_Amount : string;
  Followers_Amount : string
}.

(** The dictionary [data], one for each review card. *)
Record RawReview : Type := {
  Index : Z;
  Profile_Info : Profile;
  Rating : option string;
  Content : string
}.

(** A row of the cleaned frame: the columns that [review_cleaning] keeps. *)
Record CleanedReviewRow : Type := {
  row_Name : string;
  row_Reviews_Amount : option Z;
  row_Followers_Amount : option Z;
  row_Rating : option Z;
  row_Content : string
}.

(** A method call [x.m(...)]: on [None] it raises. *)
Definition on {A} (x : option A) : result exn A :=
  match x with
  | Some a => Ok a
  | None => Raise AttributeError
  end.

(** [reviews_list[i]] *)
Definition index {A} (l : list A) (i : nat) : result exn A :=
  match nth_error l i with
  | Some a => Ok a
  | None => Raise IndexError
  end.

(** The four variables the span loop assigns. *)
Record meta : Type := {
  check_author : option string;      (* [None] stands for [False] *)
  books_amount : option string;
  reviews_amount : string;
  followers_amount : string
}.

Definition meta_init : meta :=
  {| check_author := None;
     books_amount := None;
     reviews_amount := "Not Found";
     followers_amount := "Not Found" |}.

Definition set_books (m : meta) (v : string) : meta :=
  {| check_author := check_author m; books_amount := Some v;
     reviews_amount := reviews_amount m; followers_amount := followers_amount m |}.
Definition set_reviews (m : meta) (v : string) : meta :=
  {| check_author := check_author m; books_amount := books_amount m;
     reviews_amount := v; followers_amount := followers_amount m |}.
Definition set_followers (m : meta) (v : string) : meta :=
  {| check_author := check_author m; books_amount := books_amount m;
     reviews_amount := reviews_amount m; followers_amount := v |}.
Definition set_author (m : meta) (v : string) : meta :=
  {| check_author := Some v; books_amount := books_amount m;
     reviews_amount := reviews_amount m; followers_amount := followers_amount m |}.

(** The body of [for span in spans], on the span's stripped text: an
    [if]/[elif] chain. *)
Definition classify_span (m : meta) (span_text : string) : meta :=
  if Text.contains "books" span_text then set_books m span_text
  else if Text.contains "reviews" span_text then set_reviews m span_text
  else if Text.contains "followers" span_text then set_followers m span_text
  else if Text.contains "Author" span_text then set_author m span_text
  else m.

Definition classify_spans (span_texts : list string) : meta :=
  fold_left classify_span span_texts meta_init.

(** [bool(check_author)]: [False], and the empty text, are false. *)
Definition py_bool (x : option string) : bool :=
  match x with
  | Some s => negb (String.eqb s "")
  | None => false
  end.

Definition No_Rating_Given : string := "No Rating Given".

(** The guarded lookup of the rating: what the [try] block evaluates. *)
Definition rating_lookup (shelf_status : option Soup.node) : result exn (option string) :=
  s <- on shelf_status ;;
  stars <- on (Soup.find "span" (Some "RatingStars RatingStars__small") s) ;;
  Ok (Soup.get "aria-label" stars).

(** [try: rating_given = ... except: rating_given = 'No Rating Given'] *)
Definition rating_given (shelf_status : option Soup.node) : option string :=
  match rating_lookup shelf_status with
  | Ok v => v
  | Raise _ => Some No_Rating_Given
  end.

(** The body of [for idx, i in enumerate(articles)]. *)
Definition review_card (idx : nat) (i : Soup.node) : result exn RawReview :=
  let profile_info := Soup.find "section" (Some "ReviewerProfile__info") i in
  a <- (p <- on profile_info ;; on (Soup.find "a" None p)) ;;
  let name := Soup.get_text a in
  a' <- (p <- on profile_info ;; on (Soup.find "a" None p)) ;;
  let link_profile := Soup.get "href" a' in
  p <- on profile_info ;;
  let profile_meta := Soup.find "div" (Some "ReviewerProfile__meta") p in
  pm <- on profile_meta ;;
  let spans := Soup.find_all "span" None pm in
  let m := classify_spans (map Soup.get_text_strip spans) in
  let profile :=
    {| Name := name;
       Link_Profile := link_profile;
       An_Author := py_bool (check_author m);
       Books := books_amount m;
       Reviews_Amount := reviews_amount m;
       Followers_Amount := followers_amount m |} in
  let shelf_status := Soup.find "div" (Some "ShelfStatus") i in
  let rating := rating_given shelf_status in
  f <- on (Soup.find "span" (Some "Formatted") i) ;;
  let content := Soup.get_text_strip f in
  Ok {| Index := Z.of_nat idx + 1;
        Profile_Info := profile;
        Rating := rating;
        Content := content |}.

(** The loop over [enumerate(articles)], appending to [all_reviews]; [idx]
    is the position of the first card of [articles]. *)
Fixpoint review_cards (idx : nat) (articles : list Soup.node) : result exn (list RawReview) :=
  match articles with
  | [] => Ok []
  | i :: rest =>
      data <- review_card idx i ;;
      all_reviews <- review_cards (S idx) rest ;;
      Ok (data :: all_reviews)
  end.

(** [find_review] after the request: parsing and extraction. *)
Definition extract_reviews (content : list Soup.node)
  : result exn (string * string * list RawReview) :=
  let soup := Soup.bs content in
  h1 <- on (Soup.find "h1" (Some "Text Text__title1") soup) ;;
  let title := Soup.get_text h1 in
  contributor <- on (Soup.find "span" (Some "ContributorLink__name") soup) ;;
  let author := Soup.get_text contributor in
  let reviews_list := Soup.find_all "div" (Some "ReviewsList") soup in
  reviews_tag <- index reviews_list 1 ;;
  let articles := Soup.find_all "article" (Some "ReviewCard") reviews_tag in
  all_reviews <- review_cards 0 articles ;;
  Ok (title, author, all_reviews).

(** *** Cell 4: [review_cleaning] *)

(** [(\d+(?:\.\d+)?)] *)
Definition number_pattern : Regex.regex :=
  Regex.Group (Regex.Seq (Regex.Plus Regex.digit)
                         (Regex.Opt (Regex.Seq (Regex.Char ".") (Regex.Plus Regex.digit)))).

(** [(\d+(?:\.\d+)?)[kK]\s+followers] *)
Definition thousands_pattern : Regex.regex :=
  Regex.Seq number_pattern
            (Regex.Seq Regex.kK (Regex.Seq (Regex.Plus Regex.space) (Regex.Lit "followers"))).

(** [Rating (\d+) out of] *)
Definition rating_pattern : Regex.regex :=
  Regex.Seq (Regex.Lit "Rating ")
            (Regex.Seq (Regex.Group (Regex.Plus Regex.digit)) (Regex.Lit " out of")).

(** The expression aliased ['Reviews Amount']. *)
Definition Reviews_Amount_expr (col : Polars.series string)
  : result Polars.error (Polars.series Z) :=
  col |> Polars.str_replace (Regex.Lit "reviews") ""
      |> Polars.str_replace (Regex.Lit "review") ""
      |> Polars.str_replace (Regex.Lit " ") ""
      |> Polars.str_replace (Regex.Lit ",") ""
      |> Polars.str_replace (Regex.Lit "NotFound") "0"
      |> Polars.cast Polars.String_to_Int32.

(** The replacement value of the first [str.replace] on ['Followers Amount']:
    the first number of the text, as Float64, times 1000, as Int32; given to
    [str.replace], which works on texts, it is cast to its decimal text. *)
Definition Followers_value_expr (col : Polars.series string)
  : result Polars.error (Polars.series string) :=
  number <- (col |> Polars.str_extract number_pattern |> Polars.cast Polars.String_to_Float64) ;;
  thousands <- (number |> Polars.mul_lit 1000 |> Polars.cast Polars.Float64_to_Int32) ;;
  thousands |> Polars.cast Polars.Int32_to_String.

(** The expression aliased ['Followers Amount']. *)
Definition Followers_Amount_expr (nv : Polars.null_value) (col : Polars.series string)
  : result Polars.error (Polars.series Z) :=
  value <- Followers_value_expr col ;;
  replaced <- Polars.str_replace_expr nv thousands_pattern value col ;;
  replaced |> Polars.str_replace (Regex.Lit "followers") ""
           |> Polars.str_replace (Regex.Lit "follower") ""
           |> Polars.str_replace (Regex.Lit " ") ""
           |> Polars.str_replace (Regex.Lit ",") ""
           |> Polars.cast Polars.String_to_Int32.

(** The expression aliased ['Rating'].  The rating of a dictionary is a
    text or [None], so the column may have no text at all. *)
Definition Rating_expr (col : Polars.series string) : result Polars.error (Polars.series Z) :=
  texts <- Polars.str_namespace col ;;
  texts |> Polars.str_extract rating_pattern |> Polars.cast Polars.String_to_Int32.

(** The frame put together again from its columns. *)
Fixpoint rows (review : list RawReview) (ra fa rt : Polars.series Z) : list CleanedReviewRow :=
  match review, ra, fa, rt with
  | d :: review', a :: ra', f :: fa', t :: rt' =>
      {| row_Name := Name (Profile_Info d);
         row_Reviews_Amount := a;
         row_Followers_Amount := f;
         row_Rating := t;
         row_Content := Content d |} :: rows review' ra' fa' rt'
  | _, _, _, _ => []
  end.

(** [review_cleaning], run with a Polars of either behaviour [nv].  A frame
    built from an empty list has no column, so [unnest('Profile Info')]
    raises.  The frame is returned when none of the three expressions of
    [with_columns] raises.  Polars evaluates them in parallel, so when more
    than one raises, which error comes out is not fixed; here it is that of
    the first in the order they are written, and the properties below do
    not depend on that choice. *)
Definition review_cleaning (nv : Polars.null_value) (review : list RawReview)
  : result Polars.error (list CleanedReviewRow) :=
  match review with
  | [] => Raise Polars.ColumnNotFoundError
  | _ =>
      ra <- Reviews_Amount_expr (map (fun d => Some (Reviews_Amount (Profile_Info d))) review) ;;
      fa <- Followers_Amount_expr nv
              (map (fun d => Some (Followers_Amount (Profile_Info d))) review) ;;
      rt <- Rating_expr (map Rating review) ;;
      Ok (rows review ra fa rt)
  end.

(** *** Cell 5: [extract_content] *)

Definition newline : ascii := "010"%char.

(** [extract_content]: the one row of the joined column.  (An empty frame
    that still has its ['Content'] column joins to the empty text.) *)
Definition extract_content (df : list CleanedReviewRow) : string :=
  Polars.str_join (String newline "") (map (fun r => Some (row_Content r)) df).

(** *** Cells 2, 3 and 6 to 10: the prompt, the request, the model, the run *)

Definition system_prompt : string := "
Please generate an English summary on the reviews provided by the user. It should mention the postivie aspects, critical feedback, and a balanced conclusion based on the provided information.

Specifically, you should include the following points:

* The pacing and flow of the story
* Character development and memorable personalities
* Plot structure and storytelling elements
* Any other consistently praised features

Please ensure your analysis reflects the frequency and intensity of specific comments rather than just listing individual opinions.
".

Definition headers : list (string * string) :=
  [("User-Agent", "Mozilla/5.0 (Windows NT 10.0; Win64; x64) AppleWebKit/537.36 (KHTML, like Gecko) Chrome/129.0.0.0 Safari/537.36")].

(** The cells of the run, in order. *)
Inductive cell : Type :=
| cell_find_review
| cell_review_cleaning
| cell_extract_content
| cell_llm_summarise.

Section Notebook.

(** [requests.get(url, headers=headers)]: a response, or an exception. *)
Variable requests_get : string -> list (string * string) -> result exn response.

(** [ChatOllama(model=model, temperature=0.0).invoke(messages).content] *)
Variable ChatOllama_invoke : string -> list (string * string) -> result exn string.

(** Cell 3: [find_review]. *)
Definition find_review (url : string) : result exn (string * string * list RawReview) :=
  response <- requests_get url headers ;;
  match response with
  | Response _ content => extract_reviews content
  end.

(** Cell 6: [llm_summarise]. *)
Definition llm_summarise (content system_prompt model : string) : result exn string :=
  let messages := [("system", system_prompt); ("human", content)] in
  ChatOllama_invoke model messages.

(** Cells 7 to 10, run in order until one raises, with a Polars of
    behaviour [nv]: the cells that ran, and the outcome. *)
Definition run_all (nv : Polars.null_value) (url : string) : list cell * result exn string :=
  match find_review url with
  | Raise e => ([cell_find_review], Raise e)
  | Ok (_, _, review) =>
      match review_cleaning nv review with
      | Raise e => ([cell_find_review; cell_review_cleaning], Raise (PolarsError e))
      | Ok df =>
          let content := extract_content df in
          ([cell_find_review; cell_review_cleaning; cell_extract_content; cell_llm_summarise],
           llm_summarise content system_prompt "llama3.2:3b")
      end
  end.

End Notebook.

(** ** Notions used to state the properties *)

(** The review-list containers of a page, and the review cards of the
    second one. *)
Definition reviews_lists (content : list Soup.node) : list Soup.node :=
  Soup.find_all "div" (Some "ReviewsList") (Soup.bs content).

Definition articles (content : list Soup.node) : list Soup.node :=
  match nth_error (reviews_lists content) 1 with
  | Some reviews_tag => Soup.find_all "article" (Some "ReviewCard") reviews_tag
  | None => []
  end.

Definition is_some {A} (x : option A) : bool :=
  match x with Some _ => true | None => false end.

(** A card with every element that [find_review] dereferences: the profile
    section, its link and its meta block, and the review body. *)
Definition card_ok (i : Soup.node) : bool :=
  match Soup.find "section" (Some "ReviewerProfile__info") i with
  | Some p =>
      (is_some (Soup.find "a" None p)
       && is_some (Soup.find "div" (Some "ReviewerProfile__meta") p)
       && is_some (Soup.find "span" (Some "Formatted") i))%bool
  | None => false
  end.

(** A well-formed page: a title, an author, two review lists at least, and
    only complete cards in the second. *)
Definition well_formed (content : list Soup.node) : bool :=
  (is_some (Soup.find "h1" (Some "Text Text__title1") (Soup.bs content))
   && is_some (Soup.find "span" (Some "ContributorLink__name") (Soup.bs content))
   && (2 <=? List.length (reviews_lists content))%nat
   && forallb card_ok (articles content))%bool.

(** The indices 1, 2, ..., as Python integers. *)
Definition indices (first : nat) (n : nat) : list Z :=
  map (fun k => Z.of_nat k + 1) (seq first n).

(** The span classification as the specification words it: four
    independent checks on every span, a later one overriding. *)
Definition spec_classify_span (m : meta) (span_text : string) : meta :=
  let m1 := if Text.contains "books" span_text then set_books m span_text else m in
  let m2 := if Text.contains "reviews" span_text then set_reviews m1 span_text else m1 in
  let m3 := if Text.contains "followers" span_text then set_followers m2 span_text else m2 in
  if Text.contains "Author" span_text then set_author m3 span_text else m3.

(** [round(number * 1000)] for the decimal [ip.fp], as the specification
    words it: the exact product, rounded to the nearest integer. *)
Definition spec_round_thousands (ip fp : string) : Z :=
  let scale := 10 ^ Z.of_nat (String.length fp) in
  (2 * 1000 * Text.digits_val (ip ++ fp) + scale) / (2 * scale).

(** Stripping, as the specification words it: every occurrence of the
    characters of [drop] removed. *)
Fixpoint spec_strip_all (drop : ascii -> bool) (s : string) : string :=
  match s with
  | EmptyString => EmptyString
  | String c s' => if drop c then spec_strip_all drop s' else String c (spec_strip_all drop s')
  end.

(** One row of each expression of [review_cleaning]. *)
Definition Reviews_Amount_row (raw : string) : option Z :=
  raw |> Regex.replace (Regex.Lit "reviews") ""
      |> Regex.replace (Regex.Lit "review") ""
      |> Regex.replace (Regex.Lit " ") ""
      |> Regex.replace (Regex.Lit ",") ""
      |> Regex.replace (Regex.Lit "NotFound") "0"
      |> Polars.String_to_Int32.

Definition raise_if_none {A} (x : option A) : result Polars.error A :=
  match x with
  | Some a => Ok a
  | None => Raise Polars.InvalidOperationError
  end.

(** The text of a thousand times [number], through Float64 and Int32. *)
Definition thousands_text (number : string) : option string :=
  match Polars.String_to_Float64 number with
  | Some x =>
      match Polars.Float64_to_Int32 (Float64.mul x (Float64.of_Z 1000)) with
      | Some n => Some (Text.render_int n)
      | None => None
      end
  | None => None
  end.

Definition Followers_value_row (raw : string) : result Polars.error (option string) :=
  match Regex.extract number_pattern raw with
  | None => Ok None
  | Some number => v <- raise_if_none (thousands_text number) ;; Ok (Some v)
  end.

Definition Followers_strip (replaced : string) : option Z :=
  replaced |> Regex.replace (Regex.Lit "followers") ""
           |> Regex.replace (Regex.Lit "follower") ""
           |> Regex.replace (Regex.Lit " ") ""
           |> Regex.replace (Regex.Lit ",") ""
           |> Polars.String_to_Int32.

(** The followers count of a row: with [NullRow], in a frame of two rows or
    more; with [TextKept], in every frame. *)
Definition Followers_Amount_row (nv : Polars.null_value) (raw : string)
  : result Polars.error (option Z) :=
  value <- Followers_value_row raw ;;
  match value, nv with
  | Some v, _ =>
      n <- raise_if_none (Followers_strip (Regex.replace thousands_pattern v raw)) ;;
      Ok (Some n)
  | None, Polars.NullRow => Ok None
  | None, Polars.TextKept => n <- raise_if_none (Followers_strip raw) ;; Ok (Some n)
  end.

(** The rating of a row, in a column that has a text. *)
Definition Rating_row (rating : option string) : result Polars.error (option Z) :=
  match rating with
  | None => Ok None
  | Some s =>
      match Regex.extract rating_pattern s with
      | None => Ok None
      | Some number => n <- raise_if_none (Polars.String_to_Int32 number) ;; Ok (Some n)
      end
  end.

(** A page with two review cards (the end-to-end scenario of the
    specification): Alice, with three profile spans and a rating, and Bob,
    with one span and no rating control. *)
Definition sample_card (name : string) (spans : list string)
           (rating : option string) (body : string) : Soup.node :=
  Soup.Elem "article" ["ReviewCard"] []
    [ Soup.Elem "section" ["ReviewerProfile__info"] []
        [ Soup.Elem "a" [] [("href", "/user/show/1")] [Soup.TextNode name];
          Soup.Elem "div" ["ReviewerProfile__meta"] []
            (map (fun t => Soup.Elem "span" [] [] [Soup.TextNode t]) spans) ];
      Soup.Elem "div" ["ShelfStatus"] []
        match rating with
        | Some label =>
            [Soup.Elem "span" ["RatingStars"; "RatingStars__small"] [("aria-label", label)] []]
        | None => []
        end;
      Soup.Elem "span" ["Formatted"] [] [Soup.TextNode body] ].

Definition sample_page : list Soup.node :=
  [ Soup.Elem "h1" ["Text"; "Text__title1"] [] [Soup.TextNode "A Book"];
    Soup.Elem "span" ["ContributorLink__name"] [] [Soup.TextNode "An Author"];
    Soup.Elem "div" ["ReviewsList"] [] [];
    Soup.Elem "div" ["ReviewsList"] []
      [ sample_card "Alice" ["102 books"; "5 reviews"; "1.2k followers"]
                    (Some "Rating 5 out of 5") "Loved the pacing.";
        sample_card "Bob" ["3 followers"] None "Characters felt flat." ] ].

(** The dictionaries read from that page. *)
Definition sample_review_Alice : RawReview :=
  {| Index := 1;
     Profile_Info := {| Name := "Alice"; Link_Profile := Some "/user/show/1";
                        An_Author := false; Books := Some "102 books";
                        Reviews_Amount := "5 reviews";
                        Followers_Amount := "1.2k followers" |};
     Rating := Some "Rating 5 out of 5";
     Content := "Loved the pacing." |}.

Definition sample_review_Bob : RawReview :=
  {| Index := 2;
     Profile_Info := {| Name := "Bob"; Link_Profile := Some "/user/show/1";
                        An_Author := false; Books := None;
                        Reviews_Amount := "Not Found";
                        Followers_Amount := "3 followers" |};
     Rating := Some "No Rating Given";
     Content := "Characters felt flat." |}.

Definition sample_reviews : list RawReview := [sample_review_Alice; sample_review_Bob].

(** Two reviewers whose profiles only have singular spans ("1 review",
    "1 follower"), so that both counts were left at ['Not Found']. *)
Definition not_found_review (idx : Z) (name rating : string) : RawReview :=
  {| Index := idx;
     Profile_Info := {| Name := name; Link_Profile := None; An_Author := false;
                        Books := None; Reviews_Amount := "Not Found";
                        Followers_Amount := "Not Found" |};
     Rating := Some rating;
     Content := "Fine." |}.

Definition not_found_reviews : list RawReview :=
  [ not_found_review 1 "Carol" "Rating 4 out of 5";
    not_found_review 2 "Dave" "No Rating Given" ].

(** [t] is what is left of [s] after some prefix. *)
Definition suffix_of (t s : string) : Prop := exists u, s = u ++ t.

(** [rest] does not begin with a character of the class [p]. *)
Definition stops (p : ascii -> bool) (rest : string) : Prop :=
  match rest with
  | String a _ => p a = false
  | EmptyString => True
  end.

(** Character classes of the statements: neither [k] nor [K]; a digit
    or a full stop; a digit or a minus sign. *)
Definition not_kK (c : ascii) : bool := negb (Ascii.eqb c "k" || Ascii.eqb c "K").

Definition digit_or_point (a : ascii) : bool := (Text.is_digit a || Ascii.eqb "." a)%bool.

Definition digit_or_minus (a : ascii) : bool := (Text.is_digit a || Ascii.eqb "-" a)%bool.

(** [raised_only e m]: when [m] raises, it raises [e]. *)
Definition raised_only {E A} (e : E) (m : result E A) : Prop :=
  forall e', m = Raise e' -> e' = e.

(** The columns of a frame that hold the two counts. *)
Definition reviews_column (review : list RawReview) : Polars.series string :=
  map (fun d => Some (Reviews_Amount (Profile_Info d))) review.

Definition followers_column (review : list RawReview) : Polars.series string :=
  map (fun d => Some (Followers_Amount (Profile_Info d))) review.

(** The cleaned frame of that page. *)
Definition sample_frame : list CleanedReviewRow :=
  [ {| row_Name := "Alice"; row_Reviews_Amount := Some 5; row_Followers_Amount := Some 1200;
       row_Rating := Some 5; row_Content := "Loved the pacing." |};
    {| row_Name := "Bob"; row_Reviews_Amount := Some 0; row_Followers_Amount := Some 3;
       row_Rating := None; row_Content := "Characters felt flat." |} ].

(** A page without a title and without review lists. *)
Definition untitled_page : list Soup.node :=
  [ Soup.Elem "p" [] [] [Soup.TextNode "Page not found"] ].

(** The last text of [ts] in the class [p]: what a loop that assigns on
    every match ends with. *)
Definition last_match (p : string -> bool) (ts : list string) : option string :=
  List.find p (rev ts).

(** The tests under which each branch of the span loop is reached. *)
Definition is_books (t : string) : bool := Text.contains "books" t.

Definition is_reviews (t : string) : bool :=
  (negb (Text.contains "books" t) && Text.contains "reviews" t)%bool.

Definition is_followers (t : string) : bool :=
  (negb (Text.contains "books" t) && negb (Text.contains "reviews" t)
   && Text.contains "followers" t)%bool.

Definition is_author (t : string) : bool :=
  (negb (Text.contains "books" t) && negb (Text.contains "reviews" t)
   && negb (Text.contains "followers" t) && Text.contains "Author" t)%bool.

Definition or_default (default : string) (x : option string) : string :=
  match x with
  | Some s => s
  | None => default
  end.

(** A page with a title, an author and two review lists without cards. *)
Definition empty_lists_page : list Soup.node :=
  [ Soup.Elem "h1" ["Text"; "Text__title1"] [] [Soup.TextNode "A Book"];
    Soup.Elem "span" ["ContributorLink__name"] [] [Soup.TextNode "An Author"];
    Soup.Elem "div" ["ReviewsList"] [] [];
    Soup.Elem "div" ["ReviewsList"] [] [] ].

(** A card whose profile says "Author of 3 books", and one whose profile
    says "Goodreads Author". *)
Definition author_card (marker : string) : Soup.node :=
  sample_card "Erin" [marker; "7 reviews"] (Some "Rating 3 out of 5") "  Good.  ".

(** Bob's dictionary read at another position, with another link, a books
    text and the author mark; and Bob's row. *)
Definition other_Bob : RawReview :=
  {| Index := 40;
     Profile_Info := {| Name := "Bob"; Link_Profile := None; An_Author := true;
                        Books := Some "9 books"; Reviews_Amount := "Not Found";
                        Followers_Amount := "3 followers" |};
     Rating := Some "No Rating Given";
     Content := "Characters felt flat." |}.

Definition row_Bob : CleanedReviewRow :=
  {| row_Name := "Bob"; row_Reviews_Amount := Some 0; row_Followers_Amount := Some 3;
     row_Rating := None; row_Content := "Characters felt flat." |}.

(** The cleaned rows of [not_found_reviews]. *)
Definition row_Carol : CleanedReviewRow :=
  {| row_Name := "Carol"; row_Reviews_Amount := Some 0; row_Followers_Amount := None;
     row_Rating := Some 4; row_Content := "Fine." |}.

Definition row_Dave : CleanedReviewRow :=
  {| row_Name := "Dave"; row_Reviews_Amount := Some 0; row_Followers_Amount := None;
     row_Rating := None; row_Content := "Fine." |}.

(** A card whose rating element has no [aria-label], the dictionary read
    from it, and a reviewer rated 4; the three of them with Bob in one
    list, and its cleaned frame. *)
Definition unlabelled_card : Soup.node :=
  Soup.Elem "article" ["ReviewCard"] []
    [ Soup.Elem "section" ["ReviewerProfile__info"] []
        [ Soup.Elem "a" [] [("href", "/user/show/2")] [Soup.TextNode "Heidi"];
          Soup.Elem "div" ["ReviewerProfile__meta"] []
            [ Soup.Elem "span" [] [] [Soup.TextNode "4 reviews"];
              Soup.Elem "span" [] [] [Soup.TextNode "9 followers"] ] ];
      Soup.Elem "div" ["ShelfStatus"] []
        [ Soup.Elem "span" ["RatingStars"; "RatingStars__small"] [] [] ];
      Soup.Elem "span" ["Formatted"] [] [Soup.TextNode "Fine."] ].

Definition sample_review_Heidi : RawReview :=
  {| Index := 3;
     Profile_Info := {| Name := "Heidi"; Link_Profile := Some "/user/show/2";
                        An_Author := false; Books := None;
                        Reviews_Amount := "4 reviews";
                        Followers_Amount := "9 followers" |};
     Rating := None;
     Content := "Fine." |}.

Definition sample_review_Grace : RawReview :=
  {| Index := 1;
     Profile_Info := {| Name := "Grace"; Link_Profile := Some "/user/show/3";
                        An_Author := false; Books := None;
                        Reviews_Amount := "8 reviews";
                        Followers_Amount := "12 followers" |};
     Rating := Some "Rating 4 out of 5";
     Content := "Solid." |}.

Definition rated_reviews : list RawReview :=
  [sample_review_Grace; sample_review_Bob; sample_review_Heidi].

Definition rated_frame : list CleanedReviewRow :=
  [ {| row_Name := "Grace"; row_Reviews_Amount := Some 8; row_Followers_Amount := Some 12;
       row_Rating := Some 4; row_Content := "Solid." |};
    {| row_Name := "Bob"; row_Reviews_Amount := Some 0; row_Followers_Amount := Some 3;
       row_Rating := None; row_Content := "Characters felt flat." |};
    {| row_Name := "Heidi"; row_Reviews_Amount := Some 4; row_Followers_Amount := Some 9;
       row_Rating := None; row_Content := "Fine." |} ].

(** A reviewer with a reviews text of two commas, and one whose rating
    label holds a number beyond Int32. *)
Definition two_commas_review : RawReview :=
  {| Index := 2;
     Profile_Info := {| Name := "Frank"; Link_Profile := None; An_Author := false;
                        Books := None; Reviews_Amount := "1,234,567 reviews";
                        Followers_Amount := "3 followers" |};
     Rating := Some "No Rating Given";
     Content := "Long." |}.

Definition big_rating_review : RawReview :=
  {| Index := 1;
     Profile_Info := Profile_Info sample_review_Alice;
     Rating := Some "Rating 99999999999 out of 5";
     Content := "Loved the pacing." |}.

(** * Properties *)

(** ** Text: joining and splitting *)

Lemma starts_with_char (c a : ascii) (s : string) :
  Text.starts_with (String c "") (String a s) = Ascii.eqb c a.
Proof. simpl. now rewrite andb_true_r. Qed.

Lemma contains_char_cons (c a : ascii) (s : string) :
  Text.contains (String c "") (String a s) = false ->
  Ascii.eqb a c = false /\ Text.contains (String c "") s = false.
Proof.
  intros H. change (Text.contains (String c "") (String a s))
    with (Text.starts_with (String c "") (String a s) || Text.contains (String c "") s)%bool in H.
  rewrite starts_with_char in H. apply orb_false_elim in H as [H1 H2].
  split; [now rewrite Ascii.eqb_sym | exact H2].
Qed.

Lemma split_no_sep (c : ascii) (s : string) :
  Text.contains (String c "") s = false -> Text.split c s = [s].
Proof.
  induction s as [|a s IH]; intros H; [reflexivity|].
  apply contains_char_cons in H as [Ha Hs].
  simpl. rewrite Ha, (IH Hs). reflexivity.
Qed.

Lemma split_app_sep (c : ascii) (x rest : string) :
  Text.contains (String c "") x = false ->
  Text.split c (x ++ String c rest) = x :: Text.split c rest.
Proof.
  induction x as [|a x IH]; intros H.
  - simpl. now rewrite Ascii.eqb_refl.
  - apply contains_char_cons in H as [Ha Hx].
    simpl. rewrite Ha, (IH Hx). reflexivity.
Qed.

Lemma split_join (c : ascii) (l : list string) :
  l <> [] ->
  (forall x, In x l -> Text.contains (String c "") x = false) ->
  Text.split c (Text.join (String c "") l) = l.
Proof.
  induction l as [|x l IH]; intros Hne Hall; [congruence|].
  destruct l as [|y l].
  - simpl. apply split_no_sep, Hall. now left.
  - change (Text.join (String c "") (x :: y :: l))
      with (x ++ String c "" ++ Text.join (String c "") (y :: l)).
    change (String c "" ++ Text.join (String c "") (y :: l))
      with (String c (Text.join (String c "") (y :: l))).
    rewrite split_app_sep by (apply Hall; now left).
    f_equal. apply IH; [discriminate|].
    intros z Hz. apply Hall. now right.
Qed.

Lemma str_join_non_null (d : string) (l : list string) :
  Polars.str_join d (map Some l) = Text.join d l.
Proof.
  unfold Polars.str_join. f_equal.
  induction l as [|x l IH]; simpl; [reflexivity | now rewrite IH].
Qed.

Lemma extract_content_join (df : list CleanedReviewRow) :
  extract_content df = Text.join (String newline "") (map row_Content df).
Proof.
  unfold extract_content. rewrite <- str_join_non_null, map_map. reflexivity.
Qed.

(** C8. Splitting the aggregated text of a non-empty frame on the newline
    gives back the [Content] values in order, when none of them holds a
    newline; the aggregated text of an empty frame is the empty text. *)
Theorem extract_content_round_trip :
  (forall df : list CleanedReviewRow,
      df <> [] ->
      (forall r, In r df -> Text.contains (String newline "") (row_Content r) = false) ->
      Text.split newline (extract_content df) = map row_Content df)
  /\ extract_content [] = "".
Proof.
  split; [|reflexivity].
  intros df Hne Hall. rewrite extract_content_join.
  apply split_join.
  - destruct df; [congruence | discriminate].
  - intros x Hx. apply in_map_iff in Hx as (r & <- & Hr). now apply Hall.
Qed.

Lemma extract_content_round_trip_witness :
  sample_frame <> []
  /\ (forall r, In r sample_frame -> Text.contains (String newline "") (row_Content r) = false)
  /\ Text.split newline (extract_content sample_frame) = map row_Content sample_frame.
Proof.
  assert (H1 : sample_frame <> []) by discriminate.
  assert (H2 : forall r, In r sample_frame ->
                         Text.contains (String newline "") (row_Content r) = false).
  { intros r [<- | [<- | []]]; reflexivity. }
  exact (conj H1 (conj H2 (proj1 extract_content_round_trip sample_frame H1 H2))).
Defined.

(** ** The span loop *)

Lemma classify_span_cases (m : meta) (t : string) :
  classify_span m t =
  if Text.contains "books" t then set_books m t
  else if Text.contains "reviews" t then set_reviews m t
  else if Text.contains "followers" t then set_followers m t
  else if Text.contains "Author" t then set_author m t
  else m.
Proof. reflexivity. Qed.

Ltac span_cases t :=
  rewrite classify_span_cases;
  destruct (Text.contains "books" t) eqn:?;
  destruct (Text.contains "reviews" t) eqn:?;
  destruct (Text.contains "followers" t) eqn:?;
  destruct (Text.contains "Author" t) eqn:?;
  try reflexivity; try congruence.

Lemma classify_span_keeps_reviews (m : meta) (t : string) :
  Text.contains "reviews" t = false ->
  reviews_amount (classify_span m t) = reviews_amount m.
Proof. intros H. span_cases t. Qed.

Lemma classify_span_keeps_followers (m : meta) (t : string) :
  Text.contains "followers" t = false ->
  followers_amount (classify_span m t) = followers_amount m.
Proof. intros H. span_cases t. Qed.

Lemma classify_span_keeps_books (m : meta) (t : string) :
  Text.contains "books" t = false ->
  books_amount (classify_span m t) = books_amount m.
Proof. intros H. span_cases t. Qed.

(** A field that no span of the loop touches keeps its value. *)
Lemma fold_keeps {A} (field : meta -> A) (pat : string) :
  (forall m t, Text.contains pat t = false -> field (classify_span m t) = field m) ->
  forall ts m,
    (forall t, In t ts -> Text.contains pat t = false) ->
    field (fold_left classify_span ts m) = field m.
Proof.
  intros Hstep ts. induction ts as [|t ts IH]; intros m Hall; [reflexivity|].
  simpl. rewrite IH by (intros u Hu; apply Hall; now right).
  apply Hstep, Hall. now left.
Qed.

(** C2, as the code has it. The four checks on a span are an [if]/[elif]
    chain in the order books, reviews, followers, Author: the first check
    that holds assigns its variable and the later ones are not made, so one
    span sets one variable at most.  Across spans, a later span that
    matches a category overrides an earlier one. *)
Theorem classify_span_first_match :
  forall (m : meta) (t : string),
    (Text.contains "books" t = true -> classify_span m t = set_books m t)
    /\ (Text.contains "books" t = false -> Text.contains "reviews" t = true ->
        classify_span m t = set_reviews m t)
    /\ (Text.contains "books" t = false -> Text.contains "reviews" t = false ->
        Text.contains "followers" t = true -> classify_span m t = set_followers m t)
    /\ (Text.contains "books" t = false -> Text.contains "reviews" t = false ->
        Text.contains "followers" t = false -> Text.contains "Author" t = true ->
        classify_span m t = set_author m t)
    /\ (Text.contains "books" t = false -> Text.contains "reviews" t = false ->
        Text.contains "followers" t = false -> Text.contains "Author" t = false ->
        classify_span m t = m)
    /\ (forall ts, classify_spans (ts ++ [t]) = classify_span (classify_spans ts) t).
Proof.
  intros m t. repeat split; intros.
  1-5: span_cases t.
  unfold classify_spans. now rewrite fold_left_app.
Qed.

Lemma classify_span_first_match_witness :
  classify_span meta_init "3 books reviews" = set_books meta_init "3 books reviews"
  /\ classify_span meta_init "5 reviews" = set_reviews meta_init "5 reviews"
  /\ classify_span meta_init "Goodreads Author" = set_author meta_init "Goodreads Author"
  /\ classify_span meta_init "1 follower" = meta_init.
Proof.
  split; [|split; [|split]].
  - apply (proj1 (classify_span_first_match meta_init "3 books reviews")). reflexivity.
  - apply (proj1 (proj2 (classify_span_first_match meta_init "5 reviews"))); reflexivity.
  - destruct (classify_span_first_match meta_init "Goodreads Author") as (_ & _ & _ & H & _).
    apply H; reflexivity.
  - destruct (classify_span_first_match meta_init "1 follower") as (_ & _ & _ & _ & H & _).
    apply H; reflexivity.
Defined.

(** C2, as stated, fails: the text "3 books reviews" has both "books" and
    "reviews", yet only [books_amount] is assigned; [reviews_amount] keeps
    ['Not Found'], where four independent checks would have set it. *)
Lemma classify_span_not_last_match :
  Text.contains "books" "3 books reviews" = true
  /\ Text.contains "reviews" "3 books reviews" = true
  /\ reviews_amount (classify_span meta_init "3 books reviews") = "Not Found"
  /\ reviews_amount (spec_classify_span meta_init "3 books reviews") = "3 books reviews"
  /\ classify_span meta_init "3 books reviews" <> spec_classify_span meta_init "3 books reviews".
Proof. repeat split; try reflexivity. vm_compute. discriminate. Qed.

(** ** The rating lookup *)

Lemma rating_given_no_shelf_status : rating_given None = Some No_Rating_Given.
Proof. reflexivity. Qed.

Lemma rating_given_no_stars (s : Soup.node) :
  Soup.find "span" (Some "RatingStars RatingStars__small") s = None ->
  rating_given (Some s) = Some No_Rating_Given.
Proof. intros H. unfold rating_given, rating_lookup. simpl. now rewrite H. Qed.

Lemma rating_given_catch_all (shelf_status : option Soup.node) (e : exn) :
  rating_lookup shelf_status = Raise e ->
  rating_given shelf_status = Some No_Rating_Given.
Proof. intros H. unfold rating_given. now rewrite H. Qed.

(** The lookup raises only when an element is absent; a rating element
    without the label does not raise, and [get] then returns [None]. *)
Lemma rating_given_stars (s stars : Soup.node) :
  Soup.find "span" (Some "RatingStars RatingStars__small") s = Some stars ->
  rating_given (Some s) = Soup.get "aria-label" stars.
Proof. intros H. unfold rating_given, rating_lookup. simpl. now rewrite H. Qed.

Lemma rating_lookup_raises (shelf_status : option Soup.node) (e : exn) :
  rating_lookup shelf_status = Raise e ->
  shelf_status = None
  \/ exists s, shelf_status = Some s
               /\ Soup.find "span" (Some "RatingStars RatingStars__small") s = None.
Proof.
  intros H. destruct shelf_status as [s|]; [right | now left].
  exists s. split; [reflexivity|].
  unfold rating_lookup in H. cbn [on bind] in H.
  destruct (Soup.find "span" (Some "RatingStars RatingStars__small") s); [discriminate H|].
  reflexivity.
Qed.

(** ** The loop over the review cards *)

Lemma review_card_total (idx : nat) (i : Soup.node) :
  card_ok i = true -> exists d, review_card idx i = Ok d.
Proof.
  unfold card_ok, review_card. intros H.
  destruct (Soup.find "section" (Some "ReviewerProfile__info") i) as [p|]; [|discriminate].
  cbn [bind on].
  destruct (Soup.find "a" None p) as [a|]; [|discriminate].
  destruct (Soup.find "div" (Some "ReviewerProfile__meta") p) as [pm|]; [|discriminate].
  destruct (Soup.find "span" (Some "Formatted") i) as [f|]; [|discriminate].
  cbn [bind on]. eexists. reflexivity.
Qed.

(** What a card's dictionary holds when the card is read without error. *)
Lemma review_card_inv (idx : nat) (i : Soup.node) (d : RawReview) :
  review_card idx i = Ok d ->
  card_ok i = true
  /\ Index d = Z.of_nat idx + 1
  /\ Rating d = rating_given (Soup.find "div" (Some "ShelfStatus") i)
  /\ exists p pm,
      Soup.find "section" (Some "ReviewerProfile__info") i = Some p
      /\ Soup.find "div" (Some "ReviewerProfile__meta") p = Some pm
      /\ let m := classify_spans (map Soup.get_text_strip (Soup.find_all "span" None pm)) in
         Reviews_Amount (Profile_Info d) = reviews_amount m
         /\ Followers_Amount (Profile_Info d) = followers_amount m
         /\ Books (Profile_Info d) = books_amount m
         /\ An_Author (Profile_Info d) = py_bool (check_author m).
Proof.
  unfold card_ok, review_card. intros H.
  destruct (Soup.find "section" (Some "ReviewerProfile__info") i) as [p|]; [|discriminate].
  cbn [bind on] in H.
  destruct (Soup.find "a" None p) as [a|]; [|discriminate].
  destruct (Soup.find "div" (Some "ReviewerProfile__meta") p) as [pm|] eqn:Hpm; [|discriminate].
  destruct (Soup.find "span" (Some "Formatted") i) as [f|]; [|discriminate].
  cbn [bind on] in H. injection H as <-. cbn [Index Rating Profile_Info Reviews_Amount
    Followers_Amount Books An_Author is_some andb].
  repeat split. exists p, pm. repeat split. exact Hpm.
Qed.

Lemma review_card_raises (idx : nat) (i : Soup.node) (e : exn) :
  review_card idx i = Raise e -> e = AttributeError /\ card_ok i = false.
Proof.
  unfold card_ok, review_card. intros H.
  destruct (Soup.find "section" (Some "ReviewerProfile__info") i) as [p|];
    cbn [bind on] in H; [|split; [congruence | reflexivity]].
  destruct (Soup.find "a" None p) as [a|];
    cbn [bind on] in H; [|split; [congruence | reflexivity]].
  destruct (Soup.find "div" (Some "ReviewerProfile__meta") p) as [pm|];
    cbn [bind on] in H; [|split; [congruence | reflexivity]].
  destruct (Soup.find "span" (Some "Formatted") i) as [f|];
    cbn [bind on] in H; [discriminate | split; [congruence | reflexivity]].
Qed.

(** C10. A span without the plural word of a category leaves that
    category's variable as it is, so a profile whose spans only have the
    singular ("1 review", "1 follower", "1 book") keeps the defaults:
    ['Not Found'] for the two counts, [None] for the books; and these are
    the values stored in the card's dictionary. *)
Theorem singular_span_keeps_default :
  (forall m t, Text.contains "reviews" t = false ->
               reviews_amount (classify_span m t) = reviews_amount m)
  /\ (forall m t, Text.contains "followers" t = false ->
                  followers_amount (classify_span m t) = followers_amount m)
  /\ (forall m t, Text.contains "books" t = false ->
                  books_amount (classify_span m t) = books_amount m)
  /\ (forall ts, (forall t, In t ts -> Text.contains "reviews" t = false) ->
                 reviews_amount (classify_spans ts) = "Not Found")
  /\ (forall ts, (forall t, In t ts -> Text.contains "followers" t = false) ->
                 followers_amount (classify_spans ts) = "Not Found")
  /\ (forall ts, (forall t, In t ts -> Text.contains "books" t = false) ->
                 books_amount (classify_spans ts) = None)
  /\ (forall idx i d,
         review_card idx i = Ok d ->
         exists p pm,
           Soup.find "section" (Some "ReviewerProfile__info") i = Some p
           /\ Soup.find "div" (Some "ReviewerProfile__meta") p = Some pm
           /\ let ts := map Soup.get_text_strip (Soup.find_all "span" None pm) in
              ((forall t, In t ts -> Text.contains "reviews" t = false) ->
               Reviews_Amount (Profile_Info d) = "Not Found")
              /\ ((forall t, In t ts -> Text.contains "followers" t = false) ->
                  Followers_Amount (Profile_Info d) = "Not Found")
              /\ ((forall t, In t ts -> Text.contains "books" t = false) ->
                  Books (Profile_Info d) = None))
  /\ Text.contains "reviews" "1 review" = false
  /\ Text.contains "followers" "1 follower" = false
  /\ Text.contains "books" "1 book" = false.
Proof.
  assert (Hr : forall ts, (forall t, In t ts -> Text.contains "reviews" t = false) ->
                          reviews_amount (classify_spans ts) = "Not Found").
  { intros ts H. unfold classify_spans.
    now rewrite (fold_keeps reviews_amount "reviews" classify_span_keeps_reviews). }
  assert (Hf : forall ts, (forall t, In t ts -> Text.contains "followers" t = false) ->
                          followers_amount (classify_spans ts) = "Not Found").
  { intros ts H. unfold classify_spans.
    now rewrite (fold_keeps followers_amount "followers" classify_span_keeps_followers). }
  assert (Hb : forall ts, (forall t, In t ts -> Text.contains "books" t = false) ->
                          books_amount (classify_spans ts) = None).
  { intros ts H. unfold classify_spans.
    now rewrite (fold_keeps books_amount "books" classify_span_keeps_books). }
  split; [exact classify_span_keeps_reviews|].
  split; [exact classify_span_keeps_followers|].
  split; [exact classify_span_keeps_books|].
  split; [exact Hr|]. split; [exact Hf|]. split; [exact Hb|].
  split; [|repeat split].
  intros idx i d Hd.
  destruct (review_card_inv _ _ _ Hd) as (_ & _ & _ & p & pm & Hp & Hpm & Hra & Hfa & Hbo & _).
  exists p, pm. split; [exact Hp|]. split; [exact Hpm|].
  cbv zeta in Hra, Hfa, Hbo |- *.
  split; [|split]; intros H.
  - rewrite Hra. now apply Hr.
  - rewrite Hfa. now apply Hf.
  - rewrite Hbo. now apply Hb.
Qed.

Lemma singular_span_keeps_default_witness :
  reviews_amount (classify_spans ["1 review"; "1 follower"; "1 book"]) = "Not Found"
  /\ followers_amount (classify_spans ["1 review"; "1 follower"; "1 book"]) = "Not Found"
  /\ books_amount (classify_spans ["1 review"; "1 follower"; "1 book"]) = None.
Proof.
  destruct singular_span_keeps_default as (_ & _ & _ & Hr & Hf & Hb & _).
  split; [|split].
  - apply Hr. intros t [<- | [<- | [<- | []]]]; reflexivity.
  - apply Hf. intros t [<- | [<- | [<- | []]]]; reflexivity.
  - apply Hb. intros t [<- | [<- | [<- | []]]]; reflexivity.
Defined.

Lemma review_cards_total (articles : list Soup.node) :
  forallb card_ok articles = true ->
  forall idx, exists all_reviews, review_cards idx articles = Ok all_reviews.
Proof.
  induction articles as [|i rest IH]; intros H idx; [now exists []|].
  simpl in H. apply andb_prop in H as [Hi Hrest].
  destruct (review_card_total idx i Hi) as [d Hd].
  destruct (IH Hrest (S idx)) as [ds Hds].
  exists (d :: ds). simpl. rewrite Hd. simpl. rewrite Hds. reflexivity.
Qed.

(** The list returned by the loop follows the cards one for one. *)
Lemma review_cards_inv (articles : list Soup.node) :
  forall idx all_reviews,
    review_cards idx articles = Ok all_reviews ->
    List.length all_reviews = List.length articles
    /\ map Index all_reviews = indices idx (List.length articles)
    /\ forall k i, nth_error articles k = Some i ->
                   exists d, nth_error all_reviews k = Some d
                             /\ review_card (idx + k) i = Ok d.
Proof.
  induction articles as [|i rest IH]; intros idx all_reviews H.
  - injection H as <-. repeat split. intros [|k] j Hk; discriminate.
  - simpl in H.
    destruct (review_card idx i) as [d|e] eqn:Hd; [|discriminate].
    simpl in H.
    destruct (review_cards (S idx) rest) as [ds|e] eqn:Hds; [|discriminate].
    simpl in H. injection H as <-.
    destruct (IH _ _ Hds) as (Hlen & Hidx & Hnth).
    split; [simpl; now rewrite Hlen|]. split.
    + simpl. rewrite Hidx. unfold indices. simpl. f_equal.
      now destruct (review_card_inv _ _ _ Hd) as (_ & -> & _).
    + intros [|k] j Hk.
      * injection Hk as <-. exists d. rewrite Nat.add_0_r. now split.
      * destruct (Hnth k j Hk) as (d' & Hd' & Hcard).
        exists d'. split; [exact Hd'|].
        now replace (idx + S k)%nat with (S idx + k)%nat by lia.
Qed.

Lemma review_cards_raises (articles : list Soup.node) :
  forall idx e, review_cards idx articles = Raise e ->
                e = AttributeError /\ forallb card_ok articles = false.
Proof.
  induction articles as [|i rest IH]; intros idx e H; [discriminate|].
  simpl in H.
  destruct (review_card idx i) as [d|e'] eqn:Hd.
  - simpl in H. destruct (review_cards (S idx) rest) as [ds|e''] eqn:Hds; [discriminate|].
    simpl in H. injection H as <-.
    destruct (IH _ _ Hds) as [-> Hf]. split; [reflexivity|].
    simpl. rewrite Hf. apply andb_false_r.
  - simpl in H. injection H as <-.
    destruct (review_card_raises _ _ _ Hd) as [-> Hf]. split; [reflexivity|].
    simpl. now rewrite Hf.
Qed.

Lemma indices_nth (first n k : nat) :
  (k < n)%nat -> nth_error (indices first n) k = Some (Z.of_nat (first + k) + 1).
Proof.
  intros H. unfold indices.
  rewrite nth_error_map, nth_error_nth' with (d := O) by (now rewrite length_seq).
  simpl. now rewrite seq_nth.
Qed.

Lemma indices_NoDup (first n : nat) : NoDup (indices first n).
Proof.
  unfold indices. apply Injective_map_NoDup; [|apply seq_NoDup].
  intros a b H. lia.
Qed.

(** ** [find_review] after the request *)

Lemma extract_reviews_total (content : list Soup.node) :
  well_formed content = true ->
  exists title author all_reviews,
    extract_reviews content = Ok (title, author, all_reviews)
    /\ review_cards 0 (articles content) = Ok all_reviews.
Proof.
  unfold well_formed, extract_reviews, articles, reviews_lists. intros H.
  apply andb_prop in H as [H Hcards]. apply andb_prop in H as [H Hlists].
  apply andb_prop in H as [Htitle Hauthor].
  destruct (Soup.find "h1" (Some "Text Text__title1") (Soup.bs content)) as [h1|];
    [|discriminate].
  destruct (Soup.find "span" (Some "ContributorLink__name") (Soup.bs content)) as [c|];
    [|discriminate].
  unfold index.
  destruct (nth_error (Soup.find_all "div" (Some "ReviewsList") (Soup.bs content)) 1)
    as [reviews_tag|] eqn:Hnth.
  - destruct (review_cards_total _ Hcards 0%nat) as [ds Hds].
    exists (Soup.get_text h1), (Soup.get_text c), ds.
    simpl. rewrite Hds. now split.
  - apply nth_error_None in Hnth. apply Nat.leb_le in Hlists. lia.
Qed.

Lemma extract_reviews_few_lists (content : list Soup.node) :
  (List.length (reviews_lists content) < 2)%nat ->
  exists e,
    extract_reviews content = Raise e
    /\ (e = AttributeError \/ e = IndexError)
    /\ (is_some (Soup.find "h1" (Some "Text Text__title1") (Soup.bs content)) = true ->
        is_some (Soup.find "span" (Some "ContributorLink__name") (Soup.bs content)) = true ->
        e = IndexError).
Proof.
  unfold reviews_lists, extract_reviews. intros H.
  destruct (Soup.find "h1" (Some "Text Text__title1") (Soup.bs content)) as [h1|];
    cbn [bind on]; [|exists AttributeError; repeat split; [now left | discriminate]].
  destruct (Soup.find "span" (Some "ContributorLink__name") (Soup.bs content)) as [c|];
    cbn [bind on]; [|exists AttributeError; repeat split; [now left | discriminate]].
  unfold index.
  destruct (nth_error (Soup.find_all "div" (Some "ReviewsList") (Soup.bs content)) 1)
    as [reviews_tag|] eqn:Hnth.
  - assert (nth_error (Soup.find_all "div" (Some "ReviewsList") (Soup.bs content)) 1 <> None)
      as Hsome by congruence.
    apply nth_error_Some in Hsome. lia.
  - exists IndexError. cbn [bind]. repeat split. now right.
Qed.

(** C7. On a well-formed page whose second review list holds N review
    cards, the extraction returns N dictionaries, the k-th read from the
    k-th card in document order, with the indices 1, 2, ..., N: each index
    is its position plus one, and no index occurs twice. *)
Theorem find_review_indices :
  forall content : list Soup.node,
    well_formed content = true ->
    exists title author all_reviews,
      extract_reviews content = Ok (title, author, all_reviews)
      /\ List.length all_reviews = List.length (articles content)
      /\ map Index all_reviews = indices 0 (List.length (articles content))
      /\ (forall k d, nth_error all_reviews k = Some d -> Index d = Z.of_nat k + 1)
      /\ NoDup (map Index all_reviews)
      /\ (forall k i, nth_error (articles content) k = Some i ->
                      exists d, nth_error all_reviews k = Some d /\ review_card k i = Ok d).
Proof.
  intros content Hwf.
  destruct (extract_reviews_total content Hwf) as (title & author & ds & Hex & Hcards).
  destruct (review_cards_inv _ _ _ Hcards) as (Hlen & Hidx & Hnth).
  exists title, author, ds. repeat split; try assumption.
  - intros k d Hk.
    assert (Hlt : (k < List.length (articles content))%nat).
    { rewrite <- Hlen. apply nth_error_Some. congruence. }
    pose proof (indices_nth 0 _ k Hlt) as Hi. rewrite <- Hidx, nth_error_map, Hk in Hi.
    simpl in Hi. now injection Hi.
  - rewrite Hidx. apply indices_NoDup.
Qed.

Lemma find_review_indices_witness :
  well_formed sample_page = true
  /\ exists title author all_reviews,
      extract_reviews sample_page = Ok (title, author, all_reviews)
      /\ List.length all_reviews = List.length (articles sample_page)
      /\ map Index all_reviews = indices 0 (List.length (articles sample_page))
      /\ (forall k d, nth_error all_reviews k = Some d -> Index d = Z.of_nat k + 1)
      /\ NoDup (map Index all_reviews)
      /\ (forall k i, nth_error (articles sample_page) k = Some i ->
                      exists d, nth_error all_reviews k = Some d /\ review_card k i = Ok d).
Proof.
  split; [reflexivity|].
  apply (find_review_indices sample_page). reflexivity.
Defined.

(** The extraction of the sample page, computed. *)
Example extract_reviews_sample_page :
  extract_reviews sample_page = Ok ("A Book", "An Author", sample_reviews).
Proof. vm_compute. reflexivity. Qed.

(** C9, as the code has it. A page with fewer than two review lists makes
    the extraction raise, and the run stops in the first cell: no later
    cell runs.  The exception is the [IndexError] of [reviews_list[1]] when
    the title and the author were found; they are looked up first, and a
    page without one of them raises the [AttributeError] of that lookup. *)
Theorem find_review_few_lists :
  forall content : list Soup.node,
    (List.length (reviews_lists content) < 2)%nat ->
    exists e,
      extract_reviews content = Raise e
      /\ (e = AttributeError \/ e = IndexError)
      /\ (is_some (Soup.find "h1" (Some "Text Text__title1") (Soup.bs content)) = true ->
          is_some (Soup.find "span" (Some "ContributorLink__name") (Soup.bs content)) = true ->
          e = IndexError)
      /\ forall requests_get ChatOllama_invoke nv url status_code,
          requests_get url headers = Ok (Response status_code content) ->
          run_all requests_get ChatOllama_invoke nv url = ([cell_find_review], Raise e).
Proof.
  intros content H.
  destruct (extract_reviews_few_lists content H) as (e & He & Hkind & Hidx).
  exists e. repeat split; try assumption.
  intros requests_get llm nv url st Hget.
  unfold run_all, find_review. rewrite Hget. cbn [bind]. now rewrite He.
Qed.

Lemma find_review_few_lists_witness :
  (List.length (reviews_lists untitled_page) < 2)%nat
  /\ exists e,
      extract_reviews untitled_page = Raise e
      /\ (e = AttributeError \/ e = IndexError)
      /\ (is_some (Soup.find "h1" (Some "Text Text__title1") (Soup.bs untitled_page)) = true ->
          is_some (Soup.find "span" (Some "ContributorLink__name") (Soup.bs untitled_page)) = true ->
          e = IndexError)
      /\ forall requests_get ChatOllama_invoke nv url status_code,
          requests_get url headers = Ok (Response status_code untitled_page) ->
          run_all requests_get ChatOllama_invoke nv url = ([cell_find_review], Raise e).
Proof.
  assert (H : (List.length (reviews_lists untitled_page) < 2)%nat) by (vm_compute; lia).
  exact (conj H (find_review_few_lists untitled_page H)).
Defined.

(** C9, as stated, fails: a page without a title and without review lists
    raises at the title lookup, not at [reviews_list[1]]. *)
Lemma find_review_few_lists_title_first :
  (List.length (reviews_lists untitled_page) < 2)%nat
  /\ extract_reviews untitled_page = Raise AttributeError
  /\ extract_reviews untitled_page <> Raise IndexError.
Proof.
  split; [vm_compute; lia|]. split; [reflexivity|]. vm_compute. discriminate.
Qed.

(** ** The request *)

(** C6, as the code has it. When [requests.get] raises, [find_review]
    raises the same exception and the run stops there.  The status of a
    response is never read: whatever it is, the body is parsed and the
    extraction runs on it. *)
Theorem find_review_request :
  forall (requests_get : string -> list (string * string) -> result exn response)
         (url : string),
    (forall e, requests_get url headers = Raise e ->
               find_review requests_get url = Raise e
               /\ forall ChatOllama_invoke nv,
                   run_all requests_get ChatOllama_invoke nv url
                   = ([cell_find_review], Raise e))
    /\ (forall status_code content,
           requests_get url headers = Ok (Response status_code content) ->
           find_review requests_get url = extract_reviews content).
Proof.
  intros requests_get url. split.
  - intros e H. unfold run_all, find_review. rewrite H. now split.
  - intros st content H. unfold find_review. now rewrite H.
Qed.

Lemma find_review_request_witness :
  find_review (fun _ _ => Raise RequestException) "https://www.goodreads.com/book/show/1"
  = Raise RequestException
  /\ find_review (fun _ _ => Ok (Response 200 sample_page))
                 "https://www.goodreads.com/book/show/1"
     = extract_reviews sample_page.
Proof.
  split.
  - apply (proj1 (find_review_request (fun _ _ => Raise RequestException)
                                      "https://www.goodreads.com/book/show/1")
                 RequestException eq_refl).
  - apply (proj2 (find_review_request (fun _ _ => Ok (Response 200 sample_page))
                                      "https://www.goodreads.com/book/show/1")
                 200 sample_page eq_refl).
Defined.

(** C6, as stated, fails: on a response with status 404 whose body is the
    sample page, [find_review] raises nothing, the extraction returns the
    two reviews, and the four cells all run. *)
Lemma find_review_ignores_status :
  (exists all_reviews,
      find_review (fun _ _ => Ok (Response 404 sample_page))
                  "https://www.goodreads.com/book/show/1"
      = Ok ("A Book", "An Author", all_reviews)
      /\ List.length all_reviews = 2%nat)
  /\ (forall nv,
         fst (run_all (fun _ _ => Ok (Response 404 sample_page)) (fun _ _ => Ok "summary")
                      nv "https://www.goodreads.com/book/show/1")
         = [cell_find_review; cell_review_cleaning; cell_extract_content;
            cell_llm_summarise]).
Proof.
  split.
  - eexists. split; [vm_compute; reflexivity | reflexivity].
  - intros nv. destruct nv; vm_compute; reflexivity.
Qed.

(** ** Columns and rows *)

Lemma mapM_nth {E A B} (f : A -> result E B) (l : list A) :
  forall l', mapM f l = Ok l' ->
             List.length l' = List.length l
             /\ forall i a, nth_error l i = Some a ->
                            exists b, nth_error l' i = Some b /\ f a = Ok b.
Proof.
  induction l as [|x l IH]; intros l' H.
  - injection H as <-. split; [reflexivity|]. intros [|i] a Hi; discriminate.
  - cbn [mapM] in H. destruct (f x) as [b|e] eqn:Hx; [|discriminate].
    cbn [bind] in H. destruct (mapM f l) as [bs|e]; [|discriminate].
    cbn [bind] in H. injection H as <-.
    destruct (IH bs eq_refl) as [Hlen Hnth].
    split; [simpl; now rewrite Hlen|].
    intros [|i] a Hi.
    + injection Hi as <-. now exists b.
    + now apply Hnth.
Qed.

Lemma mapM_total {E A B} (f : A -> result E B) (l : list A) :
  (forall a, In a l -> exists b, f a = Ok b) -> exists l', mapM f l = Ok l'.
Proof.
  induction l as [|x l IH]; intros H; [now exists []|].
  destruct (H x (or_introl eq_refl)) as [b Hb].
  destruct IH as [bs Hbs]; [intros a Ha; apply H; now right|].
  exists (b :: bs). cbn [mapM]. rewrite Hb. cbn [bind]. now rewrite Hbs.
Qed.

Lemma mapM_raised_only {E A B} (e : E) (f : A -> result E B) (l : list A) :
  (forall a, raised_only e (f a)) -> raised_only e (mapM f l).
Proof.
  intros Hf. induction l as [|x l IH]; intros e' H; [discriminate|].
  cbn [mapM] in H. destruct (f x) as [b|e1] eqn:Hx.
  - cbn [bind] in H. destruct (mapM f l) as [bs|e2]; [discriminate|].
    cbn [bind] in H. injection H as <-. now apply IH.
  - cbn [bind] in H. injection H as <-. now apply (Hf x).
Qed.

Lemma cast_raised_only {A B} (conv : A -> option B) (col : Polars.series A) :
  raised_only Polars.InvalidOperationError (Polars.cast conv col).
Proof.
  apply mapM_raised_only. intros [a|] e' H; [|discriminate].
  unfold Polars.cast_value in H.
  destruct (conv a); [discriminate | now injection H].
Qed.

Lemma cast_map_values {A B C} (f : A -> B) (conv : B -> option C) (col : Polars.series A) :
  Polars.cast conv (Polars.map_values f col) = Polars.cast (fun a => conv (f a)) col.
Proof.
  unfold Polars.cast, Polars.map_values.
  induction col as [|[a|] col IH]; [reflexivity| |]; cbn [map mapM option_map]; now rewrite IH.
Qed.

Lemma map_values_compose {A B C} (f : A -> B) (g : B -> C) (col : Polars.series A) :
  Polars.map_values g (Polars.map_values f col) = Polars.map_values (fun a => g (f a)) col.
Proof.
  unfold Polars.map_values. rewrite map_map. apply map_ext. now intros [a|].
Qed.

Lemma cast_cons {A B} (conv : A -> option B) (o : option A) (col : Polars.series A) :
  Polars.cast conv (o :: col)
  = (b <- Polars.cast_value conv o ;; bs <- Polars.cast conv col ;; Ok (b :: bs)).
Proof. reflexivity. Qed.

(** Two strict casts in a row are one strict cast. *)
Lemma cast_cast {A B C} (f : A -> option B) (g : B -> option C) (col : Polars.series A) :
  (c <- Polars.cast f col ;; Polars.cast g c)
  = Polars.cast (fun a => match f a with Some b => g b | None => None end) col.
Proof.
  induction col as [|o col IH]; [reflexivity|].
  pose proof (cast_raised_only f col) as Hraise.
  rewrite !cast_cons, <- IH.
  destruct (Polars.cast f col) as [bs|e]; cbn [bind].
  - destruct o as [a|]; cbn [Polars.cast_value bind].
    + destruct (f a) as [b|]; cbn [bind]; [|reflexivity].
      rewrite cast_cons. cbn [Polars.cast_value]. destruct (g b); reflexivity.
    + rewrite cast_cons. reflexivity.
  - rewrite (Hraise e eq_refl).
    destruct o as [a|]; cbn [Polars.cast_value bind]; [|reflexivity].
    destruct (f a) as [b|]; cbn [bind]; [|reflexivity].
    destruct (g b); reflexivity.
Qed.

(** The reviews column is computed row by row. *)
Lemma Reviews_Amount_expr_rows (col : Polars.series string) :
  Reviews_Amount_expr col = Polars.cast Reviews_Amount_row col.
Proof.
  unfold Reviews_Amount_expr, Polars.str_replace.
  rewrite !map_values_compose, cast_map_values. reflexivity.
Qed.

(** A rating column that has a text is computed row by row; one that has
    none is not computed. *)
Lemma Rating_expr_rows (col : Polars.series string) :
  Rating_expr col
  = if forallb Polars.is_null col then Raise Polars.InvalidOperationError
    else mapM Rating_row col.
Proof.
  unfold Rating_expr, Polars.str_namespace.
  destruct (forallb Polars.is_null col); cbn [bind]; [reflexivity|].
  unfold Polars.str_extract, Polars.cast.
  induction col as [|o col IH]; [reflexivity|].
  cbn [map mapM]. rewrite IH. unfold Rating_row, Polars.cast_value.
  destruct o as [s|]; [|reflexivity].
  destruct (Regex.extract rating_pattern s) as [number|]; [|reflexivity].
  destruct (Polars.String_to_Int32 number); reflexivity.
Qed.

Lemma Rating_expr_ok (col : Polars.series string) (rt : Polars.series Z) :
  Rating_expr col = Ok rt ->
  mapM Rating_row col = Ok rt /\ forallb Polars.is_null col = false.
Proof.
  rewrite Rating_expr_rows. destruct (forallb Polars.is_null col); [discriminate|].
  now split.
Qed.

(** A column has a text as soon as one of its rows has. *)
Lemma has_text (col : Polars.series string) (s : string) :
  In (Some s) col -> forallb Polars.is_null col = false.
Proof.
  intros Hin. destruct (forallb Polars.is_null col) eqn:H; [|reflexivity].
  rewrite forallb_forall in H. now apply H in Hin.
Qed.

Lemma bind_ext {E A B} (m : result E A) (f g : A -> result E B) :
  (forall a, f a = g a) -> bind m f = bind m g.
Proof. intros H. destruct m; [apply H | reflexivity]. Qed.

Lemma cast_ext {A B} (f g : A -> option B) (col : Polars.series A) :
  (forall a, f a = g a) -> Polars.cast f col = Polars.cast g col.
Proof.
  intros H. induction col as [|o col IH]; [reflexivity|].
  rewrite !cast_cons, IH. destruct o as [a|]; [|reflexivity].
  cbn [Polars.cast_value]. now rewrite H.
Qed.

(** The replacement value is computed row by row. *)
Lemma Followers_value_expr_cast (col : Polars.series string) :
  Followers_value_expr col
  = Polars.cast thousands_text (Polars.str_extract number_pattern col).
Proof.
  unfold Followers_value_expr, Polars.mul_lit.
  etransitivity.
  { apply bind_ext. intros number. rewrite cast_map_values. apply cast_cast. }
  rewrite cast_cast. apply cast_ext. intros number. unfold thousands_text.
  destruct (Polars.String_to_Float64 number) as [x|]; [|reflexivity].
  destruct (Polars.Float64_to_Int32 _); reflexivity.
Qed.

Lemma Followers_value_expr_rows (raws : list string) :
  Followers_value_expr (map Some raws) = mapM Followers_value_row raws.
Proof.
  rewrite Followers_value_expr_cast. unfold Polars.str_extract.
  induction raws as [|raw raws IH]; [reflexivity|].
  cbn [map mapM]. rewrite cast_cons, IH. unfold Followers_value_row.
  destruct (Regex.extract number_pattern raw) as [number|]; [|reflexivity].
  cbn [Polars.cast_value]. destruct (thousands_text number); reflexivity.
Qed.

Lemma Followers_value_row_raised_only (raw : string) :
  raised_only Polars.InvalidOperationError (Followers_value_row raw).
Proof.
  intros e H. unfold Followers_value_row in H.
  destruct (Regex.extract number_pattern raw) as [number|]; [|discriminate].
  destruct (thousands_text number); [discriminate | now injection H].
Qed.

(** The last steps of the followers expression, on the replaced column. *)
Lemma Followers_strip_cast (replaced : Polars.series string) :
  (replaced |> Polars.str_replace (Regex.Lit "followers") ""
            |> Polars.str_replace (Regex.Lit "follower") ""
            |> Polars.str_replace (Regex.Lit " ") ""
            |> Polars.str_replace (Regex.Lit ",") ""
            |> Polars.cast Polars.String_to_Int32)
  = Polars.cast Followers_strip replaced.
Proof.
  unfold Polars.str_replace. rewrite !map_values_compose, cast_map_values. reflexivity.
Qed.

(** The row-wise branch of [str.replace] with a value column, followed by
    the strip and the cast, is the row function. *)
Lemma Followers_rows_fused (nv : Polars.null_value) (raws : list string) :
  (value <- mapM Followers_value_row raws ;;
   Polars.cast Followers_strip
     (map (fun sv : option string * option string =>
             match sv with
             | (Some s, Some v) => Some (Regex.replace thousands_pattern v s)
             | (Some s, None) =>
                 match nv with
                 | Polars.NullRow => None
                 | Polars.TextKept => Some s
                 end
             | (None, _) => None
             end) (combine (map Some raws) value)))
  = mapM (Followers_Amount_row nv) raws.
Proof.
  induction raws as [|raw raws IH]; [reflexivity|].
  pose proof (mapM_raised_only _ _ raws Followers_value_row_raised_only) as Hraise.
  cbn [mapM]. rewrite <- IH. unfold Followers_Amount_row.
  destruct (Followers_value_row raw) as [v|e]; cbn [bind]; [|reflexivity].
  destruct (mapM Followers_value_row raws) as [vs|e]; cbn [bind map combine].
  - rewrite cast_cons.
    destruct v as [v|]; [|destruct nv]; cbn [Polars.cast_value bind];
      try reflexivity; destruct (Followers_strip _); reflexivity.
  - rewrite (Hraise e eq_refl).
    destruct v as [v|]; [|destruct nv]; cbn [bind];
      try reflexivity; destruct (Followers_strip _); reflexivity.
Qed.

(** The followers column is computed row by row: always when a null value
    leaves the text, and in a frame of two rows or more when a null value
    makes a null row. *)
Lemma Followers_Amount_expr_rows (nv : Polars.null_value) (raws : list string) :
  (nv = Polars.NullRow -> List.length raws <> 1%nat) ->
  Followers_Amount_expr nv (map Some raws) = mapM (Followers_Amount_row nv) raws.
Proof.
  intros Hlen. rewrite <- Followers_rows_fused.
  unfold Followers_Amount_expr. rewrite Followers_value_expr_rows.
  destruct (mapM Followers_value_row raws) as [value|e] eqn:Hv; cbn [bind]; [|reflexivity].
  apply mapM_nth in Hv as [Hvlen _].
  unfold Polars.str_replace_expr.
  destruct value as [|[v|] [|v' value]]; cbn [bind]; try apply Followers_strip_cast.
  - destruct raws as [|raw [|raw' raws]]; try discriminate Hvlen.
    destruct nv; [now specialize (Hlen eq_refl)|].
    rewrite Followers_strip_cast. reflexivity.
  - destruct raws as [|raw [|raw' raws]]; try discriminate Hvlen.
    destruct nv; [now specialize (Hlen eq_refl)|].
    cbn [bind]. rewrite Followers_strip_cast. reflexivity.
Qed.

(** With a null value that makes a null row, in a frame of one row the value
    is one scalar: null, it makes [str.replace] raise. *)
Lemma Followers_Amount_expr_one_row (raw : string) :
  Followers_Amount_expr Polars.NullRow [Some raw]
  = match Followers_value_row raw with
    | Ok None => Raise Polars.ComputeError
    | _ => x <- Followers_Amount_row Polars.NullRow raw ;; Ok [x]
    end.
Proof.
  unfold Followers_Amount_expr.
  change [Some raw] with (map Some [raw]) at 1.
  rewrite (Followers_value_expr_rows [raw]).
  cbn [mapM map]. unfold Followers_Amount_row.
  destruct (Followers_value_row raw) as [[v|]|e]; cbn [bind Polars.str_replace_expr];
    try reflexivity.
  rewrite Followers_strip_cast. unfold Polars.str_replace.
  cbn [Polars.map_values map option_map]. rewrite cast_cons. cbn [Polars.cast_value].
  destruct (Followers_strip _); reflexivity.
Qed.

(** Whatever the number of rows, a followers column that is computed
    holds, in each row, what the row function gives. *)
Lemma Followers_Amount_expr_ok (nv : Polars.null_value) (raws : list string)
      (out : Polars.series Z) :
  Followers_Amount_expr nv (map Some raws) = Ok out ->
  mapM (Followers_Amount_row nv) raws = Ok out.
Proof.
  destruct nv; [|now rewrite Followers_Amount_expr_rows].
  destruct (Nat.eq_dec (List.length raws) 1) as [Hone|Hmany].
  - destruct raws as [|raw [|raw' raws]]; try discriminate.
    cbn [map]. rewrite Followers_Amount_expr_one_row. cbn [mapM].
    destruct (Followers_value_row raw) as [[v|]|e]; try discriminate;
      destruct (Followers_Amount_row Polars.NullRow raw); cbn [bind]; congruence.
  - now rewrite Followers_Amount_expr_rows.
Qed.

(** ** The cleaned frame *)

Lemma rows_nth (review : list RawReview) :
  forall (ra fa rt : Polars.series Z) i d a f t,
    nth_error review i = Some d -> nth_error ra i = Some a ->
    nth_error fa i = Some f -> nth_error rt i = Some t ->
    nth_error (rows review ra fa rt) i
    = Some {| row_Name := Name (Profile_Info d); row_Reviews_Amount := a;
              row_Followers_Amount := f; row_Rating := t; row_Content := Content d |}.
Proof.
  induction review as [|d0 review IH]; intros ra fa rt i d a f t Hd Ha Hf Ht;
    [destruct i; discriminate|].
  destruct ra as [|a0 ra]; [destruct i; discriminate|].
  destruct fa as [|f0 fa]; [destruct i; discriminate|].
  destruct rt as [|t0 rt]; [destruct i; discriminate|].
  destruct i as [|i]; simpl in *.
  - congruence.
  - now apply IH.
Qed.

Lemma rows_length (review : list RawReview) :
  forall (ra fa rt : Polars.series Z),
    List.length ra = List.length review -> List.length fa = List.length review ->
    List.length rt = List.length review ->
    List.length (rows review ra fa rt) = List.length review.
Proof.
  induction review as [|d review IH]; intros ra fa rt Ha Hf Ht; [reflexivity|].
  destruct ra; [discriminate|]. destruct fa; [discriminate|]. destruct rt; [discriminate|].
  simpl in *. f_equal. apply IH; lia.
Qed.

Lemma review_cleaning_columns {nv : Polars.null_value} (review : list RawReview)
      (df : list CleanedReviewRow) :
  review_cleaning nv review = Ok df ->
  exists ra fa rt,
    Reviews_Amount_expr (reviews_column review) = Ok ra
    /\ Followers_Amount_expr nv (followers_column review) = Ok fa
    /\ Rating_expr (map Rating review) = Ok rt
    /\ df = rows review ra fa rt.
Proof.
  unfold review_cleaning, reviews_column, followers_column. intros H.
  destruct review as [|d review]; [discriminate|].
  destruct (Reviews_Amount_expr _) as [ra|e]; [|discriminate]. cbn [bind] in H.
  destruct (Followers_Amount_expr _ _) as [fa|e]; [|discriminate]. cbn [bind] in H.
  destruct (Rating_expr _) as [rt|e]; [|discriminate]. cbn [bind] in H.
  injection H as <-. now exists ra, fa, rt.
Qed.

(** Every row of a cleaned frame comes from the dictionary at its
    position, through the three row functions. *)
Lemma review_cleaning_inv {nv : Polars.null_value} (review : list RawReview)
      (df : list CleanedReviewRow) :
  review_cleaning nv review = Ok df ->
  List.length df = List.length review
  /\ forall i d,
      nth_error review i = Some d ->
      exists row,
        nth_error df i = Some row
        /\ row_Name row = Name (Profile_Info d)
        /\ row_Content row = Content d
        /\ Reviews_Amount_row (Reviews_Amount (Profile_Info d)) = row_Reviews_Amount row
        /\ Followers_Amount_row nv (Followers_Amount (Profile_Info d))
           = Ok (row_Followers_Amount row)
        /\ Rating_row (Rating d) = Ok (row_Rating row).
Proof.
  intros H. apply review_cleaning_columns in H as (ra & fa & rt & Hra & Hfa & Hrt & ->).
  rewrite Reviews_Amount_expr_rows in Hra. unfold Polars.cast, reviews_column in Hra.
  unfold followers_column in Hfa.
  rewrite <- (map_map (fun d => Followers_Amount (Profile_Info d)) Some) in Hfa.
  apply Followers_Amount_expr_ok in Hfa. apply Rating_expr_ok in Hrt as [Hrt _].
  apply mapM_nth in Hra as [Hla Hra]. apply mapM_nth in Hfa as [Hlf Hfa].
  apply mapM_nth in Hrt as [Hlt Hrt]. rewrite length_map in Hla, Hlf, Hlt.
  split; [now apply rows_length|].
  intros i d Hd.
  destruct (Hra i (Some (Reviews_Amount (Profile_Info d)))) as (a & Ha & Hca);
    [now rewrite nth_error_map, Hd|].
  destruct (Hfa i (Followers_Amount (Profile_Info d))) as (f & Hf & Hcf);
    [now rewrite nth_error_map, Hd|].
  destruct (Hrt i (Rating d)) as (t & Ht & Hct); [now rewrite nth_error_map, Hd|].
  eexists. split; [apply (rows_nth _ _ _ _ _ _ _ _ _ Hd Ha Hf Ht)|].
  cbn [row_Name row_Content row_Reviews_Amount row_Followers_Amount row_Rating].
  repeat split; try assumption.
  unfold Polars.cast_value in Hca.
  destruct (Reviews_Amount_row _); [now injection Hca as <- | discriminate].
Qed.

(** The cleaning of the sample page's dictionaries, computed: the
    end-to-end scenario of the specification. *)
Example review_cleaning_sample (nv : Polars.null_value) :
  review_cleaning nv sample_reviews = Ok sample_frame.
Proof. destruct nv; vm_compute; reflexivity. Qed.

Example extract_content_sample :
  extract_content sample_frame
  = "Loved the pacing." ++ String newline "Characters felt flat.".
Proof. vm_compute. reflexivity. Qed.

(** ** The rating column *)

Example review_cleaning_rated (nv : Polars.null_value) :
  review_cleaning nv rated_reviews = Ok rated_frame.
Proof. destruct nv; vm_compute; reflexivity. Qed.

(** A frame without any rating text is not cleaned. *)
Lemma review_cleaning_no_rating_text (nv : Polars.null_value) (review : list RawReview) :
  (forall d, In d review -> Rating d = None) ->
  exists e, review_cleaning nv review = Raise e.
Proof.
  intros Hnone.
  destruct (review_cleaning nv review) as [df|e] eqn:H; [exfalso | now exists e].
  apply review_cleaning_columns in H as (ra & fa & rt & _ & _ & Hrt & _).
  apply Rating_expr_ok in Hrt as [_ Htext].
  assert (Hall : forallb Polars.is_null (map Rating review) = true).
  { apply forallb_forall. intros o Ho. apply in_map_iff in Ho as (d & <- & Hd).
    now rewrite (Hnone d Hd). }
  congruence.
Qed.

(** C5, as the code has it.  The guarded lookup raises exactly when the
    shelf-status element or the rating element is absent, and whatever it
    raises is caught: [rating_given] is then ['No Rating Given'].  A rating
    element that is found raises nothing, also when it has no [aria-label]:
    [rating_given] is what [get] returns, [None] without the attribute, and
    not the sentinel.  This is the rating stored for the card.  In a cleaned
    frame the rows of ['No Rating Given'] and of [None] have a null
    [Rating], and the row of ['Rating 4 out of 5'] has 4; a frame in which
    every rating is [None] is not cleaned. *)
Theorem rating_fallback :
  (forall shelf_status,
      shelf_status = None
      \/ (exists s, shelf_status = Some s
                    /\ Soup.find "span" (Some "RatingStars RatingStars__small") s = None) ->
      rating_given shelf_status = Some No_Rating_Given)
  /\ (forall shelf_status e,
         rating_lookup shelf_status = Raise e ->
         rating_given shelf_status = Some No_Rating_Given
         /\ (shelf_status = None
             \/ exists s, shelf_status = Some s
                          /\ Soup.find "span" (Some "RatingStars RatingStars__small") s
                             = None))
  /\ (forall s stars,
         Soup.find "span" (Some "RatingStars RatingStars__small") s = Some stars ->
         rating_given (Some s) = Soup.get "aria-label" stars)
  /\ (forall idx i d, review_card idx i = Ok d ->
                      Rating d = rating_given (Soup.find "div" (Some "ShelfStatus") i))
  /\ (forall nv review df,
         review_cleaning nv review = Ok df ->
         forall k d,
           nth_error review k = Some d ->
           exists row,
             nth_error df k = Some row
             /\ (Rating d = Some No_Rating_Given -> row_Rating row = None)
             /\ (Rating d = None -> row_Rating row = None)
             /\ (Rating d = Some "Rating 4 out of 5" -> row_Rating row = Some 4))
  /\ (forall nv review,
         (forall d, In d review -> Rating d = None) ->
         exists e, review_cleaning nv review = Raise e).
Proof.
  split; [|split; [|split; [|split; [|split]]]].
  - intros shelf_status [-> | (s & -> & Hs)];
      [exact rating_given_no_shelf_status | exact (rating_given_no_stars s Hs)].
  - intros shelf_status e H.
    split; [exact (rating_given_catch_all _ _ H) | exact (rating_lookup_raises _ _ H)].
  - exact rating_given_stars.
  - intros idx i d H; now destruct (review_card_inv _ _ _ H) as (_ & _ & Hr & _).
  - intros nv review df H k d Hd.
    destruct (review_cleaning_inv _ _ H) as [_ Hrows].
    destruct (Hrows k d Hd) as (row & Hrow & _ & _ & _ & _ & Hrating).
    exists row. split; [exact Hrow|].
    split; [|split]; intros Hr; rewrite Hr in Hrating.
    + assert (E : Rating_row (Some No_Rating_Given) = Ok None) by (vm_compute; reflexivity).
      congruence.
    + cbn [Rating_row] in Hrating. congruence.
    + assert (E : Rating_row (Some "Rating 4 out of 5") = Ok (Some 4))
        by (vm_compute; reflexivity).
      congruence.
  - exact review_cleaning_no_rating_text.
Qed.

Lemma rating_fallback_witness :
  rating_given (Some (Soup.Elem "div" ["ShelfStatus"] [] [])) = Some No_Rating_Given
  /\ (exists row, nth_error rated_frame 0 = Some row /\ row_Rating row = Some 4)
  /\ (exists row, nth_error rated_frame 1 = Some row /\ row_Rating row = None)
  /\ (exists row, nth_error rated_frame 2 = Some row /\ row_Rating row = None)
  /\ (exists e, review_cleaning Polars.TextKept [sample_review_Heidi] = Raise e).
Proof.
  destruct rating_fallback as (Habsent & _ & _ & _ & Hrows & Hnone).
  split; [|split; [|split; [|split]]].
  - apply Habsent. right. eexists. split; reflexivity.
  - destruct (Hrows Polars.TextKept rated_reviews rated_frame
                    (review_cleaning_rated Polars.TextKept) 0%nat sample_review_Grace eq_refl)
      as (row & Hrow & _ & _ & H4).
    exists row. split; [exact Hrow | exact (H4 eq_refl)].
  - destruct (Hrows Polars.TextKept rated_reviews rated_frame
                    (review_cleaning_rated Polars.TextKept) 1%nat sample_review_Bob eq_refl)
      as (row & Hrow & Hsentinel & _).
    exists row. split; [exact Hrow | exact (Hsentinel eq_refl)].
  - destruct (Hrows Polars.TextKept rated_reviews rated_frame
                    (review_cleaning_rated Polars.TextKept) 2%nat sample_review_Heidi eq_refl)
      as (row & Hrow & _ & Hnull & _).
    exists row. split; [exact Hrow | exact (Hnull eq_refl)].
  - apply Hnone. intros d [<- | []]. reflexivity.
Defined.

(** C5, as stated, fails: on a card whose rating element is there without
    its [aria-label], the lookup of the attribute fails without raising;
    the rating stored for the card is [None], not ['No Rating Given']. *)
Lemma rating_label_missing :
  rating_lookup (Soup.find "div" (Some "ShelfStatus") unlabelled_card) = Ok None
  /\ rating_given (Soup.find "div" (Some "ShelfStatus") unlabelled_card) = None
  /\ rating_given (Soup.find "div" (Some "ShelfStatus") unlabelled_card)
     <> Some No_Rating_Given
  /\ review_card 2 unlabelled_card = Ok sample_review_Heidi
  /\ Rating sample_review_Heidi <> Some No_Rating_Given.
Proof.
  split; [vm_compute; reflexivity|].
  split; [vm_compute; reflexivity|].
  split; [vm_compute; discriminate|].
  split; [vm_compute; reflexivity|].
  discriminate.
Qed.

(** ** The two count columns *)


Lemma Followers_Amount_row_raised_only (nv : Polars.null_value) (raw : string) :
  raised_only Polars.InvalidOperationError (Followers_Amount_row nv raw).
Proof.
  intros e H. unfold Followers_Amount_row in H.
  destruct (Followers_value_row raw) as [v|e'] eqn:Hv; cbn [bind] in H.
  - destruct v as [v|]; [|destruct nv]; try discriminate H;
      destruct (Followers_strip _); cbn [raise_if_none bind] in H;
      solve [discriminate H | now injection H].
  - injection H as <-. exact (Followers_value_row_raised_only raw e' Hv).
Qed.

(** One row that raises makes the column raise. *)
Lemma mapM_raises {E A B} (e : E) (f : A -> result E B) (l : list A) (a : A) :
  (forall x, raised_only e (f x)) -> In a l -> f a = Raise e -> mapM f l = Raise e.
Proof.
  intros Hf Hin Ha.
  destruct (mapM f l) as [bs|e'] eqn:H.
  - apply In_nth_error in Hin as [i Hi].
    destruct (mapM_nth f l bs H) as [_ Hnth].
    destruct (Hnth i a Hi) as (b & _ & Hb). congruence.
  - now rewrite (mapM_raised_only e f l Hf e' H).
Qed.

(** When a null value leaves the text, a followers text on which the row
    function raises makes the column raise, and the cleaning with it. *)
Lemma Followers_Amount_TextKept_raises (review : list RawReview) (d : RawReview) :
  In d review ->
  Followers_Amount_row Polars.TextKept (Followers_Amount (Profile_Info d))
  = Raise Polars.InvalidOperationError ->
  Followers_Amount_expr Polars.TextKept (followers_column review)
  = Raise Polars.InvalidOperationError
  /\ exists e, review_cleaning Polars.TextKept review = Raise e.
Proof.
  intros Hin Hrow.
  assert (Hcol : Followers_Amount_expr Polars.TextKept (followers_column review)
                 = Raise Polars.InvalidOperationError).
  { unfold followers_column.
    rewrite <- (map_map (fun d => Followers_Amount (Profile_Info d)) Some).
    rewrite Followers_Amount_expr_rows by discriminate.
    apply (mapM_raises _ _ _ (Followers_Amount (Profile_Info d)));
      [apply Followers_Amount_row_raised_only
      | exact (in_map (fun d => Followers_Amount (Profile_Info d)) review d Hin)
      | exact Hrow]. }
  split; [exact Hcol|].
  destruct (review_cleaning Polars.TextKept review) as [df|e] eqn:H; [exfalso | now exists e].
  apply review_cleaning_columns in H as (ra & fa & rt & _ & Hfa & _). congruence.
Qed.



(** ** The matcher on the notebook's patterns *)

Lemma append_nil_r (s : string) : s ++ "" = s.
Proof. induction s as [|c s IH]; simpl; [reflexivity | now rewrite IH]. Qed.

Lemma append_assoc (a b c : string) : (a ++ b) ++ c = a ++ b ++ c.
Proof. induction a as [|x a IH]; simpl; [reflexivity | now rewrite IH]. Qed.

Lemma length_append (a b : string) :
  String.length (a ++ b) = (String.length a + String.length b)%nat.
Proof. induction a as [|x a IH]; simpl; [reflexivity | now rewrite IH]. Qed.

Lemma all_of_append (p : ascii -> bool) (a b : string) :
  Text.all_of p (a ++ b) = (Text.all_of p a && Text.all_of p b)%bool.
Proof.
  induction a as [|x a IH]; simpl; [reflexivity|]. now rewrite IH, andb_assoc.
Qed.

Lemma all_of_weaken (p q : ascii -> bool) (s : string) :
  (forall c, p c = true -> q c = true) -> Text.all_of p s = true -> Text.all_of q s = true.
Proof.
  intros Hpq. induction s as [|c s IH]; simpl; [reflexivity|].
  intros H. apply andb_prop in H as [Hc Hs]. now rewrite (Hpq c Hc), IH.
Qed.

Lemma take_append (a b : string) :
  Text.take (String.length (a ++ b) - String.length b) (a ++ b) = a.
Proof.
  rewrite length_append, Nat.add_sub.
  induction a as [|x a IH]; simpl; [now destruct b | now rewrite IH].
Qed.

Lemma suffix_of_refl (s : string) : suffix_of s s.
Proof. now exists "". Qed.

Lemma suffix_of_tail (c : ascii) (s : string) : suffix_of s (String c s).
Proof. now exists (String c ""). Qed.

Lemma suffix_of_trans (a b c : string) : suffix_of a b -> suffix_of b c -> suffix_of a c.
Proof. intros [u ->] [v ->]. exists (v ++ u). now rewrite append_assoc. Qed.

Lemma all_of_suffix (p : ascii -> bool) (t s : string) :
  suffix_of t s -> Text.all_of p s = true -> Text.all_of p t = true.
Proof. intros [u ->] H. rewrite all_of_append in H. now apply andb_prop in H. Qed.

Section MatcherFacts.
Context {R : Type}.
Implicit Types (k : @Regex.cont R) (cap : option string).

(** The matcher only ever continues on what is left of its input: when
    the continuation fails there, so does the match. *)
Lemma star_loop_none (m : string -> option string -> Regex.cont -> option R) :
  (forall s cap k, (forall t cap', suffix_of t s -> k t cap' = None) -> m s cap k = None) ->
  forall fuel s cap k,
    (forall t cap', suffix_of t s -> k t cap' = None) ->
    Regex.star_loop m fuel s cap k = None.
Proof.
  intros Hm. induction fuel as [|fuel IH]; intros s cap k Hk; simpl.
  - apply Hk, suffix_of_refl.
  - rewrite Hm; [apply Hk, suffix_of_refl|].
    intros t cap' Ht. destruct (_ <? _)%nat; [|reflexivity].
    apply IH. intros t' cap'' Ht'. apply Hk. eapply suffix_of_trans; eassumption.
Qed.

Lemma rmatch_none (r : Regex.regex) :
  forall s cap k,
    (forall t cap', suffix_of t s -> k t cap' = None) ->
    Regex.rmatch r s cap k = None.
Proof.
  induction r as [|p|a IHa b IHb|a IHa b IHb|a IHa|a IHa]; intros s cap k Hk;
    cbn [Regex.rmatch].
  - apply Hk, suffix_of_refl.
  - destruct s as [|c s]; [reflexivity|]. destruct (p c); [|reflexivity].
    apply Hk, suffix_of_tail.
  - apply IHa. intros t cap' Ht. apply IHb. intros t' cap'' Ht'.
    apply Hk. eapply suffix_of_trans; eassumption.
  - rewrite IHa by exact Hk. now apply IHb.
  - now apply star_loop_none.
  - apply IHa. intros t cap' Ht. now apply Hk.
Qed.

(** A literal pattern matches exactly its own text. *)
Lemma rmatch_Lit_here (p t : string) cap k :
  Regex.rmatch (Regex.Lit p) (p ++ t) cap k = k t cap.
Proof.
  revert cap. induction p as [|c p IH]; intros cap; simpl; [reflexivity|].
  now rewrite Ascii.eqb_refl.
Qed.

Lemma rmatch_Lit_other (c a : ascii) (p s : string) cap k :
  Ascii.eqb c a = false ->
  Regex.rmatch (Regex.Lit (String c p)) (String a s) cap k = None.
Proof. intros H. simpl. now rewrite H. Qed.

(** A greedy run of one class takes the whole run when the rest of the
    pattern then succeeds. *)
Lemma star_loop_greedy (p : ascii -> bool)
      (m : string -> option string -> Regex.cont -> option R) (run : string) :
  (forall s cap k, m s cap k = Regex.rmatch (Regex.Chr p) s cap k) ->
  Text.all_of p run = true ->
  forall fuel rest cap k x,
    stops p rest ->
    (String.length run <= fuel)%nat ->
    k rest cap = Some x ->
    Regex.star_loop m fuel (run ++ rest) cap k = Some x.
Proof.
  intros Hm.
  induction run as [|c run IH]; intros Hrun fuel rest cap k x Hstop Hfuel Hk.
  - destruct fuel as [|fuel]; cbn [Regex.star_loop append]; [exact Hk|].
    rewrite Hm. cbn [Regex.rmatch].
    destruct rest as [|a rest]; [now rewrite Hk|].
    simpl in Hstop. now rewrite Hstop, Hk.
  - destruct fuel as [|fuel]; [simpl in Hfuel; lia|].
    simpl in Hrun. apply andb_prop in Hrun as [Hc Hrun].
    cbn [Regex.star_loop append]. rewrite Hm. cbn [Regex.rmatch]. rewrite Hc.
    replace (String.length (run ++ rest) <? String.length (String c (run ++ rest)))%nat
      with true by (symmetry; apply Nat.ltb_lt; simpl; lia).
    rewrite (IH Hrun fuel rest cap k x Hstop); [reflexivity | simpl in Hfuel; lia | exact Hk].
Qed.

(** [a+] on a run of the class [p], then the rest of the pattern. *)
Lemma rmatch_Plus_greedy (p : ascii -> bool) (c : ascii) (run rest : string) cap k x :
  p c = true -> Text.all_of p run = true -> stops p rest ->
  k rest cap = Some x ->
  Regex.rmatch (Regex.Plus (Regex.Chr p)) (String c (run ++ rest)) cap k = Some x.
Proof.
  intros Hc Hrun Hstop Hk. unfold Regex.Plus. cbn [Regex.rmatch]. rewrite Hc.
  apply (star_loop_greedy p); try assumption; [reflexivity|]. rewrite length_append. lia.
Qed.

End MatcherFacts.

(** *** Searching and replacing *)

Lemma search_here (r : Regex.regex) (s : string) (f : Regex.found) :
  Regex.match_here r s = Some f -> Regex.search r s = Some f.
Proof. intros H. destruct s; simpl; now rewrite H. Qed.

Lemma search_none (r : Regex.regex) (s : string) :
  (forall t, suffix_of t s -> Regex.match_here r t = None) -> Regex.search r s = None.
Proof.
  induction s as [|c s IH]; intros H; simpl.
  - now rewrite (H "" (suffix_of_refl _)).
  - rewrite (H _ (suffix_of_refl _)), IH; [reflexivity|].
    intros t Ht. apply H. eapply suffix_of_trans; [exact Ht | apply suffix_of_tail].
Qed.

Lemma replace_here (r : Regex.regex) (v s t : string) (g : option string) :
  Regex.match_here r s = Some {| Regex.before := ""; Regex.group1 := g; Regex.after := t |} ->
  Regex.replace r v s = v ++ t.
Proof. intros H. unfold Regex.replace. now rewrite (search_here _ _ _ H). Qed.

Lemma replace_none (r : Regex.regex) (v s : string) :
  Regex.search r s = None -> Regex.replace r v s = s.
Proof. intros H. unfold Regex.replace. now rewrite H. Qed.

Lemma replace_skip_char (r : Regex.regex) (v : string) (c : ascii) (s : string) :
  Regex.match_here r (String c s) = None ->
  Regex.replace r v (String c s) = String c (Regex.replace r v s).
Proof.
  intros H. unfold Regex.replace. cbn [Regex.search]. rewrite H.
  destruct (Regex.search r s); reflexivity.
Qed.

(** The first match of a literal pattern is not before the first
    occurrence of its first character. *)
Lemma replace_Lit_skip (c : ascii) (p v u w : string) :
  Text.lacks c u = true ->
  Regex.replace (Regex.Lit (String c p)) v (u ++ w)
  = u ++ Regex.replace (Regex.Lit (String c p)) v w.
Proof.
  induction u as [|a u IH]; intros H; [reflexivity|].
  unfold Text.lacks in H. simpl in H. apply andb_prop in H as [Ha Hu].
  apply negb_true_iff in Ha.
  change (String a u ++ w) with (String a (u ++ w)).
  rewrite replace_skip_char by (now apply rmatch_Lit_other).
  rewrite (IH Hu). reflexivity.
Qed.

Lemma replace_Lit_here (p v t : string) :
  Regex.replace (Regex.Lit p) v (p ++ t) = v ++ t.
Proof.
  apply (replace_here _ _ _ _ None). unfold Regex.match_here. now rewrite rmatch_Lit_here.
Qed.

(** A text without the first character of a literal pattern is left as
    it is. *)
Lemma replace_Lit_absent (c : ascii) (p v s : string) :
  Text.lacks c s = true -> Regex.replace (Regex.Lit (String c p)) v s = s.
Proof.
  intros H. rewrite <- (append_nil_r s) at 1. rewrite replace_Lit_skip by exact H.
  now rewrite append_nil_r.
Qed.

(** *** The number and the thousands patterns *)

(** The thousands pattern needs a [k] or a [K]. *)
Lemma thousands_pattern_needs_k (s : string) :
  Text.all_of not_kK s = true -> Regex.search thousands_pattern s = None.
Proof.
  intros H. apply search_none. intros t Ht.
  unfold Regex.match_here, thousands_pattern. cbn [Regex.rmatch].
  apply rmatch_none. intros t' cap' Ht'.
  pose proof (all_of_suffix _ _ _ (suffix_of_trans _ _ _ Ht' Ht) H) as Hall.
  unfold Regex.kK. cbn [Regex.rmatch].
  destruct t' as [|a t']; [reflexivity|].
  simpl in Hall. apply andb_prop in Hall as [Ha _]. unfold not_kK in Ha.
  apply negb_true_iff in Ha. now rewrite Ha.
Qed.

Section NumberPattern.
Context {R : Type}.
Implicit Types (k : @Regex.cont R) (cap : option string).

Lemma stops_digit_or_point (rest : string) :
  stops digit_or_point rest -> stops Text.is_digit rest.
Proof.
  destruct rest as [|a rest]; [trivial|]. unfold digit_or_point. simpl.
  intros H. now apply orb_false_elim in H.
Qed.

(** A whole number, not followed by a fraction. *)
Lemma rmatch_number_whole (c : ascii) (run rest : string) cap k (x : R) :
  Text.is_digit c = true -> Text.all_digits run = true -> stops digit_or_point rest ->
  k rest (Some (String c run)) = Some x ->
  Regex.rmatch number_pattern (String c (run ++ rest)) cap k = Some x.
Proof.
  intros Hc Hrun Hstop Hk. unfold number_pattern. cbn [Regex.rmatch].
  apply rmatch_Plus_greedy; try assumption; [now apply stops_digit_or_point|].
  unfold Regex.Opt. cbn [Regex.rmatch].
  change (String c (run ++ rest)) with (String c run ++ rest).
  rewrite take_append, Hk.
  destruct rest as [|a rest]; [reflexivity|].
  unfold stops, digit_or_point in Hstop. apply orb_false_elim in Hstop as [_ Hp].
  unfold Regex.Char. cbn [Regex.rmatch]. now rewrite Hp.
Qed.

(** A number with a fraction. *)
Lemma rmatch_number_fraction (c d : ascii) (run fp rest : string) cap k (x : R) :
  Text.is_digit c = true -> Text.all_digits run = true ->
  Text.is_digit d = true -> Text.all_digits fp = true -> stops Text.is_digit rest ->
  k rest (Some (String c run ++ String "." (String d fp))) = Some x ->
  Regex.rmatch number_pattern (String c (run ++ String "." (String d (fp ++ rest)))) cap k
  = Some x.
Proof.
  intros Hc Hrun Hd Hfp Hstop Hk. unfold number_pattern. cbn [Regex.rmatch].
  apply rmatch_Plus_greedy; try assumption; [now simpl|].
  unfold Regex.Opt, Regex.Char, Regex.digit. cbn [Regex.rmatch]. rewrite Ascii.eqb_refl.
  erewrite rmatch_Plus_greedy; try eassumption; [reflexivity|].
  change (String c (run ++ String "." (String d (fp ++ rest))))
    with (String c run ++ String "." (String d (fp ++ rest))).
  replace (String c run ++ String "." (String d (fp ++ rest)))
    with ((String c run ++ String "." (String d fp)) ++ rest)
    by (rewrite append_assoc; reflexivity).
  now rewrite take_append.
Qed.

End NumberPattern.

(** ** Decimal text of an integer *)

Lemma digit_char_spec (d : Z) :
  0 <= d < 10 ->
  Text.is_digit (Text.digit_char d) = true /\ Text.digit_val (Text.digit_char d) = d.
Proof.
  intros H.
  assert (d = 0 \/ d = 1 \/ d = 2 \/ d = 3 \/ d = 4 \/ d = 5 \/ d = 6 \/ d = 7 \/ d = 8 \/ d = 9)
    as Hd by lia.
  repeat (destruct Hd as [-> | Hd]; [split; reflexivity|]). subst d. split; reflexivity.
Qed.

Lemma digits_val_acc_append (a : Z) (x y : string) :
  Text.digits_val_acc a (x ++ y) = Text.digits_val_acc (Text.digits_val_acc a x) y.
Proof. revert a. induction x as [|c x IH]; intros a; simpl; [reflexivity | apply IH]. Qed.

(** [render_nat_acc] puts the digits of [n] in front of [acc]. *)
Lemma render_nat_acc_spec (fuel : nat) :
  forall n acc,
    0 <= n < 2 ^ Z.of_nat fuel -> (1 <= fuel)%nat ->
    exists c ds,
      Text.render_nat_acc fuel n acc = String c ds ++ acc
      /\ Text.all_digits (String c ds) = true
      /\ Text.digits_val (String c ds) = n.
Proof.
  induction fuel as [|fuel IH]; intros n acc Hn Hfuel; [lia|].
  cbn [Text.render_nat_acc].
  destruct (Z.ltb_spec n 10) as [Hlt|Hge].
  - exists (Text.digit_char (n mod 10)), "".
    assert (Hmod : n mod 10 = n) by (apply Z.mod_small; lia).
    destruct (digit_char_spec (n mod 10)) as [Hd Hv]; [lia|].
    split; [reflexivity|]. split.
    + unfold Text.all_digits. cbn [Text.all_of]. now rewrite Hd.
    + unfold Text.digits_val. cbn [Text.digits_val_acc]. rewrite Hv. lia.
  - assert (Hdiv : 1 <= n / 10) by (apply Z.div_le_lower_bound; lia).
    assert (Hpow : n / 10 < 2 ^ Z.of_nat fuel).
    { apply Z.div_lt_upper_bound; [lia|].
      rewrite Nat2Z.inj_succ, Z.pow_succ_r in Hn by lia. lia. }
    assert (Hone : (1 <= fuel)%nat).
    { destruct fuel; [simpl in Hpow; lia | lia]. }
    destruct (IH (n / 10) (String (Text.digit_char (n mod 10)) acc))
      as (c & ds & Heq & Hall & Hval);
      [lia | exact Hone|].
    destruct (digit_char_spec (n mod 10)) as [Hd Hv]; [apply Z.mod_pos_bound; lia|].
    exists c, (ds ++ String (Text.digit_char (n mod 10)) "").
    split; [|split].
    + rewrite Heq. change (String c ds ++ String (Text.digit_char (n mod 10)) acc)
        with (String c (ds ++ String (Text.digit_char (n mod 10)) acc)).
      change (String c (ds ++ String (Text.digit_char (n mod 10)) "") ++ acc)
        with (String c ((ds ++ String (Text.digit_char (n mod 10)) "") ++ acc)).
      now rewrite append_assoc.
    + unfold Text.all_digits in *.
      change (String c (ds ++ String (Text.digit_char (n mod 10)) ""))
        with (String c ds ++ String (Text.digit_char (n mod 10)) "").
      rewrite all_of_append, Hall. cbn [Text.all_of]. now rewrite Hd.
    + unfold Text.digits_val in *.
      change (String c (ds ++ String (Text.digit_char (n mod 10)) ""))
        with (String c ds ++ String (Text.digit_char (n mod 10)) "").
      rewrite digits_val_acc_append, Hval. cbn [Text.digits_val_acc]. rewrite Hv.
      pose proof (Z.div_mod n 10). lia.
Qed.

Lemma render_int_nonneg (n : Z) :
  0 <= n ->
  exists c ds,
    Text.render_int n = String c ds
    /\ Text.all_digits (String c ds) = true
    /\ Text.digits_val (String c ds) = n.
Proof.
  intros Hn. unfold Text.render_int.
  destruct (Z.ltb_spec n 0) as [|_]; [lia|].
  destruct (render_nat_acc_spec (S (Z.to_nat (Z.log2 n))) n "") as (c & ds & Heq & Hall & Hval).
  - split; [exact Hn|].
    rewrite Nat2Z.inj_succ, Z2Nat.id by apply Z.log2_nonneg.
    destruct (Z.eq_dec n 0) as [-> | Hnz]; [reflexivity|].
    apply Z.log2_spec. lia.
  - lia.
  - exists c, ds. rewrite Heq, append_nil_r. now split.
Qed.

(** A text that begins with a digit is read without a sign. *)
Lemma String_to_Int32_digits (c : ascii) (ds : string) :
  Text.is_digit c = true ->
  Polars.String_to_Int32 (String c ds)
  = if Text.all_digits (String c ds)
    then if Polars.in_int32 (Text.digits_val (String c ds))
         then Some (Text.digits_val (String c ds)) else None
    else None.
Proof.
  intros Hc. destruct c as [[] [] [] [] [] [] [] []]; try discriminate Hc; reflexivity.
Qed.

(** Casting an Int32 to its text and back gives the number again. *)
Lemma String_to_Int32_render (n : Z) :
  0 <= n -> Polars.in_int32 n = true -> Polars.String_to_Int32 (Text.render_int n) = Some n.
Proof.
  intros Hn Hrange.
  destruct (render_int_nonneg n Hn) as (c & ds & -> & Hall & Hval).
  assert (Hc : Text.is_digit c = true).
  { unfold Text.all_digits in Hall. simpl in Hall. now apply andb_prop in Hall. }
  now rewrite String_to_Int32_digits, Hall, Hval, Hrange.
Qed.

Lemma render_int_neg (n : Z) :
  n < 0 ->
  exists c ds,
    Text.render_int n = String "-" (String c ds)
    /\ Text.all_digits (String c ds) = true
    /\ Text.digits_val (String c ds) = - n.
Proof.
  intros Hn. unfold Text.render_int.
  destruct (Z.ltb_spec n 0) as [_|]; [|lia].
  destruct (render_nat_acc_spec (S (Z.to_nat (Z.log2 (- n)))) (- n) "")
    as (c & ds & Heq & Hall & Hval).
  - split; [lia|].
    rewrite Nat2Z.inj_succ, Z2Nat.id by apply Z.log2_nonneg.
    apply Z.log2_spec. lia.
  - lia.
  - exists c, ds. rewrite Heq, append_nil_r. now split.
Qed.

(** The text of an Int32 is read back as the same number, and holds only
    digits and a minus sign. *)
Lemma render_int_spec (n : Z) :
  Polars.in_int32 n = true ->
  Polars.String_to_Int32 (Text.render_int n) = Some n
  /\ Text.all_of digit_or_minus (Text.render_int n) = true.
Proof.
  intros Hrange.
  assert (Hweak : forall s, Text.all_digits s = true -> Text.all_of digit_or_minus s = true).
  { intros s. apply all_of_weaken. intros c Hc. unfold digit_or_minus. now rewrite Hc. }
  destruct (Z.lt_ge_cases n 0) as [Hneg|Hpos].
  - destruct (render_int_neg n Hneg) as (c & ds & -> & Hall & Hval). split.
    + change (Polars.String_to_Int32 (String "-" (String c ds)))
        with (if Text.all_digits (String c ds)
              then if Polars.in_int32 (- Text.digits_val (String c ds))
                   then Some (- Text.digits_val (String c ds)) else None
              else None).
      rewrite Hall, Hval, Z.opp_involutive, Hrange. reflexivity.
    + change (String "-" (String c ds)) with ("-" ++ String c ds).
      now rewrite all_of_append, (Hweak _ Hall).
  - split; [now apply String_to_Int32_render|].
    destruct (render_int_nonneg n Hpos) as (c & ds & -> & Hall & _). now apply Hweak.
Qed.

Lemma Float64_to_Int32_range (x : Float64.t) (n : Z) :
  Polars.Float64_to_Int32 x = Some n -> Polars.in_int32 n = true.
Proof.
  unfold Polars.Float64_to_Int32. destruct (Float64.trunc x) as [m|]; [|discriminate].
  destruct (Polars.in_int32 m) eqn:H; [|discriminate]. intros E. now injection E as <-.
Qed.

(** ** Rows of the usual shapes *)

Lemma digit_or_minus_lacks (c : ascii) (s : string) :
  digit_or_minus c = false ->
  Text.all_of digit_or_minus s = true -> Text.lacks c s = true.
Proof.
  intros Hc. unfold Text.lacks. apply all_of_weaken. intros a Ha.
  destruct (Ascii.eqb_spec c a) as [-> | _]; [congruence | reflexivity].
Qed.

(** On a text of digits the strip steps of the followers expression find
    nothing to remove. *)
Lemma Followers_strip_number (s : string) :
  Text.all_of digit_or_minus s = true -> Followers_strip s = Polars.String_to_Int32 s.
Proof.
  intros H. unfold Followers_strip.
  rewrite (replace_Lit_absent "f" "ollowers")
    by (apply digit_or_minus_lacks; [reflexivity | exact H]).
  rewrite (replace_Lit_absent "f" "ollower")
    by (apply digit_or_minus_lacks; [reflexivity | exact H]).
  rewrite (replace_Lit_absent " " "")
    by (apply digit_or_minus_lacks; [reflexivity | exact H]).
  rewrite (replace_Lit_absent "," "")
    by (apply digit_or_minus_lacks; [reflexivity | exact H]).
  reflexivity.
Qed.

Lemma all_digits_lacks (c : ascii) (s : string) :
  Text.is_digit c = false -> Text.all_digits s = true -> Text.lacks c s = true.
Proof.
  intros Hc. unfold Text.lacks, Text.all_digits. apply all_of_weaken. intros a Ha.
  destruct (Ascii.eqb_spec c a) as [-> | _]; [congruence | reflexivity].
Qed.

Lemma split_point_digits (s : string) :
  Text.all_digits s = true -> Polars.split_point s = (s, None).
Proof.
  induction s as [|c s IH]; intros H; [reflexivity|].
  unfold Text.all_digits in H. cbn [Text.all_of] in H. apply andb_prop in H as [Hc Hs].
  cbn [Polars.split_point]. rewrite (IH Hs).
  destruct (Ascii.eqb_spec c ".") as [-> | _]; [discriminate Hc | reflexivity].
Qed.

Lemma split_point_fraction (ip fp : string) :
  Text.all_digits ip = true -> Polars.split_point (ip ++ String "." fp) = (ip, Some fp).
Proof.
  induction ip as [|c ip IH]; intros H; [reflexivity|].
  unfold Text.all_digits in H. cbn [Text.all_of] in H. apply andb_prop in H as [Hc Hs].
  cbn [Polars.split_point append]. rewrite (IH Hs).
  destruct (Ascii.eqb_spec c ".") as [-> | _]; [discriminate Hc | reflexivity].
Qed.

Lemma String_to_Float64_whole (c : ascii) (run : string) :
  Text.all_digits (String c run) = true ->
  Polars.String_to_Float64 (String c run) = Some (Float64.of_decimal (String c run) "").
Proof.
  intros H. unfold Polars.String_to_Float64. now rewrite (split_point_digits _ H), H.
Qed.

Lemma String_to_Float64_fraction (c d : ascii) (run fp : string) :
  Text.all_digits (String c run) = true -> Text.all_digits (String d fp) = true ->
  Polars.String_to_Float64 (String c run ++ String "." (String d fp))
  = Some (Float64.of_decimal (String c run) (String d fp)).
Proof.
  intros Hi Hf. unfold Polars.String_to_Float64.
  now rewrite (split_point_fraction _ _ Hi), Hi, Hf.
Qed.

Lemma extract_number_whole (c : ascii) (run rest : string) :
  Text.is_digit c = true -> Text.all_digits run = true -> stops digit_or_point rest ->
  Regex.extract number_pattern (String c (run ++ rest)) = Some (String c run).
Proof.
  intros Hc Hrun Hstop. unfold Regex.extract.
  rewrite (search_here _ _ {| Regex.before := ""; Regex.group1 := Some (String c run);
                              Regex.after := rest |}); [reflexivity|].
  unfold Regex.match_here. now apply rmatch_number_whole.
Qed.

Lemma extract_number_fraction (c d : ascii) (run fp rest : string) :
  Text.is_digit c = true -> Text.all_digits run = true ->
  Text.is_digit d = true -> Text.all_digits fp = true -> stops Text.is_digit rest ->
  Regex.extract number_pattern (String c (run ++ String "." (String d (fp ++ rest))))
  = Some (String c run ++ String "." (String d fp)).
Proof.
  intros Hc Hrun Hd Hfp Hstop. unfold Regex.extract.
  rewrite (search_here _ _ {| Regex.before := "";
                              Regex.group1 := Some (String c run ++ String "." (String d fp));
                              Regex.after := rest |}); [reflexivity|].
  unfold Regex.match_here. now apply rmatch_number_fraction.
Qed.

(** After the number: [[kK]\s+followers], to the end of the text. *)
Lemma rmatch_k_followers (kc w : ascii) (ws : string) (cap : option string) :
  (Ascii.eqb kc "k" || Ascii.eqb kc "K")%bool = true ->
  Regex.is_space w = true -> Text.all_of Regex.is_space ws = true ->
  Regex.rmatch (Regex.Seq Regex.kK (Regex.Seq (Regex.Plus Regex.space) (Regex.Lit "followers")))
               (String kc (String w (ws ++ "followers"))) cap
               (fun s1 c1 => Some {| Regex.before := ""; Regex.group1 := c1; Regex.after := s1 |})
  = Some {| Regex.before := ""; Regex.group1 := cap; Regex.after := "" |}.
Proof.
  intros Hk Hw Hws. unfold Regex.kK, Regex.space. cbn [Regex.rmatch]. rewrite Hk.
  apply rmatch_Plus_greedy; try assumption; [reflexivity|].
  change "followers" with ("followers" ++ ""). now rewrite rmatch_Lit_here.
Qed.

Lemma k_stops_number (kc : ascii) (rest : string) :
  (Ascii.eqb kc "k" || Ascii.eqb kc "K")%bool = true -> stops digit_or_point (String kc rest).
Proof.
  intros H. apply orb_prop in H as [H | H]; apply Ascii.eqb_eq in H; subst kc; reflexivity.
Qed.

Lemma replace_thousands_whole (c kc w : ascii) (run ws v : string) :
  Text.is_digit c = true -> Text.all_digits run = true ->
  (Ascii.eqb kc "k" || Ascii.eqb kc "K")%bool = true ->
  Regex.is_space w = true -> Text.all_of Regex.is_space ws = true ->
  Regex.replace thousands_pattern v (String c (run ++ String kc (String w (ws ++ "followers"))))
  = v.
Proof.
  intros Hc Hrun Hk Hw Hws. rewrite <- (append_nil_r v) at 2.
  apply (replace_here _ _ _ _ (Some (String c run))).
  unfold Regex.match_here, thousands_pattern. cbn [Regex.rmatch].
  apply rmatch_number_whole; try assumption; [now apply k_stops_number|].
  now apply rmatch_k_followers.
Qed.

Lemma replace_thousands_fraction (c d kc w : ascii) (run fp ws v : string) :
  Text.is_digit c = true -> Text.all_digits run = true ->
  Text.is_digit d = true -> Text.all_digits fp = true ->
  (Ascii.eqb kc "k" || Ascii.eqb kc "K")%bool = true ->
  Regex.is_space w = true -> Text.all_of Regex.is_space ws = true ->
  Regex.replace thousands_pattern v
    (String c (run ++ String "." (String d (fp ++ String kc (String w (ws ++ "followers"))))))
  = v.
Proof.
  intros Hc Hrun Hd Hfp Hk Hw Hws. rewrite <- (append_nil_r v) at 2.
  apply (replace_here _ _ _ _ (Some (String c run ++ String "." (String d fp)))).
  unfold Regex.match_here, thousands_pattern. cbn [Regex.rmatch].
  apply rmatch_number_fraction; try assumption.
  - now apply stops_digit_or_point, k_stops_number.
  - now apply rmatch_k_followers.
Qed.

(** A row whose whole text matches the thousands pattern: the number
    times 1000 in Float64, cast to Int32. *)
Lemma Followers_Amount_row_matched (nv : Polars.null_value) (raw number : string)
      (x : Float64.t) :
  Regex.extract number_pattern raw = Some number ->
  (forall v, Regex.replace thousands_pattern v raw = v) ->
  Polars.String_to_Float64 number = Some x ->
  Followers_Amount_row nv raw
  = Polars.cast_value Polars.Float64_to_Int32 (Some (Float64.mul x (Float64.of_Z 1000))).
Proof.
  intros Hextract Hreplace Hfloat.
  unfold Followers_Amount_row, Followers_value_row, thousands_text.
  rewrite Hextract, Hfloat. cbn [Polars.cast_value].
  destruct (Polars.Float64_to_Int32 _) as [n|] eqn:Hn; cbn [raise_if_none bind]; [|reflexivity].
  apply Float64_to_Int32_range in Hn. destruct (render_int_spec n Hn) as [Hread Hchars].
  now rewrite Hreplace, (Followers_strip_number _ Hchars), Hread.
Qed.

(** "12k followers", "12K  followers": the count is the integer part of
    the Float64 product of 12 and 1000. *)
Theorem Followers_Amount_row_thousands (nv : Polars.null_value) (c kc w : ascii)
        (run ws : string) :
  Text.is_digit c = true -> Text.all_digits run = true ->
  (Ascii.eqb kc "k" || Ascii.eqb kc "K")%bool = true ->
  Regex.is_space w = true -> Text.all_of Regex.is_space ws = true ->
  Followers_Amount_row nv (String c run ++ String kc (String w ws) ++ "followers")
  = Polars.cast_value Polars.Float64_to_Int32
      (Some (Float64.mul (Float64.of_decimal (String c run) "") (Float64.of_Z 1000))).
Proof.
  intros Hc Hrun Hk Hw Hws.
  change (String c run ++ String kc (String w ws) ++ "followers")
    with (String c (run ++ String kc (String w (ws ++ "followers")))).
  apply (Followers_Amount_row_matched nv _ (String c run)).
  - apply extract_number_whole; try assumption. now apply k_stops_number.
  - intros v. now apply replace_thousands_whole.
  - apply String_to_Float64_whole. unfold Text.all_digits in *. cbn [Text.all_of].
    now rewrite Hc, Hrun.
Qed.

(** "1.5k followers": the same with a fraction. *)
Theorem Followers_Amount_row_thousands_fraction (nv : Polars.null_value) (c d kc w : ascii)
        (run fp ws : string) :
  Text.is_digit c = true -> Text.all_digits run = true ->
  Text.is_digit d = true -> Text.all_digits fp = true ->
  (Ascii.eqb kc "k" || Ascii.eqb kc "K")%bool = true ->
  Regex.is_space w = true -> Text.all_of Regex.is_space ws = true ->
  Followers_Amount_row nv
    (String c run ++ String "." (String d fp) ++ String kc (String w ws) ++ "followers")
  = Polars.cast_value Polars.Float64_to_Int32
      (Some (Float64.mul (Float64.of_decimal (String c run) (String d fp)) (Float64.of_Z 1000))).
Proof.
  intros Hc Hrun Hd Hfp Hk Hw Hws.
  change (String c run ++ String "." (String d fp) ++ String kc (String w ws) ++ "followers")
    with (String c (run ++ String "." (String d (fp ++ String kc (String w (ws ++ "followers")))))).
  apply (Followers_Amount_row_matched nv _ (String c run ++ String "." (String d fp))).
  - apply extract_number_fraction; try assumption.
    now apply stops_digit_or_point, k_stops_number.
  - intros v. now apply replace_thousands_fraction.
  - apply String_to_Float64_fraction; unfold Text.all_digits in *; cbn [Text.all_of].
    + now rewrite Hc, Hrun.
    + now rewrite Hd, Hfp.
Qed.

(** After the digits are skipped, what is left of the text is known:
    the replacement is computed there. *)
Ltac skip_digits H :=
  rewrite replace_Lit_skip by (apply all_digits_lacks; [reflexivity | exact H]);
  match goal with
  | |- context [(_ ++ Regex.replace ?r ?v ?w)%string] =>
      let t := eval vm_compute in (Regex.replace r v w) in
      change (Regex.replace r v w) with t
  end.

Lemma all_digits_not_kK (s : string) :
  Text.all_digits s = true -> Text.all_of not_kK s = true.
Proof.
  apply all_of_weaken. intros c Hc.
  destruct c as [[] [] [] [] [] [] [] []]; try discriminate Hc; reflexivity.
Qed.

(** A row that holds no [k]: the thousands pattern does not match, the
    text is stripped and cast; the replacement value is computed all the
    same, and its cast to Int32 must not fail. *)
Lemma Followers_Amount_row_unmatched (nv : Polars.null_value) (raw number : string) :
  Regex.extract number_pattern raw = Some number ->
  Text.all_of not_kK raw = true ->
  Followers_Amount_row nv raw
  = (_ <- raise_if_none (thousands_text number) ;;
     Polars.cast_value Followers_strip (Some raw)).
Proof.
  intros Hextract Hk. unfold Followers_Amount_row, Followers_value_row.
  rewrite Hextract. destruct (thousands_text number) as [v|]; cbn [raise_if_none bind];
    [|reflexivity].
  rewrite (replace_none _ _ _ (thousands_pattern_needs_k _ Hk)).
  cbn [Polars.cast_value]. destruct (Followers_strip raw); reflexivity.
Qed.

Lemma Followers_strip_plain (ds : string) :
  Text.all_digits ds = true ->
  Followers_strip (ds ++ " followers") = Polars.String_to_Int32 ds
  /\ Followers_strip (ds ++ " follower") = Polars.String_to_Int32 ds.
Proof.
  intros H. unfold Followers_strip. split.
  - skip_digits H. skip_digits H. skip_digits H. skip_digits H. now rewrite append_nil_r.
  - skip_digits H. skip_digits H. skip_digits H. skip_digits H. now rewrite append_nil_r.
Qed.

(** "250 followers", "1 follower": the count is the number, as long as a
    thousand times the number is an Int32 too. *)
Theorem Followers_Amount_row_plain (nv : Polars.null_value) (c : ascii) (run : string) :
  Text.is_digit c = true -> Text.all_digits run = true ->
  let count :=
    (_ <- raise_if_none
            (Polars.Float64_to_Int32
               (Float64.mul (Float64.of_decimal (String c run) "") (Float64.of_Z 1000))) ;;
     Polars.cast_value Polars.String_to_Int32 (Some (String c run))) in
  Followers_Amount_row nv (String c run ++ " followers") = count
  /\ Followers_Amount_row nv (String c run ++ " follower") = count.
Proof.
  intros Hc Hrun count.
  assert (Hds : Text.all_digits (String c run) = true).
  { unfold Text.all_digits in *. cbn [Text.all_of]. now rewrite Hc, Hrun. }
  assert (Hvalue : raise_if_none (thousands_text (String c run))
                   = (n <- raise_if_none
                             (Polars.Float64_to_Int32
                                (Float64.mul (Float64.of_decimal (String c run) "")
                                             (Float64.of_Z 1000))) ;;
                      Ok (Text.render_int n))).
  { unfold thousands_text. rewrite (String_to_Float64_whole _ _ Hds).
    destruct (Polars.Float64_to_Int32 _); reflexivity. }
  destruct (Followers_strip_plain _ Hds) as [Hplural Hsingular].
  split.
  - rewrite (Followers_Amount_row_unmatched nv _ (String c run)).
    + rewrite Hvalue. unfold count. cbn [Polars.cast_value]. rewrite Hplural.
      destruct (Polars.Float64_to_Int32 _); reflexivity.
    + change (String c run ++ " followers") with (String c (run ++ " followers")).
      now apply extract_number_whole.
    + now rewrite all_of_append, (all_digits_not_kK _ Hds).
  - rewrite (Followers_Amount_row_unmatched nv _ (String c run)).
    + rewrite Hvalue. unfold count. cbn [Polars.cast_value]. rewrite Hsingular.
      destruct (Polars.Float64_to_Int32 _); reflexivity.
    + change (String c run ++ " follower") with (String c (run ++ " follower")).
      now apply extract_number_whole.
    + now rewrite all_of_append, (all_digits_not_kK _ Hds).
Qed.

(** "12 reviews", "1 review", "1,234 reviews": the count is the number
    written by the digits. *)
Theorem Reviews_Amount_row_plain (ds : string) :
  Text.all_digits ds = true ->
  Reviews_Amount_row (ds ++ " reviews") = Polars.String_to_Int32 ds
  /\ Reviews_Amount_row (ds ++ " review") = Polars.String_to_Int32 ds
  /\ forall ds', Text.all_digits ds' = true ->
                 Reviews_Amount_row (ds ++ "," ++ ds' ++ " reviews")
                 = Polars.String_to_Int32 (ds ++ ds').
Proof.
  intros H. unfold Reviews_Amount_row. split; [|split].
  - skip_digits H. skip_digits H. skip_digits H. skip_digits H. skip_digits H.
    now rewrite append_nil_r.
  - skip_digits H. skip_digits H. skip_digits H. skip_digits H. skip_digits H.
    now rewrite append_nil_r.
  - intros ds' H'.
    assert (Hskip : forall (a : ascii) (p v w : string),
               Text.is_digit a = false -> Ascii.eqb a "," = false ->
               Regex.replace (Regex.Lit (String a p)) v (ds ++ "," ++ ds' ++ w)
               = ds ++ "," ++ ds' ++ Regex.replace (Regex.Lit (String a p)) v w).
    { intros a p v w Ha Hcomma.
      replace (ds ++ "," ++ ds' ++ w) with ((ds ++ "," ++ ds') ++ w)
        by (now rewrite !append_assoc).
      rewrite replace_Lit_skip; [now rewrite !append_assoc|].
      pose proof (all_digits_lacks a ds Ha H) as L. pose proof (all_digits_lacks a ds' Ha H') as L'.
      unfold Text.lacks in *. rewrite all_of_append, L.
      change ("," ++ ds') with (String "," ds'). cbn [Text.all_of]. now rewrite Hcomma, L'. }
    rewrite (Hskip "r"%char "eviews" "" " reviews") by reflexivity.
    change (Regex.replace (Regex.Lit "reviews") "" " reviews") with " ".
    rewrite (Hskip "r"%char "eview" "" " ") by reflexivity.
    change (Regex.replace (Regex.Lit "review") "" " ") with " ".
    rewrite (Hskip " "%char "" "" " ") by reflexivity.
    change (Regex.replace (Regex.Lit " ") "" " ") with "".
    rewrite replace_Lit_skip by (apply all_digits_lacks; [reflexivity | exact H]).
    change ("," ++ ds' ++ "") with ("," ++ (ds' ++ "")).
    rewrite (replace_Lit_here "," "" (ds' ++ "")).
    change ("" ++ ds' ++ "") with (ds' ++ ""). rewrite append_nil_r.
    rewrite replace_Lit_absent; [reflexivity|].
    pose proof (all_digits_lacks "N" ds eq_refl H) as L.
    pose proof (all_digits_lacks "N" ds' eq_refl H') as L'.
    unfold Text.lacks in *. now rewrite all_of_append, L, L'.
Qed.

(** The shapes above, on texts of the page. *)
Example Followers_Amount_row_12K (nv : Polars.null_value) :
  Followers_Amount_row nv "12K   followers" = Ok (Some 12000).
Proof.
  change "12K   followers" with (String "1" "2" ++ String "K" (String " " "  ") ++ "followers").
  rewrite Followers_Amount_row_thousands by reflexivity. vm_compute. reflexivity.
Qed.

Example Followers_Amount_row_32_3k (nv : Polars.null_value) :
  Followers_Amount_row nv "32.3k followers" = Ok (Some 32299).
Proof.
  change "32.3k followers"
    with (String "3" "2" ++ String "." (String "3" "") ++ String "k" (String " " "") ++ "followers").
  rewrite Followers_Amount_row_thousands_fraction by reflexivity. vm_compute. reflexivity.
Qed.

Example Followers_Amount_row_3000000 (nv : Polars.null_value) :
  Followers_Amount_row nv "250 followers" = Ok (Some 250)
  /\ Followers_Amount_row nv "3000000 followers" = Raise Polars.InvalidOperationError.
Proof.
  split.
  - change "250 followers" with (String "2" "50" ++ " followers").
    rewrite (proj1 (Followers_Amount_row_plain nv "2" "50" eq_refl eq_refl)).
    vm_compute. reflexivity.
  - change "3000000 followers" with (String "3" "000000" ++ " followers").
    rewrite (proj1 (Followers_Amount_row_plain nv "3" "000000" eq_refl eq_refl)).
    vm_compute. reflexivity.
Qed.

Example Reviews_Amount_row_1_234 :
  Reviews_Amount_row "1,234 reviews" = Some 1234
  /\ Reviews_Amount_row "12 reviews" = Some 12
  /\ Reviews_Amount_row "1 review" = Some 1.
Proof.
  split; [|split].
  - change "1,234 reviews" with ("1" ++ "," ++ "234" ++ " reviews").
    rewrite (proj2 (proj2 (Reviews_Amount_row_plain "1" eq_refl)) "234" eq_refl).
    reflexivity.
  - change "12 reviews" with ("12" ++ " reviews").
    rewrite (proj1 (Reviews_Amount_row_plain "12" eq_refl)). reflexivity.
  - change "1 review" with ("1" ++ " review").
    rewrite (proj1 (proj2 (Reviews_Amount_row_plain "1" eq_refl))). reflexivity.
Qed.

(** ** Where the count columns leave the rule *)

(** C1. The examples of the claim hold: "1.5k followers" gives 1500,
    "250 followers" gives 250 and "1 follower" gives 1.  The general rule
    does not: the product of the number and 1000 is a Float64 and its cast
    to Int32 drops the fraction, so that "32.3k followers" gives 32299,
    where the rounded product is 32300; and only the first comma is
    removed, so that "1,234,567 followers" makes the cast raise. *)
Theorem followers_thousands_truncated :
  forall nv : Polars.null_value,
    Followers_Amount_expr nv [Some "32.3k followers"] = Ok [Some 32299]
    /\ spec_round_thousands "32" "3" = 32300
    /\ Float64.trunc (Float64.mul (Float64.of_decimal "32" "3") (Float64.of_Z 1000))
       = Some 32299
    /\ Followers_Amount_expr nv [Some "1,234,567 followers"]
       = Raise Polars.InvalidOperationError
    /\ Followers_Amount_expr nv [Some "1.5k followers"; Some "250 followers"; Some "1 follower"]
       = Ok [Some 1500; Some 250; Some 1]
    /\ Followers_Amount_expr nv [Some "1.5k followers"] = Ok [Some 1500]
    /\ Followers_Amount_expr nv [Some "250 followers"] = Ok [Some 250]
    /\ Followers_Amount_expr nv [Some "1 follower"] = Ok [Some 1].
Proof. intros nv. destruct nv; repeat split; vm_compute; reflexivity. Qed.

(** C4. The examples of the claim hold: "12 reviews" gives 12, "1 review"
    gives 1, "1,234 reviews" gives 1234 and ['Not Found'] gives 0.  The
    general rule does not: [str.replace] replaces the first match only, so
    of several commas (or spaces) only the first is removed, and
    "1,234,567 reviews" becomes "1234,567", on which the cast raises. *)
Theorem reviews_first_comma_only :
  Reviews_Amount_expr [Some "1,234,567 reviews"] = Raise Polars.InvalidOperationError
  /\ Regex.replace (Regex.Lit ",") "" "1,234,567" = "1234,567"
  /\ spec_strip_all (fun c => (Ascii.eqb c " " || Ascii.eqb c ",")%bool) "1,234,567 " = "1234567"
  /\ Reviews_Amount_expr [Some "12 reviews"; Some "1 review"; Some "1,234 reviews";
                          Some "Not Found"]
     = Ok [Some 12; Some 1; Some 1234; Some 0].
Proof. repeat split; vm_compute; reflexivity. Qed.

(** * Further properties of the notebook *)

(** ** The span loop, over a whole profile *)

Lemma classify_spans_snoc (ts : list string) (t : string) :
  classify_spans (ts ++ [t]) = classify_span (classify_spans ts) t.
Proof. unfold classify_spans. now rewrite fold_left_app. Qed.

Lemma last_match_snoc (p : string -> bool) (ts : list string) (t : string) :
  last_match p (ts ++ [t]) = if p t then Some t else last_match p ts.
Proof. unfold last_match. now rewrite rev_app_distr. Qed.

(** The four variables after the loop. *)
Lemma classify_spans_fields (ts : list string) :
  books_amount (classify_spans ts) = last_match is_books ts
  /\ reviews_amount (classify_spans ts) = or_default "Not Found" (last_match is_reviews ts)
  /\ followers_amount (classify_spans ts)
     = or_default "Not Found" (last_match is_followers ts)
  /\ check_author (classify_spans ts) = last_match is_author ts.
Proof.
  induction ts as [|t ts IH] using rev_ind; [now repeat split|].
  destruct IH as (Hb & Hr & Hf & Ha).
  rewrite classify_spans_snoc, !last_match_snoc, classify_span_cases.
  unfold is_books, is_reviews, is_followers, is_author.
  destruct (Text.contains "books" t), (Text.contains "reviews" t),
    (Text.contains "followers" t), (Text.contains "Author" t);
    cbn [negb andb set_books set_reviews set_followers set_author or_default
         books_amount reviews_amount followers_amount check_author];
    repeat split; assumption.
Qed.

(** X1. After the loop over the spans of a profile, each of the four
    variables holds the text of the last span that reached its branch, and
    its initial value when no span did: a span reaches the 'reviews' branch
    when it has "reviews" and not "books", the 'followers' branch when it
    has "followers" and neither "books" nor "reviews", the 'Author' branch
    when it has "Author" and none of the three. *)
Theorem classify_spans_last_match :
  forall ts : list string,
    books_amount (classify_spans ts) = last_match is_books ts
    /\ reviews_amount (classify_spans ts) = or_default "Not Found" (last_match is_reviews ts)
    /\ followers_amount (classify_spans ts)
       = or_default "Not Found" (last_match is_followers ts)
    /\ check_author (classify_spans ts) = last_match is_author ts.
Proof. exact classify_spans_fields. Qed.

Lemma contains_nonempty (sub : string) (c : ascii) (t : string) :
  Text.contains (String c sub) t = true -> t <> "".
Proof. intros H ->. discriminate H. Qed.

(** What else a card's dictionary holds when the card is read without
    error: the link, its text, and the stripped text of the review body. *)
Lemma review_card_texts (idx : nat) (i : Soup.node) (d : RawReview) :
  review_card idx i = Ok d ->
  exists p a f,
    Soup.find "section" (Some "ReviewerProfile__info") i = Some p
    /\ Soup.find "a" None p = Some a
    /\ Soup.find "span" (Some "Formatted") i = Some f
    /\ Name (Profile_Info d) = Soup.get_text a
    /\ Link_Profile (Profile_Info d) = Soup.get "href" a
    /\ Content d = Soup.get_text_strip f.
Proof.
  unfold review_card. intros H.
  destruct (Soup.find "section" (Some "ReviewerProfile__info") i) as [p|]; [|discriminate].
  cbn [bind on] in H.
  destruct (Soup.find "a" None p) as [a|] eqn:Ha; [|discriminate].
  destruct (Soup.find "div" (Some "ReviewerProfile__meta") p) as [pm|]; [|discriminate].
  destruct (Soup.find "span" (Some "Formatted") i) as [f|]; [|discriminate].
  cbn [bind on] in H. injection H as <-.
  exists p, a, f. repeat split. exact Ha.
Qed.

(** X2. The dictionary of a card says 'An Author' exactly when one of the
    spans of its profile block has "Author" in its text and none of
    "books", "reviews", "followers": a span such as "Author of 3 books"
    goes to the 'books' branch and does not mark the reviewer. *)
Theorem review_card_An_Author :
  forall (idx : nat) (i : Soup.node) (d : RawReview),
    review_card idx i = Ok d ->
    exists p pm,
      Soup.find "section" (Some "ReviewerProfile__info") i = Some p
      /\ Soup.find "div" (Some "ReviewerProfile__meta") p = Some pm
      /\ (An_Author (Profile_Info d) = true <->
          exists span, In span (Soup.find_all "span" None pm)
                       /\ is_author (Soup.get_text_strip span) = true).
Proof.
  intros idx i d Hd.
  destruct (review_card_inv _ _ _ Hd) as (_ & _ & _ & p & pm & Hp & Hpm & _ & _ & _ & Hau).
  exists p, pm. split; [exact Hp|]. split; [exact Hpm|].
  cbv zeta in Hau. rewrite Hau.
  destruct (classify_spans_fields
              (map Soup.get_text_strip (Soup.find_all "span" None pm))) as (_ & _ & _ & ->).
  unfold last_match. split.
  - intros H.
    destruct (find is_author _) as [t|] eqn:Hfind; [|discriminate].
    apply find_some in Hfind as [Hin Ht]. apply in_rev, in_map_iff in Hin as (span & <- & Hin).
    now exists span.
  - intros (span & Hin & Ht).
    destruct (find is_author _) as [t|] eqn:Hfind.
    + apply find_some in Hfind as [_ Ht']. unfold is_author in Ht'.
      apply andb_prop in Ht' as [_ Ht']. apply contains_nonempty in Ht'.
      unfold py_bool. now apply negb_true_iff, String.eqb_neq.
    + assert (Hnone : is_author (Soup.get_text_strip span) = false).
      { apply (find_none _ _ Hfind). apply -> in_rev. now apply in_map. }
      congruence.
Qed.

Lemma review_card_An_Author_witness :
  exists d,
    review_card 0 (author_card "Goodreads Author") = Ok d
    /\ exists p pm,
        Soup.find "section" (Some "ReviewerProfile__info")
                  (author_card "Goodreads Author") = Some p
        /\ Soup.find "div" (Some "ReviewerProfile__meta") p = Some pm
        /\ (An_Author (Profile_Info d) = true <->
            exists span, In span (Soup.find_all "span" None pm)
                         /\ is_author (Soup.get_text_strip span) = true).
Proof.
  eexists. split; [vm_compute; reflexivity|].
  apply (review_card_An_Author 0 (author_card "Goodreads Author")).
  vm_compute. reflexivity.
Defined.

(** The two markers, computed. *)
Example An_Author_markers :
  (exists d, review_card 0 (author_card "Goodreads Author") = Ok d
             /\ An_Author (Profile_Info d) = true)
  /\ (exists d, review_card 0 (author_card "Author of 3 books") = Ok d
                /\ An_Author (Profile_Info d) = false
                /\ Books (Profile_Info d) = Some "Author of 3 books").
Proof. split; eexists; (split; [vm_compute; reflexivity|]); repeat split. Qed.

(** ** Stripped texts *)

Lemma lstrip_fixed (c : ascii) (s : string) :
  Text.py_isspace c = false -> Text.lstrip (String c s) = String c s.
Proof. intros H. simpl. now rewrite H. Qed.

(** What [lstrip] leaves is empty or begins with a character that is not
    whitespace. *)
Lemma lstrip_head (s : string) :
  Text.lstrip s = "" \/ exists c t, Text.lstrip s = String c t /\ Text.py_isspace c = false.
Proof.
  induction s as [|c s IH]; [now left|].
  cbn [Text.lstrip]. destruct (Text.py_isspace c) eqn:Hc; [exact IH|].
  right. now exists c, s.
Qed.

Lemma rstrip_head (c : ascii) (s : string) :
  Text.py_isspace c = false -> exists t, Text.rstrip (String c s) = String c t.
Proof.
  intros Hc. cbn [Text.rstrip]. destruct (Text.rstrip s) as [|a t].
  - rewrite Hc. now exists "".
  - now exists (String a t).
Qed.

Lemma rstrip_idempotent (s : string) : Text.rstrip (Text.rstrip s) = Text.rstrip s.
Proof.
  induction s as [|c s IH]; [reflexivity|].
  cbn [Text.rstrip]. destruct (Text.rstrip s) as [|a t] eqn:Hs.
  - destruct (Text.py_isspace c) eqn:Hc; [reflexivity|]. cbn [Text.rstrip]. now rewrite Hc.
  - change (Text.rstrip (String c (String a t)))
      with (match Text.rstrip (String a t) with
            | "" => if Text.py_isspace c then "" else String c ""
            | u => String c u
            end).
    now rewrite IH.
Qed.

(** A stripped text is left as it is by both strips. *)
Lemma strip_fixed (s : string) :
  Text.lstrip (Text.strip s) = Text.strip s /\ Text.rstrip (Text.strip s) = Text.strip s.
Proof.
  unfold Text.strip. split; [|apply rstrip_idempotent].
  destruct (lstrip_head s) as [-> | (c & t & -> & Hc)]; [reflexivity|].
  destruct (rstrip_head c t Hc) as [u ->]. now apply lstrip_fixed.
Qed.

Lemma rstrip_append (a b : string) :
  Text.rstrip b <> "" -> Text.rstrip (a ++ b) = a ++ Text.rstrip b.
Proof.
  intros Hb. induction a as [|c a IH]; [reflexivity|].
  cbn [append Text.rstrip]. rewrite IH.
  destruct (a ++ Text.rstrip b) as [|x y] eqn:E; [|reflexivity].
  destruct a; [simpl in E; congruence | discriminate].
Qed.

Lemma lstrip_append (a b : string) :
  a <> "" -> Text.lstrip a = a -> Text.lstrip (a ++ b) = a ++ b.
Proof.
  intros Ha Hl. destruct a as [|c a]; [congruence|].
  cbn [append Text.lstrip] in *. destruct (Text.py_isspace c); [|reflexivity].
  exfalso. assert (Hlen : String.length (Text.lstrip a) = S (String.length a))
    by (now rewrite Hl).
  assert (Hle : forall s, (String.length (Text.lstrip s) <= String.length s)%nat).
  { induction s as [|x s IHs]; [simpl; lia|]. cbn [Text.lstrip].
    destruct (Text.py_isspace x); simpl; lia. }
  specialize (Hle a). lia.
Qed.

(** Joining texts that are stripped and not empty gives a stripped text. *)
Lemma strip_join_pieces (pieces : list string) :
  (forall x, In x pieces -> x <> "" /\ Text.lstrip x = x /\ Text.rstrip x = x) ->
  Text.strip (Text.join "" pieces) = Text.join "" pieces.
Proof.
  intros H. unfold Text.strip.
  assert (Hl : Text.lstrip (Text.join "" pieces) = Text.join "" pieces).
  { destruct pieces as [|x [|y l]]; [reflexivity | apply H; now left |].
    change (Text.join "" (x :: y :: l)) with (x ++ Text.join "" (y :: l)).
    destruct (H x (or_introl eq_refl)) as (Hx & Hlx & _). now apply lstrip_append. }
  rewrite Hl. clear Hl.
  induction pieces as [|x l IH]; [reflexivity|].
  destruct l as [|y l]; [apply H; now left|].
  change (Text.join "" (x :: y :: l)) with (x ++ Text.join "" (y :: l)).
  assert (Hrest : Text.rstrip (Text.join "" (y :: l)) = Text.join "" (y :: l)).
  { apply IH. intros z Hz. apply H. now right. }
  rewrite rstrip_append; rewrite Hrest; [reflexivity|].
  destruct (H y (or_intror (or_introl eq_refl))) as (Hy & _).
  destruct l as [|z l]; [exact Hy|].
  change (Text.join "" (y :: z :: l)) with (y ++ Text.join "" (z :: l)).
  destruct y; [congruence | discriminate].
Qed.

Lemma get_text_strip_stripped (n : Soup.node) :
  Text.strip (Soup.get_text_strip n) = Soup.get_text_strip n.
Proof.
  unfold Soup.get_text_strip. apply strip_join_pieces.
  intros x Hx. apply filter_In in Hx as [Hin Hne].
  apply in_map_iff in Hin as (s & <- & _).
  split; [now apply String.eqb_neq, negb_true_iff | apply strip_fixed].
Qed.

Lemma last_match_stripped (p : string -> bool) (ts : list string) (t : string) :
  (forall x, In x ts -> Text.strip x = x) -> last_match p ts = Some t -> Text.strip t = t.
Proof.
  intros H Hfind. apply find_some in Hfind as [Hin _]. apply H. now apply in_rev.
Qed.

(** X3. The texts stored for a card by [get_text(strip=True)] are left as
    they are by Python's [strip], so they have no whitespace at either end:
    the review body, the two count texts (a span's text or ['Not Found'])
    and the books text. *)
Theorem review_card_texts_stripped :
  forall (idx : nat) (i : Soup.node) (d : RawReview),
    review_card idx i = Ok d ->
    Text.strip (Content d) = Content d
    /\ Text.strip (Reviews_Amount (Profile_Info d)) = Reviews_Amount (Profile_Info d)
    /\ Text.strip (Followers_Amount (Profile_Info d)) = Followers_Amount (Profile_Info d)
    /\ (forall b, Books (Profile_Info d) = Some b -> Text.strip b = b).
Proof.
  intros idx i d Hd.
  destruct (review_card_texts _ _ _ Hd) as (_ & _ & f & _ & _ & _ & _ & _ & ->).
  split; [apply get_text_strip_stripped|].
  destruct (review_card_inv _ _ _ Hd) as (_ & _ & _ & p & pm & _ & _ & Hr & Hf & Hb & _).
  cbv zeta in Hr, Hf, Hb. rewrite Hr, Hf, Hb.
  destruct (classify_spans_fields
              (map Soup.get_text_strip (Soup.find_all "span" None pm))) as (-> & -> & -> & _).
  assert (Hall : forall x, In x (map Soup.get_text_strip (Soup.find_all "span" None pm)) ->
                           Text.strip x = x).
  { intros x Hx. apply in_map_iff in Hx as (span & <- & _). apply get_text_strip_stripped. }
  split; [|split].
  - destruct (last_match is_reviews _) as [t|] eqn:E; [|reflexivity].
    exact (last_match_stripped _ _ _ Hall E).
  - destruct (last_match is_followers _) as [t|] eqn:E; [|reflexivity].
    exact (last_match_stripped _ _ _ Hall E).
  - intros b E. exact (last_match_stripped _ _ _ Hall E).
Qed.

Lemma review_card_texts_stripped_witness :
  exists d,
    review_card 0 (author_card "Goodreads Author") = Ok d
    /\ Content d = "Good."
    /\ Text.strip (Content d) = Content d
    /\ Text.strip (Reviews_Amount (Profile_Info d)) = Reviews_Amount (Profile_Info d)
    /\ Text.strip (Followers_Amount (Profile_Info d)) = Followers_Amount (Profile_Info d)
    /\ (forall b, Books (Profile_Info d) = Some b -> Text.strip b = b).
Proof.
  eexists. split; [vm_compute; reflexivity|].
  split; [reflexivity|].
  apply (review_card_texts_stripped 0 (author_card "Goodreads Author")).
  vm_compute. reflexivity.
Defined.

(** ** When the extraction succeeds *)

Lemma review_cards_ok_cards (articles : list Soup.node) :
  forall idx all_reviews,
    review_cards idx articles = Ok all_reviews -> forallb card_ok articles = true.
Proof.
  induction articles as [|i rest IH]; intros idx all_reviews H; [reflexivity|].
  cbn [review_cards] in H.
  destruct (review_card idx i) as [d|e] eqn:Hd; [|discriminate]. cbn [bind] in H.
  destruct (review_cards (S idx) rest) as [ds|e] eqn:Hds; [|discriminate].
  cbn [forallb]. destruct (review_card_inv _ _ _ Hd) as (-> & _). now rewrite (IH _ _ Hds).
Qed.

(** X4. The extraction returns a result exactly on the well-formed pages:
    a title, an author, two review lists at least, and in the second only
    cards with a profile section, a link and a meta block in it, and a
    review body.  One incomplete card makes the whole extraction raise.
    All it ever raises is the [AttributeError] of a lookup on [None] and
    the [IndexError] of [reviews_list[1]], the latter exactly when the title
    and the author are found and the page has fewer than two lists. *)
Theorem extract_reviews_outcome :
  forall content : list Soup.node,
    ((exists r, extract_reviews content = Ok r) <-> well_formed content = true)
    /\ (forall e, extract_reviews content = Raise e -> e = AttributeError \/ e = IndexError)
    /\ (extract_reviews content = Raise IndexError <->
        is_some (Soup.find "h1" (Some "Text Text__title1") (Soup.bs content)) = true
        /\ is_some (Soup.find "span" (Some "ContributorLink__name") (Soup.bs content)) = true
        /\ (List.length (reviews_lists content) < 2)%nat).
Proof.
  intros content.
  assert (Hok : forall r, extract_reviews content = Ok r -> well_formed content = true).
  { unfold extract_reviews, well_formed, articles, reviews_lists, index. intros r H.
    destruct (Soup.find "h1" _ _) as [h1|]; [|discriminate].
    destruct (Soup.find "span" _ _) as [c|]; [|discriminate]. cbn [bind on] in H.
    destruct (nth_error _ 1) as [tag|] eqn:Hnth; [|discriminate]. cbn [bind] in H.
    destruct (review_cards 0 _) as [ds|e] eqn:Hds; [|discriminate].
    rewrite (review_cards_ok_cards _ _ _ Hds).
    assert (Hlen : nth_error (Soup.find_all "div" (Some "ReviewsList") (Soup.bs content)) 1
                   <> None) by congruence.
    apply nth_error_Some in Hlen. apply Nat.leb_le in Hlen. now rewrite Hlen. }
  split; [|split].
  - split; [intros [r Hr]; now apply (Hok r)|].
    intros Hwf. destruct (extract_reviews_total _ Hwf) as (t & a & ds & H & _). eauto.
  - unfold extract_reviews, index. intros e H.
    destruct (Soup.find "h1" _ _) as [h1|]; cbn [bind on] in H; [|left; congruence].
    destruct (Soup.find "span" _ _) as [c|]; cbn [bind on] in H; [|left; congruence].
    destruct (nth_error _ 1) as [tag|]; cbn [bind] in H; [|right; congruence].
    destruct (review_cards 0 _) as [ds|e'] eqn:Hds; cbn [bind] in H; [discriminate|].
    left. destruct (review_cards_raises _ _ _ Hds) as [-> _]. congruence.
  - split.
    + unfold extract_reviews, reviews_lists, index. intros H.
      destruct (Soup.find "h1" _ _) as [h1|]; cbn [bind on] in H; [|discriminate].
      destruct (Soup.find "span" _ _) as [c|]; cbn [bind on] in H; [|discriminate].
      destruct (nth_error _ 1) as [tag|] eqn:Hnth; cbn [bind] in H.
      * destruct (review_cards 0 _) as [ds|e'] eqn:Hds; cbn [bind] in H; [discriminate|].
        destruct (review_cards_raises _ _ _ Hds) as [-> _]. discriminate.
      * apply nth_error_None in Hnth. repeat split. lia.
    + intros (Ht & Ha & Hlen).
      destruct (extract_reviews_few_lists content Hlen) as (e & He & _ & Hidx).
      now rewrite He, (Hidx Ht Ha).
Qed.

Lemma extract_reviews_outcome_witness :
  (exists r, extract_reviews sample_page = Ok r)
  /\ extract_reviews
       [ Soup.Elem "h1" ["Text"; "Text__title1"] [] [Soup.TextNode "A Book"];
         Soup.Elem "span" ["ContributorLink__name"] [] [Soup.TextNode "An Author"];
         Soup.Elem "div" ["ReviewsList"] [] [] ]
     = Raise IndexError.
Proof.
  split.
  - apply (proj1 (extract_reviews_outcome sample_page)). reflexivity.
  - apply (proj2 (proj2 (extract_reviews_outcome _))). repeat split. vm_compute. lia.
Defined.

(** ** The shape of the cleaned frame *)

Lemma String_to_Int32_range (s : string) (n : Z) :
  Polars.String_to_Int32 s = Some n -> Polars.in_int32 n = true.
Proof.
  unfold Polars.String_to_Int32. intros H.
  destruct (match s with
            | String "-" s' => (true, s')
            | String "+" s' => (false, s')
            | _ => (false, s)
            end) as [neg ds].
  destruct ds as [|c ds]; [discriminate|].
  destruct (Text.all_digits (String c ds)); [|discriminate].
  destruct (Polars.in_int32 _) eqn:E; [|discriminate].
  injection H as <-. exact E.
Qed.

Lemma cast_value_Ok {A B} (conv : A -> option B) (a : A) (v : option B) :
  Polars.cast_value conv (Some a) = Ok v -> exists b, conv a = Some b /\ v = Some b.
Proof.
  cbn [Polars.cast_value]. destruct (conv a) as [b|]; [|discriminate].
  intros H. injection H as <-. now exists b.
Qed.

(** The row of a cleaned frame, with what the casts guarantee: the
    reviews count is a number. *)
Lemma review_cleaning_row {nv : Polars.null_value} (review : list RawReview) (df : list CleanedReviewRow) :
  review_cleaning nv review = Ok df ->
  forall k d,
    nth_error review k = Some d ->
    exists row n,
      nth_error df k = Some row
      /\ row_Name row = Name (Profile_Info d)
      /\ row_Content row = Content d
      /\ Reviews_Amount_row (Reviews_Amount (Profile_Info d)) = Some n
      /\ row_Reviews_Amount row = Some n
      /\ Followers_Amount_row nv (Followers_Amount (Profile_Info d))
         = Ok (row_Followers_Amount row)
      /\ Rating_row (Rating d) = Ok (row_Rating row).
Proof.
  intros H k d Hd.
  destruct (review_cleaning_inv _ _ H) as [_ Hrows].
  destruct (Hrows k d Hd) as (row & Hrow & Hn & Hc & Hra & Hfa & Hrt).
  apply review_cleaning_columns in H as (ra & fa & rt & Hcol & _ & _ & ->).
  rewrite Reviews_Amount_expr_rows in Hcol. unfold Polars.cast, reviews_column in Hcol.
  apply mapM_nth in Hcol as [_ Hcol].
  destruct (Hcol k (Some (Reviews_Amount (Profile_Info d)))) as (a & _ & Ha);
    [now rewrite nth_error_map, Hd|].
  apply cast_value_Ok in Ha as (n & Hsome & _).
  exists row, n. repeat split; try assumption. congruence.
Qed.

Lemma review_cleaning_row_of {nv : Polars.null_value} (review : list RawReview) (df : list CleanedReviewRow) :
  review_cleaning nv review = Ok df ->
  forall row, In row df ->
              exists k d, nth_error review k = Some d /\ nth_error df k = Some row.
Proof.
  intros H row Hin. apply In_nth_error in Hin as [k Hk].
  destruct (review_cleaning_inv _ _ H) as [Hlen _].
  assert (Hlt : (k < List.length review)%nat).
  { rewrite <- Hlen. apply nth_error_Some. congruence. }
  destruct (nth_error review k) as [d|] eqn:Hd; [now exists k, d|].
  apply nth_error_None in Hd. lia.
Qed.

(** X5. A cleaned frame has one row for each dictionary, in the same
    order, with the reviewer's name and the review body unchanged; its
    reviews count is never null; and no frame is returned for an empty
    list. *)
Theorem review_cleaning_shape :
  forall (nv : Polars.null_value) (review : list RawReview) (df : list CleanedReviewRow),
    review_cleaning nv review = Ok df ->
    review <> []
    /\ List.length df = List.length review
    /\ map row_Name df = map (fun d => Name (Profile_Info d)) review
    /\ map row_Content df = map Content review
    /\ forall row, In row df -> exists n, row_Reviews_Amount row = Some n.
Proof.
  intros nv review df H.
  destruct (review_cleaning_inv _ _ H) as [Hlen Hrows].
  assert (Hmap : forall (A : Type) (f : CleanedReviewRow -> A) (g : RawReview -> A),
             (forall k d row, nth_error review k = Some d -> nth_error df k = Some row ->
                              f row = g d) ->
             map f df = map g review).
  { intros A f g Hfg. apply nth_error_ext. intros k. rewrite !nth_error_map.
    destruct (nth_error review k) as [d|] eqn:Hd.
    - destruct (Hrows k d Hd) as (row & Hrow & _). rewrite Hrow. cbn.
      now rewrite (Hfg k d row Hd Hrow).
    - apply nth_error_None in Hd.
      assert (Hnone : nth_error df k = None) by (apply nth_error_None; lia).
      now rewrite Hnone. }
  split; [intros ->; discriminate H|]. split; [exact Hlen|].
  split; [|split].
  - apply Hmap. intros k d row Hd Hrow.
    destruct (Hrows k d Hd) as (row' & Hrow' & Hn & _). congruence.
  - apply Hmap. intros k d row Hd Hrow.
    destruct (Hrows k d Hd) as (row' & Hrow' & _ & Hc & _). congruence.
  - intros row Hin.
    destruct (review_cleaning_row_of _ _ H row Hin) as (k & d & Hd & Hrow).
    destruct (review_cleaning_row _ _ H k d Hd) as (row' & n & Hrow' & _ & _ & _ & Hn & _).
    exists n. congruence.
Qed.

Lemma review_cleaning_shape_witness :
  sample_reviews <> []
  /\ List.length sample_frame = List.length sample_reviews
  /\ map row_Name sample_frame = map (fun d => Name (Profile_Info d)) sample_reviews
  /\ map row_Content sample_frame = map Content sample_reviews
  /\ forall row, In row sample_frame -> exists n, row_Reviews_Amount row = Some n.
Proof.
  exact (review_cleaning_shape Polars.TextKept sample_reviews sample_frame
                               (review_cleaning_sample Polars.TextKept)).
Defined.

Lemma Followers_Amount_row_range (nv : Polars.null_value) (raw : string) (n : Z) :
  Followers_Amount_row nv raw = Ok (Some n) -> Polars.in_int32 n = true.
Proof.
  unfold Followers_Amount_row. intros H.
  destruct (Followers_value_row raw) as [[v|]|e]; [|destruct nv|]; cbn [bind] in H;
    try discriminate;
    unfold Followers_strip in H;
    (destruct (Polars.String_to_Int32 _) as [m|] eqn:E; cbn [raise_if_none bind] in H;
     [|discriminate]);
    injection H as <-; exact (String_to_Int32_range _ _ E).
Qed.

Lemma Rating_row_range (rating : option string) (n : Z) :
  Rating_row rating = Ok (Some n) -> Polars.in_int32 n = true.
Proof.
  unfold Rating_row. intros H. destruct rating as [s|]; [|discriminate].
  destruct (Regex.extract rating_pattern s) as [number|]; [|discriminate].
  destruct (Polars.String_to_Int32 number) as [m|] eqn:E; cbn [raise_if_none bind] in H;
    [|discriminate].
  injection H as <-. exact (String_to_Int32_range _ _ E).
Qed.

(** X6. Every number of a cleaned frame is an Int32: a reviews count, a
    followers count or a rating that is not null lies between -2^31 and
    2^31 - 1. *)
Theorem review_cleaning_Int32 :
  forall (nv : Polars.null_value) (review : list RawReview) (df : list CleanedReviewRow),
    review_cleaning nv review = Ok df ->
    forall row, In row df ->
      (forall n, row_Reviews_Amount row = Some n -> - 2 ^ 31 <= n <= 2 ^ 31 - 1)
      /\ (forall n, row_Followers_Amount row = Some n -> - 2 ^ 31 <= n <= 2 ^ 31 - 1)
      /\ (forall n, row_Rating row = Some n -> - 2 ^ 31 <= n <= 2 ^ 31 - 1).
Proof.
  intros nv review df H row Hin.
  assert (Hrange : forall n, Polars.in_int32 n = true -> - 2 ^ 31 <= n <= 2 ^ 31 - 1).
  { intros n Hn. unfold Polars.in_int32, Polars.int32_min, Polars.int32_max in Hn.
    apply andb_prop in Hn as [Hlo Hhi]. apply Z.leb_le in Hlo, Hhi. lia. }
  destruct (review_cleaning_row_of _ _ H row Hin) as (k & d & Hd & Hrow).
  destruct (review_cleaning_row _ _ H k d Hd)
    as (row' & m & Hrow' & _ & _ & Hm & Hra & Hfa & Hrt).
  assert (row' = row) as -> by congruence.
  split; [|split]; intros n Hn; apply Hrange.
  - unfold Reviews_Amount_row in Hm. apply String_to_Int32_range in Hm. congruence.
  - rewrite Hn in Hfa. exact (Followers_Amount_row_range _ _ _ Hfa).
  - rewrite Hn in Hrt. exact (Rating_row_range _ _ Hrt).
Qed.

Lemma review_cleaning_Int32_witness :
  review_cleaning Polars.TextKept sample_reviews = Ok sample_frame
  /\ In row_Bob sample_frame
  /\ - 2 ^ 31 <= 3 <= 2 ^ 31 - 1.
Proof.
  split; [exact (review_cleaning_sample Polars.TextKept)|].
  split; [right; left; reflexivity|].
  apply (proj1 (proj2 (review_cleaning_Int32 Polars.TextKept sample_reviews sample_frame
                         (review_cleaning_sample Polars.TextKept) row_Bob
                         (or_intror (or_introl eq_refl))))
               3 eq_refl).
Defined.

(** X7. A row of a cleaned frame depends only on the five fields of its
    dictionary that are kept: two dictionaries with the same name, count
    texts, rating and body give the same row, whatever their index, link,
    books and author mark, the frames they are in and their positions. *)
Theorem review_cleaning_row_by_row :
  forall (nv : Polars.null_value) (review review' : list RawReview) (df df' : list CleanedReviewRow)
         (k k' : nat) (d d' : RawReview) (row row' : CleanedReviewRow),
    review_cleaning nv review = Ok df -> review_cleaning nv review' = Ok df' ->
    nth_error review k = Some d -> nth_error review' k' = Some d' ->
    nth_error df k = Some row -> nth_error df' k' = Some row' ->
    Name (Profile_Info d) = Name (Profile_Info d') ->
    Reviews_Amount (Profile_Info d) = Reviews_Amount (Profile_Info d') ->
    Followers_Amount (Profile_Info d) = Followers_Amount (Profile_Info d') ->
    Rating d = Rating d' ->
    Content d = Content d' ->
    row = row'.
Proof.
  intros nv review review' df df' k k' d d' row row' H H' Hd Hd' Hrow Hrow' En Er Ef Et Ec.
  destruct (review_cleaning_row _ _ H k d Hd) as (r & n & Hr & Hn & Hc & _ & Hra & Hfa & Hrt).
  destruct (review_cleaning_row _ _ H' k' d' Hd')
    as (r' & n' & Hr' & Hn' & Hc' & _ & Hra' & Hfa' & Hrt').
  assert (r = row) as -> by congruence. assert (r' = row') as -> by congruence.
  destruct (review_cleaning_inv _ _ H) as [_ Hrows].
  destruct (review_cleaning_inv _ _ H') as [_ Hrows'].
  destruct (Hrows k d Hd) as (r & Hr2 & _ & _ & Hrev & _).
  destruct (Hrows' k' d' Hd') as (r' & Hr2' & _ & _ & Hrev' & _).
  assert (r = row) as -> by congruence. assert (r' = row') as -> by congruence.
  rewrite Er in Hrev. rewrite Ef in Hfa. rewrite Et in Hrt.
  destruct row, row'. cbn in *. f_equal; congruence.
Qed.

Lemma review_cleaning_row_by_row_witness :
  review_cleaning Polars.TextKept sample_reviews = Ok sample_frame
  /\ review_cleaning Polars.TextKept [sample_review_Alice; sample_review_Alice; other_Bob]
     = Ok [ {| row_Name := "Alice"; row_Reviews_Amount := Some 5;
               row_Followers_Amount := Some 1200; row_Rating := Some 5;
               row_Content := "Loved the pacing." |};
            {| row_Name := "Alice"; row_Reviews_Amount := Some 5;
               row_Followers_Amount := Some 1200; row_Rating := Some 5;
               row_Content := "Loved the pacing." |};
            row_Bob ]
  /\ row_Bob = row_Bob.
Proof.
  assert (H : review_cleaning Polars.TextKept sample_reviews = Ok sample_frame)
    by (vm_compute; reflexivity).
  assert (H' : review_cleaning Polars.TextKept
                               [sample_review_Alice; sample_review_Alice; other_Bob]
               = Ok [ {| row_Name := "Alice"; row_Reviews_Amount := Some 5;
                         row_Followers_Amount := Some 1200; row_Rating := Some 5;
                         row_Content := "Loved the pacing." |};
                      {| row_Name := "Alice"; row_Reviews_Amount := Some 5;
                         row_Followers_Amount := Some 1200; row_Rating := Some 5;
                         row_Content := "Loved the pacing." |};
                      row_Bob ]) by (vm_compute; reflexivity).
  split; [exact H|]. split; [exact H'|].
  exact (review_cleaning_row_by_row _ _ _ _ _ 1%nat 2%nat sample_review_Bob other_Bob
                                    row_Bob row_Bob H H' eq_refl eq_refl eq_refl eq_refl
                                    eq_refl eq_refl eq_refl eq_refl eq_refl).
Defined.

(** ** One bad text fails the frame *)

Lemma review_cleaning_In_row {nv : Polars.null_value} (review : list RawReview) (df : list CleanedReviewRow)
      (d : RawReview) :
  review_cleaning nv review = Ok df -> In d review ->
  (exists n, Reviews_Amount_row (Reviews_Amount (Profile_Info d)) = Some n)
  /\ (exists f, Followers_Amount_row nv (Followers_Amount (Profile_Info d)) = Ok f)
  /\ (exists r, Rating_row (Rating d) = Ok r).
Proof.
  intros H Hin. apply In_nth_error in Hin as [k Hk].
  destruct (review_cleaning_row _ _ H k d Hk) as (row & n & _ & _ & _ & Hn & _ & Hf & Hr).
  split; [now exists n|]. split; [now exists (row_Followers_Amount row)|].
  now exists (row_Rating row).
Qed.

(** X8. The cleaning is all or nothing over the frame.  A reviews text or a
    rating label on which the column's expression raises when it is alone
    in a frame, and a followers text on which it raises by a failed cast,
    make [review_cleaning] raise for every list that holds it: no row is
    returned for the other dictionaries.  (A rating that is [None] is not a
    label: a column of such ratings only has no text and is not computed,
    while beside a label a [None] is a null row.) *)
Theorem review_cleaning_all_or_nothing :
  forall (nv : Polars.null_value) (review : list RawReview) (d : RawReview),
    In d review ->
    (exists e, Reviews_Amount_expr [Some (Reviews_Amount (Profile_Info d))] = Raise e)
    \/ (exists label e, Rating d = Some label /\ Rating_expr [Some label] = Raise e)
    \/ Followers_Amount_expr nv [Some (Followers_Amount (Profile_Info d))]
       = Raise Polars.InvalidOperationError ->
    exists e, review_cleaning nv review = Raise e.
Proof.
  intros nv review d Hin Hbad.
  destruct (review_cleaning nv review) as [df|e] eqn:H; [exfalso | now exists e].
  destruct (review_cleaning_In_row _ _ _ H Hin) as ((n & Hn) & (f & Hf) & (r & Hr)).
  destruct Hbad as [[e He] | [(label & e & Hlabel & He) | He]].
  - rewrite Reviews_Amount_expr_rows, cast_cons in He. cbn [Polars.cast_value] in He.
    rewrite Hn in He. discriminate He.
  - rewrite Rating_expr_rows in He. cbn [forallb Polars.is_null andb mapM] in He.
    rewrite Hlabel in Hr. rewrite Hr in He. discriminate He.
  - destruct nv.
    + rewrite Followers_Amount_expr_one_row, Hf in He.
      destruct (Followers_value_row _) as [[v|]|e]; discriminate He.
    + change [Some (Followers_Amount (Profile_Info d))]
        with (map Some [Followers_Amount (Profile_Info d)]) in He.
      rewrite Followers_Amount_expr_rows in He by discriminate.
      cbn [mapM] in He. rewrite Hf in He. discriminate He.
Qed.

Lemma review_cleaning_all_or_nothing_witness :
  exists e, review_cleaning Polars.TextKept [sample_review_Alice; two_commas_review] = Raise e.
Proof.
  apply (review_cleaning_all_or_nothing Polars.TextKept
                                        [sample_review_Alice; two_commas_review]
                                        two_commas_review).
  - right. left. reflexivity.
  - left. exists Polars.InvalidOperationError. vm_compute. reflexivity.
Defined.

(** ** The rating column, on every label *)

Lemma rmatch_Lit_mismatch {R} (p s : string) (cap : option string) (k : @Regex.cont R) :
  Text.starts_with p s = false -> Regex.rmatch (Regex.Lit p) s cap k = None.
Proof.
  revert s cap. induction p as [|c p IH]; intros s cap H; [discriminate|].
  unfold Regex.Char. cbn [Regex.Lit Regex.rmatch].
  destruct s as [|a s]; [reflexivity|].
  cbn [Text.starts_with] in H. unfold Regex.Char. cbn [Regex.rmatch].
  destruct (Ascii.eqb c a); [|reflexivity]. now apply IH.
Qed.

Lemma contains_suffix (p t s : string) :
  Text.contains p s = false -> suffix_of t s -> Text.starts_with p t = false.
Proof.
  intros H [u ->]. induction u as [|a u IH].
  - destruct t; cbn [append Text.contains] in H; now apply orb_false_elim in H.
  - apply IH. cbn [append Text.contains] in H. now apply orb_false_elim in H.
Qed.

Lemma extract_rating_absent (s : string) :
  Text.contains "Rating " s = false -> Regex.extract rating_pattern s = None.
Proof.
  intros H. unfold Regex.extract. rewrite search_none; [reflexivity|].
  intros t Ht. unfold Regex.match_here, rating_pattern. cbn [Regex.rmatch].
  apply rmatch_Lit_mismatch. exact (contains_suffix _ _ _ H Ht).
Qed.

Lemma extract_rating_number (c : ascii) (run t : string) :
  Text.is_digit c = true -> Text.all_digits run = true ->
  Regex.extract rating_pattern ("Rating " ++ String c run ++ " out of" ++ t)
  = Some (String c run).
Proof.
  intros Hc Hrun. unfold Regex.extract.
  rewrite (search_here _ _ {| Regex.before := ""; Regex.group1 := Some (String c run);
                              Regex.after := t |}); [reflexivity|].
  unfold Regex.match_here, rating_pattern. cbn [Regex.rmatch].
  rewrite rmatch_Lit_here. unfold Regex.digit. cbn [Regex.rmatch].
  change (String c run ++ " out of" ++ t) with (String c (run ++ " out of" ++ t)).
  apply rmatch_Plus_greedy; try assumption; [reflexivity|].
  rewrite rmatch_Lit_here.
  change (String c (run ++ " out of" ++ t)) with (String c run ++ " out of" ++ t).
  now rewrite take_append.
Qed.

(** X9. In a cleaned frame the rating of a label "Rating <digits> out of
    ..." is the number the digits write, whatever it is (it is not held to
    0..5), and the rating of a label without "Rating " is null.  A label
    whose number is not an Int32 is not tolerated: it makes the cleaning
    raise. *)
Theorem review_cleaning_Rating :
  (forall (nv : Polars.null_value) (review : list RawReview)
         (df : list CleanedReviewRow) (k : nat)
          (d : RawReview) (row : CleanedReviewRow),
      review_cleaning nv review = Ok df ->
      nth_error review k = Some d -> nth_error df k = Some row ->
      (forall c run t,
          Text.is_digit c = true -> Text.all_digits run = true ->
          Rating d = Some ("Rating " ++ String c run ++ " out of" ++ t) ->
          row_Rating row = Some (Text.digits_val (String c run)))
      /\ (forall s, Rating d = Some s -> Text.contains "Rating " s = false ->
                    row_Rating row = None))
  /\ (forall (nv : Polars.null_value) (review : list RawReview) (d : RawReview) c run t,
         In d review ->
         Text.is_digit c = true -> Text.all_digits run = true ->
         Rating d = Some ("Rating " ++ String c run ++ " out of" ++ t) ->
         Polars.in_int32 (Text.digits_val (String c run)) = false ->
         exists e, review_cleaning nv review = Raise e).
Proof.
  assert (Hrow : forall c run t,
             Text.is_digit c = true -> Text.all_digits run = true ->
             Rating_row (Some ("Rating " ++ String c run ++ " out of" ++ t))
             = (n <- raise_if_none
                       (if Polars.in_int32 (Text.digits_val (String c run))
                        then Some (Text.digits_val (String c run)) else None) ;;
                Ok (Some n))).
  { intros c run t Hc Hrun. unfold Rating_row.
    rewrite (extract_rating_number _ _ _ Hc Hrun), (String_to_Int32_digits _ _ Hc).
    unfold Text.all_digits in *. cbn [Text.all_of]. now rewrite Hc, Hrun. }
  split.
  - intros nv review df k d row H Hd Hrow'.
    destruct (review_cleaning_row _ _ H k d Hd) as (r & n & Hr & _ & _ & _ & _ & _ & Hrt).
    assert (r = row) as -> by congruence.
    split.
    + intros c run t Hc Hrun Hlabel. rewrite Hlabel, (Hrow _ _ _ Hc Hrun) in Hrt.
      destruct (Polars.in_int32 _); cbn [raise_if_none bind] in Hrt; congruence.
    + intros s Hlabel Habsent. rewrite Hlabel in Hrt. unfold Rating_row in Hrt.
      rewrite (extract_rating_absent _ Habsent) in Hrt. congruence.
  - intros nv review d c run t Hin Hc Hrun Hlabel Hbig.
    destruct (review_cleaning nv review) as [df|e] eqn:H; [exfalso | now exists e].
    destruct (review_cleaning_In_row _ _ _ H Hin) as (_ & _ & (r & Hr)).
    rewrite Hlabel, (Hrow _ _ _ Hc Hrun), Hbig in Hr. discriminate Hr.
Qed.

Lemma review_cleaning_Rating_witness :
  row_Rating {| row_Name := "Alice"; row_Reviews_Amount := Some 5;
                row_Followers_Amount := Some 1200; row_Rating := Some 5;
                row_Content := "Loved the pacing." |}
  = Some (Text.digits_val "5")
  /\ exists e, review_cleaning Polars.TextKept [big_rating_review; sample_review_Bob]
               = Raise e.
Proof.
  split.
  - apply (proj1 (proj1 review_cleaning_Rating Polars.TextKept sample_reviews sample_frame
                        0%nat sample_review_Alice _
                        (review_cleaning_sample Polars.TextKept) eq_refl eq_refl)
                 "5"%char "" " 5" eq_refl eq_refl eq_refl).
  - apply (proj2 review_cleaning_Rating Polars.TextKept
                 [big_rating_review; sample_review_Bob]
                 big_rating_review "9"%char "9999999999" " 5");
      try reflexivity. left. reflexivity.
Defined.

(** ** The count columns, on every count of the usual shapes *)

Lemma Float64_to_Int32_trunc (x : Float64.t) (v : option Z) :
  Polars.cast_value Polars.Float64_to_Int32 (Some x) = Ok v ->
  exists n, v = Some n /\ Float64.trunc x = Some n /\ Polars.in_int32 n = true.
Proof.
  intros H. apply cast_value_Ok in H as (n & Hn & ->). exists n. split; [reflexivity|].
  unfold Polars.Float64_to_Int32 in Hn. destruct (Float64.trunc x) as [m|]; [|discriminate].
  destruct (Polars.in_int32 m) eqn:E; [|discriminate]. injection Hn as <-. now split.
Qed.

(** X10. In a cleaned frame, the followers count of a text
    "<digits>[.<digits>]k followers" (with [k] or [K] and any whitespace
    before "followers") is the integer part of the Float64 product of the
    number and 1000: the fraction of the product is dropped, not
    rounded. *)
Theorem review_cleaning_Followers_thousands :
  forall (nv : Polars.null_value) (review : list RawReview)
         (df : list CleanedReviewRow) (k : nat)
         (d : RawReview) (row : CleanedReviewRow),
    review_cleaning nv review = Ok df ->
    nth_error review k = Some d -> nth_error df k = Some row ->
    forall (c kc w : ascii) (run ws : string),
      Text.is_digit c = true -> Text.all_digits run = true ->
      (Ascii.eqb kc "k" || Ascii.eqb kc "K")%bool = true ->
      Regex.is_space w = true -> Text.all_of Regex.is_space ws = true ->
      (Followers_Amount (Profile_Info d)
       = String c run ++ String kc (String w ws) ++ "followers" ->
       exists n,
         row_Followers_Amount row = Some n
         /\ Float64.trunc (Float64.mul (Float64.of_decimal (String c run) "")
                                       (Float64.of_Z 1000)) = Some n)
      /\ (forall (f : ascii) (fp : string),
             Text.is_digit f = true -> Text.all_digits fp = true ->
             Followers_Amount (Profile_Info d)
             = String c run ++ String "." (String f fp) ++ String kc (String w ws)
                      ++ "followers" ->
             exists n,
               row_Followers_Amount row = Some n
               /\ Float64.trunc (Float64.mul (Float64.of_decimal (String c run) (String f fp))
                                             (Float64.of_Z 1000)) = Some n).
Proof.
  intros nv review df k d row H Hd Hrow c kc w run ws Hc Hrun Hk Hw Hws.
  destruct (review_cleaning_row _ _ H k d Hd) as (r & m & Hr & _ & _ & _ & _ & Hfa & _).
  assert (r = row) as -> by congruence.
  split.
  - intros Hraw. rewrite Hraw, Followers_Amount_row_thousands in Hfa by assumption.
    apply Float64_to_Int32_trunc in Hfa as (n & Hn & Ht & _). now exists n.
  - intros f fp Hf Hfp Hraw.
    rewrite Hraw, Followers_Amount_row_thousands_fraction in Hfa by assumption.
    apply Float64_to_Int32_trunc in Hfa as (n & Hn & Ht & _). now exists n.
Qed.

Lemma review_cleaning_Followers_thousands_witness :
  exists n,
    row_Followers_Amount {| row_Name := "Alice"; row_Reviews_Amount := Some 5;
                            row_Followers_Amount := Some 1200; row_Rating := Some 5;
                            row_Content := "Loved the pacing." |} = Some n
    /\ Float64.trunc (Float64.mul (Float64.of_decimal "1" "2") (Float64.of_Z 1000)) = Some n.
Proof.
  apply (proj2 (review_cleaning_Followers_thousands
                  Polars.TextKept sample_reviews sample_frame 0%nat sample_review_Alice _
                  (review_cleaning_sample Polars.TextKept) eq_refl eq_refl
                  "1"%char "k"%char " "%char "" "" eq_refl eq_refl eq_refl eq_refl eq_refl)
               "2"%char "" eq_refl eq_refl eq_refl).
Defined.

(** X11. In a cleaned frame, the followers count of a text
    "<digits> followers" or "<digits> follower" is the number the digits
    write.  The replacement value is computed for such a text too: the
    frame is only cleaned if a thousand times the number, as a Float64, is
    an Int32 as well. *)
Theorem review_cleaning_Followers_plain :
  forall (nv : Polars.null_value) (review : list RawReview)
         (df : list CleanedReviewRow) (k : nat)
         (d : RawReview) (row : CleanedReviewRow),
    review_cleaning nv review = Ok df ->
    nth_error review k = Some d -> nth_error df k = Some row ->
    forall (c : ascii) (run : string),
      Text.is_digit c = true -> Text.all_digits run = true ->
      Followers_Amount (Profile_Info d) = String c run ++ " followers"
      \/ Followers_Amount (Profile_Info d) = String c run ++ " follower" ->
      row_Followers_Amount row = Some (Text.digits_val (String c run))
      /\ exists m,
          Float64.trunc (Float64.mul (Float64.of_decimal (String c run) "")
                                     (Float64.of_Z 1000)) = Some m
          /\ - 2 ^ 31 <= m <= 2 ^ 31 - 1.
Proof.
  intros nv review df k d row H Hd Hrow c run Hc Hrun Hraw.
  destruct (review_cleaning_row _ _ H k d Hd) as (r & m & Hr & _ & _ & _ & _ & Hfa & _).
  assert (r = row) as -> by congruence.
  destruct (Followers_Amount_row_plain nv c run Hc Hrun) as [Hplural Hsingular].
  cbv zeta in Hplural, Hsingular.
  assert (Hcount : (_ <- raise_if_none
                          (Polars.Float64_to_Int32
                             (Float64.mul (Float64.of_decimal (String c run) "")
                                          (Float64.of_Z 1000))) ;;
                    Polars.cast_value Polars.String_to_Int32 (Some (String c run)))
                   = Ok (row_Followers_Amount row)).
  { destruct Hraw as [Hraw | Hraw]; rewrite Hraw in Hfa; congruence. }
  unfold Polars.Float64_to_Int32 in Hcount.
  destruct (Float64.trunc _) as [t|]; [|discriminate Hcount].
  destruct (Polars.in_int32 t) eqn:Ht; cbn [raise_if_none bind] in Hcount;
    [|discriminate Hcount].
  apply cast_value_Ok in Hcount as (n & Hn & ->).
  rewrite (String_to_Int32_digits _ _ Hc) in Hn.
  destruct (Text.all_digits (String c run)); [|discriminate Hn].
  destruct (Polars.in_int32 (Text.digits_val (String c run))); [|discriminate Hn].
  split; [congruence|]. exists t. split; [reflexivity|].
  unfold Polars.in_int32, Polars.int32_min, Polars.int32_max in Ht.
  apply andb_prop in Ht as [Hlo Hhi]. apply Z.leb_le in Hlo, Hhi. lia.
Qed.

Lemma review_cleaning_Followers_plain_witness :
  row_Followers_Amount row_Bob = Some (Text.digits_val "3")
  /\ exists m,
      Float64.trunc (Float64.mul (Float64.of_decimal "3" "") (Float64.of_Z 1000)) = Some m
      /\ - 2 ^ 31 <= m <= 2 ^ 31 - 1.
Proof.
  apply (review_cleaning_Followers_plain
           Polars.TextKept sample_reviews sample_frame 1%nat sample_review_Bob row_Bob
           (review_cleaning_sample Polars.TextKept) eq_refl eq_refl
           "3"%char "" eq_refl eq_refl).
  left. reflexivity.
Defined.

(** X12. In a cleaned frame, the reviews count of a text
    "<digits> reviews", "<digits> review" or "<digits>,<digits> reviews"
    is the number written by the digits. *)
Theorem review_cleaning_Reviews_plain :
  forall (nv : Polars.null_value) (review : list RawReview)
         (df : list CleanedReviewRow) (k : nat)
         (d : RawReview) (row : CleanedReviewRow),
    review_cleaning nv review = Ok df ->
    nth_error review k = Some d -> nth_error df k = Some row ->
    forall (c : ascii) (run : string),
      Text.is_digit c = true -> Text.all_digits run = true ->
      (Reviews_Amount (Profile_Info d) = String c run ++ " reviews"
       \/ Reviews_Amount (Profile_Info d) = String c run ++ " review" ->
       row_Reviews_Amount row = Some (Text.digits_val (String c run)))
      /\ (forall ds, Text.all_digits ds = true ->
                     Reviews_Amount (Profile_Info d) = String c run ++ "," ++ ds ++ " reviews" ->
                     row_Reviews_Amount row = Some (Text.digits_val (String c run ++ ds))).
Proof.
  intros nv review df k d row H Hd Hrow c run Hc Hrun.
  destruct (review_cleaning_row _ _ H k d Hd) as (r & n & Hr & _ & _ & Hn & Hra & _).
  assert (r = row) as -> by congruence.
  assert (Hds : Text.all_digits (String c run) = true).
  { unfold Text.all_digits in *. cbn [Text.all_of]. now rewrite Hc, Hrun. }
  destruct (Reviews_Amount_row_plain _ Hds) as (Hplural & Hsingular & Hcomma).
  assert (Hread : forall s, Text.all_digits (String c s) = true ->
                            Polars.String_to_Int32 (String c s) = Some n ->
                            n = Text.digits_val (String c s)).
  { intros s Hs E. rewrite (String_to_Int32_digits _ _ Hc), Hs in E.
    destruct (Polars.in_int32 _); congruence. }
  split.
  - intros Hraw. rewrite Hra. f_equal. apply (Hread run Hds).
    destruct Hraw as [Hraw | Hraw]; rewrite Hraw in Hn; congruence.
  - intros ds Hdigits Hraw. rewrite Hra. f_equal.
    rewrite Hraw, (Hcomma ds Hdigits) in Hn.
    apply (Hread (run ++ ds)); [|exact Hn].
    change (String c (run ++ ds)) with (String c run ++ ds).
    unfold Text.all_digits in *. now rewrite all_of_append, Hds, Hdigits.
Qed.

Lemma review_cleaning_Reviews_plain_witness :
  row_Reviews_Amount {| row_Name := "Alice"; row_Reviews_Amount := Some 5;
                        row_Followers_Amount := Some 1200; row_Rating := Some 5;
                        row_Content := "Loved the pacing." |}
  = Some (Text.digits_val "5").
Proof.
  apply (proj1 (review_cleaning_Reviews_plain
                  Polars.TextKept sample_reviews sample_frame 0%nat sample_review_Alice _
                  (review_cleaning_sample Polars.TextKept) eq_refl eq_refl
                  "5"%char "" eq_refl eq_refl)).
  left. reflexivity.
Defined.

(** ** The run *)

Lemma review_cleaning_Content {nv : Polars.null_value} (review : list RawReview)
      (df : list CleanedReviewRow) :
  review_cleaning nv review = Ok df -> map row_Content df = map Content review.
Proof.
  intros H. destruct (review_cleaning_inv _ _ H) as [Hlen Hrows].
  apply nth_error_ext. intros k. rewrite !nth_error_map.
  destruct (nth_error review k) as [d|] eqn:Hd.
  - destruct (Hrows k d Hd) as (row & Hrow & _ & Hc & _). rewrite Hrow. cbn. now rewrite Hc.
  - apply nth_error_None in Hd.
    assert (Hnone : nth_error df k = None) by (apply nth_error_None; lia).
    now rewrite Hnone.
Qed.

(** X13. When the page is fetched, extracted and cleaned without error,
    the four cells run and the outcome is the model's answer to two
    messages: the system prompt, and, as the human message, the stripped
    review bodies of the cards in page order, joined by newlines; the model
    asked is "llama3.2:3b".  The title, the author, the counts and the
    ratings do not reach the model. *)
Theorem run_all_summary :
  forall (requests_get : string -> list (string * string) -> result exn response)
         (ChatOllama_invoke : string -> list (string * string) -> result exn string)
         (nv : Polars.null_value) (url : string) (status_code : Z) (content : list Soup.node)
         (title author : string) (all_reviews : list RawReview)
         (df : list CleanedReviewRow),
    requests_get url headers = Ok (Response status_code content) ->
    extract_reviews content = Ok (title, author, all_reviews) ->
    review_cleaning nv all_reviews = Ok df ->
    run_all requests_get ChatOllama_invoke nv url
    = ([cell_find_review; cell_review_cleaning; cell_extract_content; cell_llm_summarise],
       ChatOllama_invoke
         "llama3.2:3b"
         [("system", system_prompt);
          ("human", Text.join (String newline "") (map Content all_reviews))]).
Proof.
  intros rg llm nv url st content title author revs df Hget Hex Hclean.
  unfold run_all, find_review, llm_summarise. rewrite Hget. cbn [bind].
  rewrite Hex, Hclean, extract_content_join, (review_cleaning_Content _ _ Hclean).
  reflexivity.
Qed.

Lemma run_all_summary_witness :
  run_all (fun _ _ => Ok (Response 200 sample_page))
          (fun _ messages => Ok (String.concat "|" (map snd messages)))
          Polars.TextKept "https://www.goodreads.com/book/show/1"
  = ([cell_find_review; cell_review_cleaning; cell_extract_content; cell_llm_summarise],
     Ok (String.concat "|"
           [system_prompt;
            Text.join (String newline "") (map Content sample_reviews)])).
Proof.
  apply (run_all_summary (fun _ _ => Ok (Response 200 sample_page))
                         (fun _ messages => Ok (String.concat "|" (map snd messages)))
                         Polars.TextKept
                         "https://www.goodreads.com/book/show/1" 200 sample_page
                         "A Book" "An Author" sample_reviews sample_frame).
  - reflexivity.
  - vm_compute. reflexivity.
  - vm_compute. reflexivity.
Defined.

(** X14. The run stops at the first cell that raises.  The cells that ran
    are the first one, the first two, or all four; the model is called
    exactly when the page was fetched and extracted and the frame was
    cleaned; when it is not called the outcome does not depend on it,
    and a failure of the cleaning is the outcome of the run. *)
Theorem run_all_stops :
  forall (requests_get : string -> list (string * string) -> result exn response)
         (ChatOllama_invoke : string -> list (string * string) -> result exn string)
         (nv : Polars.null_value) (url : string),
    let ran := fst (run_all requests_get ChatOllama_invoke nv url) in
    (ran = [cell_find_review]
     \/ ran = [cell_find_review; cell_review_cleaning]
     \/ ran = [cell_find_review; cell_review_cleaning; cell_extract_content;
               cell_llm_summarise])
    /\ (In cell_llm_summarise ran <->
        exists title author all_reviews df,
          find_review requests_get url = Ok (title, author, all_reviews)
          /\ review_cleaning nv all_reviews = Ok df)
    /\ (forall other_model,
           ~ In cell_llm_summarise ran ->
           run_all requests_get other_model nv url
           = run_all requests_get ChatOllama_invoke nv url)
    /\ (forall title author all_reviews e,
           find_review requests_get url = Ok (title, author, all_reviews) ->
           review_cleaning nv all_reviews = Raise e ->
           run_all requests_get ChatOllama_invoke nv url
           = ([cell_find_review; cell_review_cleaning], Raise (PolarsError e))).
Proof.
  intros rg llm nv url ran. subst ran. unfold run_all.
  destruct (find_review rg url) as [[[title author] revs]|e] eqn:Hfind.
  - destruct (review_cleaning nv revs) as [df|e] eqn:Hclean; cbn [fst].
    + split; [now right; right|]. split; [|split].
      * split; [intros _; now exists title, author, revs, df|].
        intros _. cbn. tauto.
      * intros other Hnot. exfalso. apply Hnot. cbn. tauto.
      * intros t a r e E. injection E as <- <- <-. congruence.
    + split; [now right; left|]. split; [|split].
      * split; [intros [H | [H | []]]; discriminate H|].
        intros (t & a & r & df & E & Hdf). injection E as <- <- <-. congruence.
      * reflexivity.
      * intros t a r e' E Hr. injection E as <- <- <-. congruence.
  - cbn [fst]. split; [now left|]. split; [|split].
    + split; [intros [H | []]; discriminate H|].
      intros (t & a & r & df & E & _). discriminate E.
    + reflexivity.
    + intros t a r e' E. discriminate E.
Qed.

Lemma run_all_stops_witness :
  run_all (fun _ _ => Ok (Response 200 untitled_page)) (fun _ _ => Raise OllamaError)
          Polars.TextKept "https://www.goodreads.com/book/show/1"
  = run_all (fun _ _ => Ok (Response 200 untitled_page)) (fun _ _ => Ok "summary")
            Polars.TextKept "https://www.goodreads.com/book/show/1"
  /\ run_all (fun _ _ => Ok (Response 200 sample_page)) (fun _ _ => Ok "summary")
             Polars.TextKept "https://www.goodreads.com/book/show/1"
     <> run_all (fun _ _ => Ok (Response 200 sample_page)) (fun _ _ => Raise OllamaError)
                Polars.TextKept "https://www.goodreads.com/book/show/1".
Proof.
  split.
  - apply (proj1 (proj2 (proj2 (run_all_stops
                                  (fun _ _ => Ok (Response 200 untitled_page))
                                  (fun _ _ => Ok "summary")
                                  Polars.TextKept
                                  "https://www.goodreads.com/book/show/1")))).
    vm_compute. intros [H | []]. discriminate H.
  - vm_compute. discriminate.
Defined.

(** X15. A page whose second review list holds no card is extracted
    without error, to an empty list; the frame built from it has no
    column, so the cleaning raises and the run stops in the second cell:
    nothing is summarised. *)
Theorem run_all_no_cards :
  forall (requests_get : string -> list (string * string) -> result exn response)
         (ChatOllama_invoke : string -> list (string * string) -> result exn string)
         (nv : Polars.null_value) (url : string) (status_code : Z) (content : list Soup.node),
    requests_get url headers = Ok (Response status_code content) ->
    well_formed content = true ->
    articles content = [] ->
    (exists title author, find_review requests_get url = Ok (title, author, []))
    /\ run_all requests_get ChatOllama_invoke nv url
       = ([cell_find_review; cell_review_cleaning],
          Raise (PolarsError Polars.ColumnNotFoundError)).
Proof.
  intros rg llm nv url st content Hget Hwf Hnone.
  destruct (extract_reviews_total _ Hwf) as (title & author & revs & Hex & Hcards).
  rewrite Hnone in Hcards. cbn [review_cards] in Hcards. injection Hcards as <-.
  assert (Hfind : find_review rg url = Ok (title, author, [])).
  { unfold find_review. now rewrite Hget. }
  split; [now exists title, author|].
  unfold run_all. now rewrite Hfind.
Qed.

Lemma run_all_no_cards_witness :
  (exists title author,
      find_review (fun _ _ => Ok (Response 200 empty_lists_page))
                  "https://www.goodreads.com/book/show/1" = Ok (title, author, []))
  /\ run_all (fun _ _ => Ok (Response 200 empty_lists_page)) (fun _ _ => Ok "summary")
             Polars.TextKept "https://www.goodreads.com/book/show/1"
     = ([cell_find_review; cell_review_cleaning],
        Raise (PolarsError Polars.ColumnNotFoundError)).
Proof.
  apply (run_all_no_cards (fun _ _ => Ok (Response 200 empty_lists_page))
                          (fun _ _ => Ok "summary") Polars.TextKept
                          "https://www.goodreads.com/book/show/1" 200 empty_lists_page);
    reflexivity.
Defined.

(** ** The aggregated text *)

Lemma join_append (sep : string) (a b : list string) :
  a <> [] -> b <> [] ->
  Text.join sep (a ++ b) = Text.join sep a ++ sep ++ Text.join sep b.
Proof.
  intros Ha Hb. induction a as [|x a IH]; [congruence|].
  destruct a as [|y a].
  - destruct b as [|z b]; [congruence | reflexivity].
  - change (Text.join sep ((x :: y :: a) ++ b))
      with (x ++ sep ++ Text.join sep ((y :: a) ++ b)).
    rewrite IH by discriminate.
    change (Text.join sep (x :: y :: a)) with (x ++ sep ++ Text.join sep (y :: a)).
    now rewrite !append_assoc.
Qed.

(** X16. The aggregated text of two frames put one after the other is the
    aggregated text of the first, a newline, and that of the second; the
    text of a frame of n rows holds the n review bodies and n - 1 newlines
    between them, and nothing else. *)
Theorem extract_content_append :
  (forall df df' : list CleanedReviewRow,
      df <> [] -> df' <> [] ->
      extract_content (df ++ df')
      = extract_content df ++ String newline (extract_content df'))
  /\ (forall df : list CleanedReviewRow,
         df <> [] ->
         (String.length (extract_content df) + 1
          = list_sum (map (fun r => String.length (row_Content r) + 1) df))%nat).
Proof.
  split.
  - intros df df' Hdf Hdf'. rewrite !extract_content_join, map_app.
    rewrite join_append; [reflexivity | |]; now destruct df, df'.
  - intros df Hdf. rewrite extract_content_join.
    induction df as [|r df IH]; [congruence|].
    destruct df as [|r' df].
    + unfold list_sum. cbn [map Text.join fold_right]. lia.
    + change (Text.join (String newline "") (map row_Content (r :: r' :: df)))
        with (row_Content r ++ String newline
                (Text.join (String newline "") (map row_Content (r' :: df)))).
      rewrite length_append. specialize (IH ltac:(discriminate)).
      unfold list_sum in *. cbn [String.length map fold_right] in *. lia.
Qed.

Lemma extract_content_append_witness :
  extract_content (sample_frame ++ [row_Bob])
  = extract_content sample_frame ++ String newline (extract_content [row_Bob])
  /\ (String.length (extract_content sample_frame) + 1
      = list_sum (map (fun r => String.length (row_Content r) + 1) sample_frame))%nat.
Proof.
  split.
  - apply (proj1 extract_content_append); discriminate.
  - apply (proj2 extract_content_append). discriminate.
Defined.

(** ** A followers text without a number *)

Lemma extract_number_absent (s : string) :
  Text.all_of (fun c => negb (Text.is_digit c)) s = true ->
  Regex.extract number_pattern s = None.
Proof.
  intros H. unfold Regex.extract. rewrite search_none; [reflexivity|].
  intros t Ht. pose proof (all_of_suffix _ _ _ Ht H) as Hall.
  unfold Regex.match_here, number_pattern, Regex.Plus, Regex.digit. cbn [Regex.rmatch].
  destruct t as [|a t]; [reflexivity|].
  cbn [Text.all_of] in Hall. apply andb_prop in Hall as [Ha _].
  apply negb_true_iff in Ha. now rewrite Ha.
Qed.

(** What a literal pattern matches is its own text. *)
Lemma rmatch_Lit_inv {R} (p s : string) (cap : option string) (k : @Regex.cont R) (x : R) :
  Regex.rmatch (Regex.Lit p) s cap k = Some x -> exists t, s = p ++ t /\ k t cap = Some x.
Proof.
  revert s. induction p as [|c p IH]; intros s H; cbn [Regex.Lit Regex.rmatch] in H.
  - now exists s.
  - unfold Regex.Char in H. cbn [Regex.rmatch] in H.
    destruct s as [|a s]; [discriminate H|].
    destruct (Ascii.eqb c a) eqn:E; [|discriminate H].
    apply Ascii.eqb_eq in E as <-.
    destruct (IH s H) as (t & -> & Hk). now exists t.
Qed.

Lemma search_Lit_inv (p s : string) (f : Regex.found) :
  Regex.search (Regex.Lit p) s = Some f ->
  s = Regex.before f ++ p ++ Regex.after f.
Proof.
  revert f. induction s as [|c s IH]; intros f H; cbn [Regex.search] in H.
  - destruct (Regex.match_here (Regex.Lit p) "") as [f'|] eqn:E; [|discriminate H].
    injection H as <-. unfold Regex.match_here in E.
    apply rmatch_Lit_inv in E as (t & Hs & Hf). now injection Hf as <-.
  - destruct (Regex.match_here (Regex.Lit p) (String c s)) as [f'|] eqn:E.
    + injection H as <-. unfold Regex.match_here in E.
      apply rmatch_Lit_inv in E as (t & Hs & Hf). now injection Hf as <-.
    + destruct (Regex.search (Regex.Lit p) s) as [f'|]; [|discriminate H].
      injection H as <-. cbn [Regex.before Regex.after append].
      now rewrite <- (IH f' eq_refl).
Qed.

(** Removing a literal pattern from a text leaves characters of the text. *)
Lemma replace_Lit_all_of (q : ascii -> bool) (p s : string) :
  Text.all_of q s = true -> Text.all_of q (Regex.replace (Regex.Lit p) "" s) = true.
Proof.
  intros H. unfold Regex.replace.
  destruct (Regex.search (Regex.Lit p) s) as [f|] eqn:E; [|exact H].
  rewrite (search_Lit_inv _ _ _ E), !all_of_append in H.
  apply andb_prop in H as [Hb H]. apply andb_prop in H as [_ Ha].
  cbn [append]. now rewrite all_of_append, Hb, Ha.
Qed.

Lemma String_to_Int32_no_digit (s : string) :
  Text.all_of (fun c => negb (Text.is_digit c)) s = true -> Polars.String_to_Int32 s = None.
Proof.
  intros H. destruct s as [|c s]; [reflexivity|].
  cbn [Text.all_of] in H. apply andb_prop in H as [Hc Hs].
  destruct c as [[] [] [] [] [] [] [] []]; try discriminate Hc; try reflexivity;
    (destruct s as [|a s]; [reflexivity|];
     cbn [Text.all_of] in Hs; apply andb_prop in Hs as [Ha _];
     apply negb_true_iff in Ha;
     unfold Polars.String_to_Int32, Text.all_digits; cbn [Text.all_of];
     now rewrite Ha).
Qed.

(** A followers text without a digit fails the cast when it is left as it
    is. *)
Lemma Followers_Amount_row_no_number (raw : string) :
  Text.all_of (fun c => negb (Text.is_digit c)) raw = true ->
  Followers_value_row raw = Ok None
  /\ Followers_Amount_row Polars.NullRow raw = Ok None
  /\ Followers_Amount_row Polars.TextKept raw = Raise Polars.InvalidOperationError.
Proof.
  intros H.
  assert (Hvalue : Followers_value_row raw = Ok None).
  { unfold Followers_value_row. now rewrite (extract_number_absent _ H). }
  unfold Followers_Amount_row. rewrite Hvalue. cbn [bind].
  split; [reflexivity|]. split; [reflexivity|].
  unfold Followers_strip.
  now rewrite String_to_Int32_no_digit by (now repeat apply replace_Lit_all_of).
Qed.

(** X17. A followers text without any digit ('Not Found' is one) never
    gets a count.  No number can be extracted from it, so the replacement
    value of its row is null.  With a Polars that leaves the text of such a
    row as it is (1.35 and later), the text reaches the cast to Int32
    without a digit and the cast fails: the followers expression raises
    [InvalidOperationError] and no frame that holds the text is cleaned.
    With a Polars that makes the row null (before 1.35), the count of the
    row is null in a cleaned frame, which has two rows at least: on a frame
    of that single row [str.replace] raises [ComputeError]. *)
Theorem review_cleaning_Followers_no_number :
  (forall (review : list RawReview) (d : RawReview),
      In d review ->
      Text.all_of (fun c => negb (Text.is_digit c)) (Followers_Amount (Profile_Info d)) = true ->
      Followers_Amount_expr Polars.TextKept (followers_column review)
      = Raise Polars.InvalidOperationError
      /\ exists e, review_cleaning Polars.TextKept review = Raise e)
  /\ (forall (review : list RawReview) (df : list CleanedReviewRow) (k : nat)
             (d : RawReview) (row : CleanedReviewRow),
         review_cleaning Polars.NullRow review = Ok df ->
         nth_error review k = Some d -> nth_error df k = Some row ->
         Text.all_of (fun c => negb (Text.is_digit c)) (Followers_Amount (Profile_Info d))
         = true ->
         row_Followers_Amount row = None /\ (2 <= List.length review)%nat)
  /\ (forall raw : string,
         Text.all_of (fun c => negb (Text.is_digit c)) raw = true ->
         Followers_Amount_expr Polars.NullRow [Some raw] = Raise Polars.ComputeError).
Proof.
  assert (Hone : forall raw, Text.all_of (fun c => negb (Text.is_digit c)) raw = true ->
                             Followers_Amount_expr Polars.NullRow [Some raw]
                             = Raise Polars.ComputeError).
  { intros raw H. destruct (Followers_Amount_row_no_number raw H) as (Hvalue & _).
    now rewrite Followers_Amount_expr_one_row, Hvalue. }
  split; [|split; [|exact Hone]].
  - intros review d Hin Hraw. apply (Followers_Amount_TextKept_raises review d Hin).
    now destruct (Followers_Amount_row_no_number _ Hraw) as (_ & _ & Hkept).
  - intros review df k d row H Hd Hrow Hraw.
    destruct (review_cleaning_row _ _ H k d Hd) as (r & n & Hr & _ & _ & _ & _ & Hfa & _).
    assert (r = row) as -> by congruence.
    destruct (Followers_Amount_row_no_number _ Hraw) as (_ & Hnull & _).
    split; [congruence|].
    destruct review as [|d0 [|d1 review]]; [destruct k; discriminate Hd | | simpl; lia].
    exfalso. destruct k as [|k]; [|destruct k; discriminate Hd].
    injection Hd as ->. apply review_cleaning_columns in H as (ra & fa & rt & _ & Hfa' & _).
    unfold followers_column in Hfa'. cbn [map] in Hfa'.
    rewrite (Hone _ Hraw) in Hfa'. discriminate Hfa'.
Qed.

Lemma review_cleaning_Followers_no_number_witness :
  (Followers_Amount_expr Polars.TextKept (followers_column not_found_reviews)
   = Raise Polars.InvalidOperationError
   /\ exists e, review_cleaning Polars.TextKept not_found_reviews = Raise e)
  /\ (row_Followers_Amount row_Carol = None /\ (2 <= List.length not_found_reviews)%nat)
  /\ Followers_Amount_expr Polars.NullRow [Some "no followers yet"]
     = Raise Polars.ComputeError.
Proof.
  destruct review_cleaning_Followers_no_number as (Hkept & Hnull & Hone).
  split; [|split].
  - apply (Hkept not_found_reviews (not_found_review 1 "Carol" "Rating 4 out of 5"));
      [left; reflexivity | reflexivity].
  - apply (Hnull not_found_reviews [row_Carol; row_Dave] 0%nat
                 (not_found_review 1 "Carol" "Rating 4 out of 5") row_Carol);
      vm_compute; reflexivity.
  - apply Hone. reflexivity.
Defined.
